(** * orbit-AI backend: result normalisation and request orchestration

    A shallow embedding of [backend/app/main.py]: the cell resolver
    [validate_constructor_data], the constructor field expander
    [normalize_constructor_data], the table normaliser [clean_dataframe]
    and the request controller [analyze_f1_data], with the fragment of
    pandas they rely on.

    Modelling conventions.
    - Python values are the JSON-like values [pyval]: [None], booleans,
      integers, floats, text, lists and dicts with text keys (insertion
      ordered, keys pairwise distinct).  Floats are kept as exact dyadic
      numbers [m * 2^e], infinities and NaN; numeric comparison is exact.
    - A raised exception is a value of [exn]; code that may raise returns
      a [result].  Only subclasses of [Exception] are modelled.
    - A [DataFrame] has named columns and labelled rows; the labels of
      the index are integers, [0..n-1] for a table built from records.
      Every cell carries the name of its column, so a row reads like a
      record.  Column names are text and pairwise distinct in a table
      the program receives.  Cells are Python objects; numbers are
      kept by value, integers are taken to fit 64 bits.  The dtype of a
      column is modelled where a table is built from records, in which a
      column of numbers reads [None] as NaN ([convert_object_array]);
      a column of dtype bool is outside the model.
    - [json.loads] and [ast.literal_eval] are library functions; the
      program is parameterised by their behaviour ([Parsers]).
    - Logging is observational and left out. *)

From Stdlib Require Import String Ascii List ZArith Bool Lia.
Import ListNotations.
Local Open Scope string_scope.
Local Open Scope list_scope.
Local Open Scope Z_scope.
Set Warnings "-register-all".

(* ===================================================================== *)
(** ** Python values *)
(* ===================================================================== *)

(** A Python float: NaN, an infinity, or the finite number [m * 2^e]. *)
Inductive pyfloat : Type :=
| FNaN
| FInf (neg : bool)
| FFin (m e : Z).

Inductive pyval : Type :=
| PNone
| PBool (b : bool)
| PInt (z : Z)
| PFloat (f : pyfloat)
| PStr (s : string)
| PList (l : list pyval)
| PDict (kvs : list (string * pyval)).

Definition pydict : Type := list (string * pyval).

Definition NaN : pyval := PFloat FNaN.

(** [isinstance(x, dict)], [isinstance(x, list)], [isinstance(x, str)]. *)
Definition is_dict (v : pyval) : bool :=
  match v with PDict _ => true | _ => false end.

Definition is_list (v : pyval) : bool :=
  match v with PList _ => true | _ => false end.

(** [isinstance(x, (int, float))]; [bool] is a subclass of [int]. *)
Definition is_int_or_float (v : pyval) : bool :=
  match v with PBool _ | PInt _ | PFloat _ => true | _ => false end.

(** [d.get(k)], as an option. *)
Fixpoint dict_get (k : string) (d : pydict) : option pyval :=
  match d with
  | [] => None
  | (k', v) :: r => if String.eqb k' k then Some v else dict_get k r
  end.

(** [d[k] = v]: an existing key keeps its place. *)
Fixpoint dict_set (k : string) (v : pyval) (d : pydict) : pydict :=
  match d with
  | [] => [(k, v)]
  | (k', v') :: r =>
      if String.eqb k' k then (k, v) :: r else (k', v') :: dict_set k v r
  end.

(** [{**d1, **d2}]. *)
Definition dict_update (d1 d2 : pydict) : pydict :=
  fold_left (fun acc kv => dict_set (fst kv) (snd kv) acc) d2 d1.

(** [bool(x)]. *)
Definition truthy (v : pyval) : bool :=
  match v with
  | PNone => false
  | PBool b => b
  | PInt z => negb (z =? 0)
  | PFloat (FFin m _) => negb (m =? 0)
  | PFloat _ => true
  | PStr s => negb (String.eqb s "")
  | PList l => match l with [] => false | _ => true end
  | PDict d => match d with [] => false | _ => true end
  end.

(** *** Equality and hashing *)

(** The canonical form of the dyadic number [m * 2^e]: odd mantissa, or
    [(0, 0)]. *)
Fixpoint strip_twos (p : positive) (e : Z) : positive * Z :=
  match p with
  | xO q => strip_twos q (e + 1)
  | _ => (p, e)
  end.

Definition dyadic_norm (m e : Z) : Z * Z :=
  match m with
  | Z0 => (0, 0)
  | Zpos p => let '(q, e') := strip_twos p e in (Zpos q, e')
  | Zneg p => let '(q, e') := strip_twos p e in (Zneg q, e')
  end.

(** What a hashable value is compared by: numbers by their value
    ([1 == 1.0 == True]), text by its characters.  Every missing value
    ([None], NaN) is one and the same key, as in pandas' [factorize]. *)
Inductive hkey : Type :=
| KNull
| KNum (m e : Z)
| KInf (neg : bool)
| KStr (s : string).

Definition hkey_eq_dec (a b : hkey) : {a = b} + {a <> b}.
Proof.
  decide equality; auto using Z.eq_dec, bool_dec, string_dec.
Defined.

Definition hkey_eqb (a b : hkey) : bool :=
  if hkey_eq_dec a b then true else false.

Definition num_key (m e : Z) : hkey :=
  let '(m', e') := dyadic_norm m e in KNum m' e'.

(** [hash(x)] as pandas factorises it; lists and dicts are unhashable. *)
Definition hash_key (v : pyval) : option hkey :=
  match v with
  | PNone => Some KNull
  | PBool b => Some (num_key (if b then 1 else 0) 0)
  | PInt z => Some (num_key z 0)
  | PFloat FNaN => Some KNull
  | PFloat (FInf n) => Some (KInf n)
  | PFloat (FFin m e) => Some (num_key m e)
  | PStr s => Some (KStr s)
  | PList _ | PDict _ => None
  end.

(** [pandas.isna] on a scalar. *)
Definition isnull (v : pyval) : bool :=
  match v with PNone | PFloat FNaN => true | _ => false end.

(** Python's [a == b]. *)
Fixpoint py_eq (a b : pyval) {struct a} : bool :=
  match a, b with
  | PNone, PNone => true
  | PList la, PList lb =>
      (fix go (la lb : list pyval) {struct la} : bool :=
         match la, lb with
         | [], [] => true
         | x :: xs, y :: ys => py_eq x y && go xs ys
         | _, _ => false
         end) la lb
  | PDict da, PDict db =>
      (Nat.eqb (length da) (length db)) &&
      (fix go (da : pydict) {struct da} : bool :=
         match da with
         | [] => true
         | (k, v) :: r =>
             match dict_get k db with
             | Some v' => py_eq v v'
             | None => false
             end && go r
         end) da
  | _, _ =>
      if isnull a || isnull b then false
      else match hash_key a, hash_key b with
           | Some x, Some y => hkey_eqb x y
           | _, _ => false
           end
  end.

(** One element of [left == right] on two Series: a missing value on
    either side compares unequal. *)
Definition elt_eq (a b : pyval) : bool :=
  negb (isnull a) && negb (isnull b) && py_eq a b.

(** [str.isdigit()] on code points below 256: the ASCII digits and the
    superscripts two, three and one. *)
Definition char_isdigit (c : ascii) : bool :=
  let n := nat_of_ascii c in
  ((48 <=? n) && (n <=? 57))%nat ||
  (n =? 178)%nat || (n =? 179)%nat || (n =? 185)%nat.

Fixpoint all_chars (p : ascii -> bool) (s : string) : bool :=
  match s with
  | EmptyString => true
  | String c r => p c && all_chars p r
  end.

Definition str_isdigit (s : string) : bool :=
  negb (String.eqb s "") && all_chars char_isdigit s.

(* ===================================================================== *)
(** ** Exceptions and results *)
(* ===================================================================== *)

(** The exception classes that matter here; [OtherError] stands for any
    other subclass of [Exception] outside the [ValueError] and
    [SyntaxError] families. *)
Inductive exc_class : Type :=
| JSONDecodeError
| ValueError
| SyntaxError
| TypeError
| KeyError
| IndexError
| AttributeError
| RecursionError
| MemoryError
| InvalidIndexError
| OtherError (name : string).

(** An exception object: FastAPI's [HTTPException], or any other
    subclass of [Exception] with the text [str(e)] gives. *)
Inductive exn : Type :=
| HTTPException (status_code : Z) (detail : string)
| Error (cls : exc_class) (msg : string).

(** [isinstance(e, json.JSONDecodeError)]. *)
Definition is_JSONDecodeError (e : exn) : bool :=
  match e with Error JSONDecodeError _ => true | _ => false end.

(** [isinstance(e, ValueError)]: [JSONDecodeError] derives from it. *)
Definition is_ValueError (e : exn) : bool :=
  match e with
  | Error JSONDecodeError _ | Error ValueError _ => true
  | _ => false
  end.

Definition is_SyntaxError (e : exn) : bool :=
  match e with Error SyntaxError _ => true | _ => false end.

Inductive result (A : Type) : Type :=
| Ok (a : A)
| Raise (e : exn).

Arguments Ok {A} a.
Arguments Raise {A} e.

Definition bind {A B : Type} (r : result A) (k : A -> result B) : result B :=
  match r with
  | Ok a => k a
  | Raise e => Raise e
  end.

(** [try: body except Exception as e: handler(e)]. *)
Definition try_except {A : Type} (body : result A) (handler : exn -> result A)
  : result A :=
  match body with
  | Ok a => Ok a
  | Raise e => handler e
  end.

Declare Scope result_scope.
Delimit Scope result_scope with result.
Notation "x <- c ;; k" := (bind c (fun x => k))
  (at level 61, c at next level, right associativity) : result_scope.
Local Open Scope result_scope.

(** [[f(x) for x in l]], stopping at the first exception. *)
Fixpoint map_result {A B : Type} (f : A -> result B) (l : list A)
  : result (list B) :=
  match l with
  | [] => Ok []
  | x :: r =>
      y <- f x ;;
      ys <- map_result f r ;;
      Ok (y :: ys)
  end.

(* ===================================================================== *)
(** ** The cell resolver *)
(* ===================================================================== *)

(** The two library parsers. *)
Class Parsers : Type := {
  json_loads : string -> result pyval;
  literal_eval : string -> result pyval
}.

Section Resolver.
Context {lib : Parsers}.

(** Lines 58-62: a value that is not a list resolves to the empty list. *)
Definition as_list (data : pyval) : result (list pyval) :=
  match data with
  | PList l => Ok l
  | _ => Ok []
  end.

(** Lines 44-62. *)
Definition validate_constructor_data (data : pyval) : result (list pyval) :=
  match data with
  | PStr s =>
      match json_loads s with
      | Ok v => as_list v
      | Raise e =>
          if is_JSONDecodeError e then
            match literal_eval s with
            | Ok v => as_list v
            | Raise e' =>
                if is_ValueError e' || is_SyntaxError e' then Ok []
                else Raise e'
            end
          else Raise e
      end
  | _ => as_list data
  end.

End Resolver.

(** Lines 78-79: the first dict of the list whose ["constructorId"] is
    ["ferrari"], or the empty dict. *)
Definition is_ferrari (item : pyval) : bool :=
  match item with
  | PDict d =>
      py_eq (match dict_get "constructorId" d with Some v => v | None => PNone end)
            (PStr "ferrari")
  | _ => false
  end.

Definition select_constructor (x : list pyval) : pyval :=
  match find is_ferrari x with
  | Some item => item
  | None => PDict []
  end.

(* ===================================================================== *)
(** ** Tables: the fragment of pandas the program uses *)
(* ===================================================================== *)

(** A row: its index label and its cells, each under its column name. *)
Record row : Type := mkRow {
  label : Z;
  cells : pydict
}.

Record DataFrame : Type := mkFrame {
  columns : list string;
  rows : list row
}.

(** The cell of row [r] in column [c]. *)
Definition cell (c : string) (r : row) : pyval :=
  match dict_get c (cells r) with
  | Some v => v
  | None => NaN
  end.

(** [c in df.columns]. *)
Definition has_column (c : string) (df : DataFrame) : bool :=
  existsb (String.eqb c) (columns df).

(** [df.empty]: no rows or no columns. *)
Definition df_empty (df : DataFrame) : bool :=
  match rows df, columns df with
  | [], _ => true
  | _, [] => true
  | _, _ => false
  end.

(** [df[c]], the values of a column in row order. *)
Definition column (c : string) (df : DataFrame) : result (list pyval) :=
  if has_column c df then Ok (map (cell c) (rows df))
  else Raise (Error KeyError ("'" ++ c ++ "'")%string).

(** [s.iloc[0]]. *)
Definition iloc0 (s : list pyval) : result pyval :=
  match s with
  | v :: _ => Ok v
  | [] => Raise (Error IndexError "single positional indexer is out-of-bounds")
  end.

(** [df[mask]] for a boolean mask computed row by row: the rows keep
    their labels. *)
Definition filter_rows (p : row -> bool) (df : DataFrame) : DataFrame :=
  mkFrame (columns df) (filter p (rows df)).

(** [df[df[c].apply(p)]].  On a table with rows [apply] gives a boolean
    Series, a mask.  On a table without rows [Series.apply] gives an
    empty Series of the dtype of the column, which is no boolean Series
    (the column holds objects or numbers; a column of dtype bool, which
    would keep the mask reading, is outside the model): pandas then
    reads the key as a list of column labels, here the empty list, and
    selects no column. *)
Definition where_column (c : string) (p : pyval -> bool) (df : DataFrame)
  : DataFrame :=
  match rows df with
  | [] => mkFrame [] []
  | _ :: _ => filter_rows (fun r => p (cell c r)) df
  end.

Definition drop_cell (c : string) (r : row) : row :=
  mkRow (label r) (filter (fun kv => negb (String.eqb (fst kv) c)) (cells r)).

(** [df.drop(c, axis=1)]; the text of the [KeyError] is abridged. *)
Definition drop_column (c : string) (df : DataFrame) : result DataFrame :=
  if has_column c df then
    Ok (mkFrame (filter (fun n => negb (String.eqb n c)) (columns df))
                (map (drop_cell c) (rows df)))
  else Raise (Error KeyError ("['" ++ c ++ "'] not found in axis")%string).

Fixpoint set_cells (c : string) (vals : list pyval) (rs : list row) : list row :=
  match rs, vals with
  | r :: rs', v :: vals' =>
      mkRow (label r) (dict_set c v (cells r)) :: set_cells c vals' rs'
  | _, _ => []
  end.

(** [df[c] = values], one value per row: an existing column is
    overwritten in place, a new one is added last. *)
Definition set_column (c : string) (vals : list pyval) (df : DataFrame)
  : DataFrame :=
  mkFrame (if has_column c df then columns df else columns df ++ [c])
          (set_cells c vals (rows df)).

(** *** [drop_duplicates] *)

Definition row_key (subset : list string) (r : row) : list (option hkey) :=
  map (fun c => hash_key (cell c r)) subset.

Definition key_eq_dec (a b : list (option hkey)) : {a = b} + {a <> b}.
Proof.
  apply list_eq_dec. intros x y.
  decide equality. apply hkey_eq_dec.
Defined.

(** Keep the first row of every key, in order. *)
Fixpoint keep_first (subset : list string) (seen : list (list (option hkey)))
  (rs : list row) : list row :=
  match rs with
  | [] => []
  | r :: rs' =>
      if in_dec key_eq_dec (row_key subset r) seen
      then keep_first subset seen rs'
      else r :: keep_first subset (row_key subset r :: seen) rs'
  end.

Definition unhashable_type (v : pyval) : option string :=
  match v with
  | PList _ => Some "list"
  | PDict _ => Some "dict"
  | _ => None
  end.

Fixpoint first_some {A B : Type} (f : A -> option B) (l : list A) : option B :=
  match l with
  | [] => None
  | x :: r => match f x with Some y => Some y | None => first_some f r end
  end.

(** The first cell that cannot be hashed, column by column. *)
Definition first_unhashable (subset : list string) (rs : list row)
  : option string :=
  first_some (fun c => first_some (fun r => unhashable_type (cell c r)) rs) subset.

(** [df.drop_duplicates(subset=subset)]. *)
Definition drop_duplicates (subset : list string) (df : DataFrame)
  : result DataFrame :=
  match first_unhashable subset (rows df) with
  | Some t => Raise (Error TypeError ("unhashable type: '" ++ t ++ "'")%string)
  | None => Ok (mkFrame (columns df) (keep_first subset [] (rows df)))
  end.

(** *** [DataFrame(records)] and [json_normalize] *)

Fixpoint add_keys (ks : list string) (acc : list string) : list string :=
  match ks with
  | [] => acc
  | k :: r =>
      add_keys r (if existsb (String.eqb k) acc then acc else acc ++ [k])
  end.

(** The keys of all the records, in order of first appearance. *)
Definition record_columns (recs : list pydict) : list string :=
  fold_left (fun acc d => add_keys (map fst d) acc) recs [].

Definition record_cells (cols : list string) (d : pydict) : pydict :=
  map (fun c => (c, match dict_get c d with Some v => v | None => NaN end)) cols.

Fixpoint number_rows (i : Z) (cols : list string) (recs : list pydict)
  : list row :=
  match recs with
  | [] => []
  | d :: r => mkRow i (record_cells cols d) :: number_rows (i + 1) cols r
  end.

(** The object array of [pd.DataFrame(records)] for a list of dicts:
    labels [0..n-1], a key missing from a record reads NaN. *)
Definition frame_of_records (recs : list pydict) : DataFrame :=
  let cols := record_columns recs in
  mkFrame cols (number_rows 0 cols recs).

(** *** The columns of a table built from records

    [pd.DataFrame(records)] converts every column with
    [maybe_convert_objects].  A column whose values are numbers and
    missing values only (no bool, text, list or dict), with at least one
    missing value and at least one number or NaN, becomes a column of
    floats: [None] reads NaN in it.  Any other column keeps its values
    (a column of [None] only stays a column of objects). *)
Definition float_column (vals : list pyval) : bool :=
  forallb (fun v => match v with
                    | PNone | PInt _ | PFloat _ => true
                    | _ => false
                    end) vals &&
  existsb isnull vals &&
  existsb (fun v => match v with PInt _ | PFloat _ => true | _ => false end) vals.

Definition to_float (v : pyval) : pyval :=
  match v with PNone => NaN | _ => v end.

Definition convert_cells (floats : list string) (d : pydict) : pydict :=
  map (fun kv => if existsb (String.eqb (fst kv)) floats
                 then (fst kv, to_float (snd kv)) else kv) d.

(** pandas' [convert_object_array], column by column. *)
Definition convert_object_array (df : DataFrame) : DataFrame :=
  let floats :=
    filter (fun c => float_column (map (cell c) (rows df))) (columns df) in
  mkFrame (columns df)
          (map (fun r => mkRow (label r) (convert_cells floats (cells r)))
               (rows df)).

(** [str.removeprefix]. *)
Definition removeprefix (p s : string) : string :=
  if String.prefix p s then substring (String.length p) (String.length s - String.length p) s
  else s.

(** pandas' [_normalise_json] with separator ["."]. *)
Fixpoint normalise_json (data : pyval) (key_string : string)
  (normalized_dict : pydict) {struct data} : pydict :=
  match data with
  | PDict kvs =>
      (fix items (kvs : pydict) (acc : pydict) {struct kvs} : pydict :=
         match kvs with
         | [] => acc
         | (key, value) :: r =>
             let new_key := (key_string ++ "." ++ key)%string in
             let new_key :=
               if String.eqb key_string "" then removeprefix "." new_key
               else new_key in
             items r (normalise_json value new_key acc)
         end) kvs normalized_dict
  | _ => dict_set key_string data normalized_dict
  end.

(** pandas' [_normalise_json_ordered]: the top-level scalars first, then
    the flattened nested dicts. *)
Definition normalise_json_ordered (data : pydict) : pydict :=
  let top_dict := filter (fun kv => negb (is_dict (snd kv))) data in
  let nested_dict :=
    normalise_json (PDict (filter (fun kv => is_dict (snd kv)) data)) "" [] in
  dict_update top_dict nested_dict.

(** One entry of [_simple_json_normalize]: a dict is flattened, a scalar
    gives the empty record.  A list entry would give a list of records,
    which is no record: it is reported as a fault. *)
Definition normalise_entry (v : pyval) : result pydict :=
  match v with
  | PDict d => Ok (normalise_json_ordered d)
  | PList _ => Raise (Error TypeError "list entry")
  | _ => Ok []
  end.

(** [pd.json_normalize(data)] for a list.  The flattened records are
    kept as they are: no step of the program tells [None] from NaN in
    the columns they give. *)
Definition json_normalize (data : list pyval) : result DataFrame :=
  recs <- map_result normalise_entry data ;;
  Ok (frame_of_records recs).

(** *** [concat(axis=1)] *)

Definition labels (df : DataFrame) : list Z := map label (rows df).

Definition labels_eq_dec (a b : list Z) : {a = b} + {a <> b} :=
  list_eq_dec Z.eq_dec a b.

Fixpoint has_dup (l : list Z) : bool :=
  match l with
  | [] => false
  | x :: r => (if in_dec Z.eq_dec x r then true else false) || has_dup r
  end.

Fixpoint zip_rows (a b : list row) : list row :=
  match a, b with
  | ra :: a', rb :: b' => mkRow (label ra) (cells ra ++ cells rb) :: zip_rows a' b'
  | _, _ => []
  end.

Definition nan_cells (cols : list string) : pydict :=
  map (fun c => (c, NaN)) cols.

(** The cells of the row labelled [l], or NaN in every column. *)
Definition cells_at (l : Z) (df : DataFrame) : pydict :=
  match find (fun r => Z.eqb (label r) l) (rows df) with
  | Some r => cells r
  | None => nan_cells (columns df)
  end.

(** [pd.concat([a, b], axis=1)]: with equal indexes the rows are put side
    by side; otherwise the frames are aligned on the union of their
    labels, which needs both indexes duplicate-free. *)
Definition concat_axis1 (a b : DataFrame) : result DataFrame :=
  if labels_eq_dec (labels a) (labels b) then
    Ok (mkFrame (columns a ++ columns b) (zip_rows (rows a) (rows b)))
  else if has_dup (labels a) || has_dup (labels b) then
    Raise (Error InvalidIndexError
             "Reindexing only valid with uniquely valued Index objects")
  else
    let union :=
      labels a ++
      filter (fun l => if in_dec Z.eq_dec l (labels a) then false else true)
             (labels b) in
    Ok (mkFrame (columns a ++ columns b)
                (map (fun l => mkRow l (cells_at l a ++ cells_at l b)) union)).

(* ===================================================================== *)
(** ** The table normaliser *)
(* ===================================================================== *)

(** Line 113, the rows to remove: the cell is a number, or text made of
    digits only. *)
Definition is_year_number (x : pyval) : bool :=
  is_int_or_float x ||
  match x with PStr s => str_isdigit s | _ => false end.

(** Lines 106-128. *)
Definition clean_dataframe (df : DataFrame) : result DataFrame :=
  (* Remove rows where ConstructorTable is just a year number *)
  df <- (if has_column "ConstructorTable" df then
           Ok (where_column "ConstructorTable"
                 (fun x => negb (is_year_number x)) df)
         else Ok df) ;;
  (* Drop duplicates based on specific columns *)
  let safe_columns :=
    filter (fun col => negb (String.eqb col "ConstructorTable")) (columns df) in
  df <- (match safe_columns with
         | [] => Ok df
         | _ => drop_duplicates safe_columns df
         end) ;;
  (* If we have both 'year' and 'season', ensure they match and keep one *)
  if has_column "year" df && has_column "season" df then
    let df := filter_rows (fun r => elt_eq (cell "year" r) (cell "season" r)) df in
    drop_column "season" df
  else Ok df.

(* ===================================================================== *)
(** ** The constructor field expander *)
(* ===================================================================== *)

Section Expander.
Context {lib : Parsers}.

(** Lines 90-97: flatten the selected records and put them beside the
    table; on any fault only the helper column is dropped. *)
Definition expand_constructor_data (df : DataFrame) : result DataFrame :=
  try_except
    (selected <- column "constructor_data" df ;;
     constructor_df <- json_normalize selected ;;
     base <- drop_column "constructor_data" df ;;
     concat_axis1 base constructor_df)
    (fun _ => drop_column "constructor_data" df).

(** Lines 64-104.  The handler of line 102 returns the table the local
    variable [df] holds when the fault occurs. *)
Definition normalize_constructor_data (df : DataFrame) : result DataFrame :=
  if negb (has_column "ConstructorTable" df) then Ok df
  else
    match
      (cells <- column "ConstructorTable" df ;;
       map_result validate_constructor_data cells)
    with
    | Raise _ => Ok df
    | Ok lists =>
        (* Validate and normalize ConstructorTable data *)
        let df := set_column "ConstructorTable" (map PList lists) df in
        (* Extract Ferrari's data *)
        let df := set_column "constructor_data" (map select_constructor lists) df in
        (* Drop the original ConstructorTable column *)
        match drop_column "ConstructorTable" df with
        | Raise _ => Ok df
        | Ok df =>
            (* Expand constructor data if not empty *)
            match
              (if negb (df_empty df) then
                 selected <- column "constructor_data" df ;;
                 first <- iloc0 selected ;;
                 Ok (truthy first)
               else Ok false)
            with
            | Raise _ => Ok df
            | Ok true => try_except (expand_constructor_data df) (fun _ => Ok df)
            | Ok false =>
                try_except (drop_column "constructor_data" df) (fun _ => Ok df)
            end
        end
    end.

End Expander.

(* ===================================================================== *)
(** ** The request controller *)
(* ===================================================================== *)

(** The payload under ["results"]: a table, or any other Python value. *)
Inductive results_value : Type :=
| RFrame (df : DataFrame)
| RValue (v : pyval).

(** What the result adapter returns. *)
Record PipelineResult (Metadata : Type) : Type := mkPipelineResult {
  success : bool;
  data : option (list (string * results_value));
  error : option string;
  metadata : Metadata
}.

Arguments mkPipelineResult {Metadata}.
Arguments success {Metadata}.
Arguments data {Metadata}.
Arguments error {Metadata}.
Arguments metadata {Metadata}.

(** The collaborators of the controller, each with the outcome of its
    call, and the clock: [now k] is the k-th reading taken during a
    request, in ticks. *)
Class Collaborators : Type := {
  QueryResult : Type;
  Trace : Type;
  AdaptedQuery : Type;
  Requirements : Type;
  RawResponse : Type;
  Metadata : Type;
  Payload : Type;
  process_query : string -> result QueryResult;
  trace : QueryResult -> Trace;
  adapt : QueryResult -> result AdaptedQuery;
  to_data_requirements : AdaptedQuery -> result Requirements;
  process : Requirements -> result RawResponse;
  adapt_pipeline_result : RawResponse -> Z -> result (PipelineResult Metadata);
  generate_code : DataFrame -> string -> result string;
  execute_code_safely : string -> DataFrame -> result (bool * Payload * string);
  (** [str(result)] and [str(e)] for an [HTTPException]. *)
  str_payload : Payload -> string;
  str_http : Z -> string -> string;
  (** [pd.DataFrame(l)] for a list that is not a list of dicts. *)
  frame_of_list : list pyval -> result DataFrame;
  now : nat -> Z
}.

(** The calls a request makes, in order; [CallDataFrame] is the step
    that makes the table out of the payload (lines 180-189). *)
Inductive call : Type :=
| CallProcessQuery
| CallAdapt
| CallToDataRequirements
| CallProcess
| CallAdaptPipelineResult
| CallDataFrame
| CallCleanDataframe
| CallNormalizeConstructorData
| CallGenerateCode
| CallExecuteCode.

(** A computation of the controller: the calls made, and the outcome. *)
Definition M (A : Type) : Type := list call * result A.

Definition retM {A : Type} (a : A) : M A := ([], Ok a).

Definition raiseM {A : Type} (e : exn) : M A := ([], Raise e).

Definition bindM {A B : Type} (m : M A) (k : A -> M B) : M B :=
  match m with
  | (log, Ok a) => let '(log', r) := k a in (log ++ log', r)
  | (log, Raise e) => (log, Raise e)
  end.

Definition try_exceptM {A : Type} (body : M A) (handler : exn -> M A) : M A :=
  match body with
  | (log, Ok a) => (log, Ok a)
  | (log, Raise e) => let '(log', r) := handler e in (log ++ log', r)
  end.

(** Make the call [c], with outcome [r]. *)
Definition invoke {A : Type} (c : call) (r : result A) : M A := ([c], r).

Declare Scope controller_scope.
Delimit Scope controller_scope with controller.
Notation "x <-- c ;; k" := (bindM c (fun x => k))
  (at level 61, c at next level, right associativity) : controller_scope.

(** A field of the response. *)
Inductive field {env : Collaborators} : Type :=
| FBool (b : bool)
| FText (s : string)
| FSeconds (t : Z)
| FPayload (p : Payload)
| FTrace (t : Trace)
| FMetadata (m : Metadata).

Definition response {env : Collaborators} : Type := list (string * field).

(** [str(e)]. *)
Definition str_exn {env : Collaborators} (e : exn) : string :=
  match e with
  | HTTPException status_code detail => str_http status_code detail
  | Error _ msg => msg
  end.

(** [str(type(x))]. *)
Definition type_repr (v : pyval) : string :=
  match v with
  | PNone => "<class 'NoneType'>"
  | PBool _ => "<class 'bool'>"
  | PInt _ => "<class 'int'>"
  | PFloat _ => "<class 'float'>"
  | PStr _ => "<class 'str'>"
  | PList _ => "<class 'list'>"
  | PDict _ => "<class 'dict'>"
  end.

(** [x or default] for an optional text. *)
Definition text_or (x : option string) (default : string) : string :=
  match x with
  | Some s => if String.eqb s "" then default else s
  | None => default
  end.

Fixpoint all_dicts (l : list pyval) : option (list pydict) :=
  match l with
  | [] => Some []
  | PDict d :: r =>
      match all_dicts r with Some ds => Some (d :: ds) | None => None end
  | _ => None
  end.

(** [pipeline_result.data.get('results', {})]. *)
Definition results_of (d : list (string * results_value)) : results_value :=
  match find (fun kv => String.eqb (fst kv) "results") d with
  | Some kv => snd kv
  | None => RValue (PDict [])
  end.

Section Controller.
Context {lib : Parsers} {env : Collaborators}.
Local Open Scope controller_scope.

(** Lines 180-189.  Every list goes to [pd.DataFrame]: a list of dicts
    is a list of records, any other list is left to [frame_of_list]. *)
Definition coerce_results (results : results_value) : result DataFrame :=
  match results with
  | RFrame df => Ok df
  | RValue (PDict d) => Ok (convert_object_array (frame_of_records [d]))
  | RValue (PList l) =>
      match all_dicts l with
      | Some recs => Ok (convert_object_array (frame_of_records recs))
      | None => frame_of_list l
      end
  | RValue v =>
      Raise (Error ValueError
               ("Cannot process results of type: " ++ type_repr v)%string)
  end.

(** The failure response of lines 236-241 and 244-249. *)
Definition failure_response (details : string) (processing_time : Z)
  : response :=
  [("success", FBool false);
   ("error", FText "Analysis failed");
   ("details", FText details);
   ("processing_time", FSeconds processing_time)].

(** The success response of lines 225-232. *)
Definition success_response (result : Payload) (executed_code : string)
  (query_trace : Trace) (processing_time : Z) (meta : Metadata) : response :=
  [("success", FBool true);
   ("data", FPayload result);
   ("executed_code", FText executed_code);
   ("query_trace", FTrace query_trace);
   ("processing_time", FSeconds processing_time);
   ("metadata", FMetadata meta)].

(** Lines 178-207. *)
Definition process_dataframe (results : results_value) : M DataFrame :=
  try_exceptM
    (df <-- invoke CallDataFrame (coerce_results results) ;;
     df <-- invoke CallCleanDataframe (clean_dataframe df) ;;
     df <-- invoke CallNormalizeConstructorData (normalize_constructor_data df) ;;
     if df_empty df then
       raiseM (HTTPException 400 "No data available after processing")
     else retM df)
    (fun e =>
       raiseM (HTTPException 400 ("Failed to process data: " ++ str_exn e)%string)).

(** Lines 131-249. *)
Definition analyze_f1_data (query : string) : M response :=
  let start_time := now 0 in
  try_exceptM
    ((* Step 1: Process query *)
     query_result <-- invoke CallProcessQuery (process_query query) ;;
     (* Step 2: Adapt query *)
     adapted_result <-- invoke CallAdapt (adapt query_result) ;;
     (* Step 3: Process through the pipeline *)
     requirements <--
       invoke CallToDataRequirements (to_data_requirements adapted_result) ;;
     pipeline_response <-- invoke CallProcess (process requirements) ;;
     (* Step 4: Adapt pipeline result *)
     pipeline_result <--
       invoke CallAdaptPipelineResult
         (adapt_pipeline_result pipeline_response start_time) ;;
     (* if not pipeline_result.success or pipeline_result.data is None *)
     match (if success pipeline_result then data pipeline_result else None) with
     | None =>
         raiseM (HTTPException 400
                   ("Pipeline processing failed: " ++
                    text_or (error pipeline_result) "No data returned")%string)
     | Some d =>
         (* Step 5: Generate and execute analysis code *)
         let results := results_of d in
         df <-- process_dataframe results ;;
         code <-- invoke CallGenerateCode (generate_code df query) ;;
         out <-- invoke CallExecuteCode (execute_code_safely code df) ;;
         let '(ok, result, executed_code) := out in
         if negb ok then
           raiseM (HTTPException 400
                     ("Code execution failed: " ++ str_payload result)%string)
         else
           retM (success_response result executed_code (trace query_result)
                   (now 1 - start_time) (metadata pipeline_result))
     end)
    (fun e =>
       match e with
       | HTTPException _ detail =>
           retM (failure_response detail (now 1 - start_time))
       | Error _ _ =>
           retM (failure_response (str_exn e) (now 1 - start_time))
       end).

End Controller.

(* ===================================================================== *)
(** ** Vocabulary of the properties *)
(* ===================================================================== *)

(** An entry the expander looks for: a mapping whose identifying field
    is the target team. *)
Definition targets_ferrari (item : pyval) : Prop :=
  exists d, item = PDict d /\ dict_get "constructorId" d = Some (PStr "ferrari").

(** The labels [0, 1, ..., n-1] of a fresh table. *)
Fixpoint range_from (i : Z) (n : nat) : list Z :=
  match n with
  | O => []
  | S n' => i :: range_from (i + 1) n'
  end.

Definition default_index (df : DataFrame) : Prop :=
  labels df = range_from 0 (length (rows df)).

(** The table without the constructor-list column and without the
    helper column of the expander. *)
Definition strip_row (r : row) : row :=
  drop_cell "constructor_data" (drop_cell "ConstructorTable" r).

Definition strip_columns (cols : list string) : list string :=
  filter (fun n => negb (String.eqb n "constructor_data"))
    (filter (fun n => negb (String.eqb n "ConstructorTable")) cols).

Definition stripped (df : DataFrame) : DataFrame :=
  mkFrame (strip_columns (columns df)) (map strip_row (rows df)).

(** The flattened selected mapping of a resolved cell. *)
Definition flat_selected (x : list pyval) : pydict :=
  match select_constructor x with
  | PDict d => normalise_json_ordered d
  | _ => []
  end.

(** The table with the flattened mappings merged in, row by row. *)
Definition merged (df : DataFrame) (lists : list (list pyval)) : DataFrame :=
  let flat := map flat_selected lists in
  let new_columns := record_columns flat in
  mkFrame (strip_columns (columns df) ++ new_columns)
          (zip_rows (map strip_row (rows df)) (number_rows 0 new_columns flat)).

(** The cells of the constructor-list column resolve to [lists]. *)
Definition resolves {lib : Parsers} (df : DataFrame)
  (lists : list (list pyval)) : Prop :=
  map_result validate_constructor_data (map (cell "ConstructorTable") (rows df))
  = Ok lists.

(** The two records of the worked example. *)
Definition ferrari_record : pydict :=
  [("constructorId", PStr "ferrari"); ("points", PInt 90)].

Definition mclaren_record : pydict :=
  [("constructorId", PStr "mclaren"); ("points", PInt 50)].

Definition example_list : list pyval :=
  [PDict ferrari_record; PDict mclaren_record].

(** The behaviour of the two parsers on the texts used in the examples:
    [json.loads] rejects both; [ast.literal_eval] reads the first as a
    list of two dicts, and the second as a set display whose element is
    a list, which has no hash. *)
Definition example_text : string :=
  "[{'constructorId':'ferrari','points':90},{'constructorId':'mclaren','points':50}]".

Definition sample_json_loads (s : string) : result pyval :=
  Raise (Error JSONDecodeError
           (if String.eqb s example_text
            then "Expecting property name enclosed in double quotes: line 1 column 3 (char 2)"
            else "Expecting property name enclosed in double quotes: line 1 column 2 (char 1)")).

Definition sample_literal_eval (s : string) : result pyval :=
  if String.eqb s example_text then Ok (PList example_list)
  else if String.eqb s "{[]}" then Raise (Error TypeError "unhashable type: 'list'")
  else Raise (Error SyntaxError "invalid syntax").

Definition sample_parsers : Parsers :=
  {| json_loads := sample_json_loads; literal_eval := sample_literal_eval |}.

(** The guard of line 89 on the resolved cells: there is a first row and
    its selected mapping is not empty. *)
Definition first_selected_nonempty (lists : list (list pyval)) : bool :=
  match lists with
  | x :: _ => truthy (select_constructor x)
  | [] => false
  end.

(** Sample tables. *)
Definition season_row (i : Z) (ct : pyval) : row :=
  mkRow i [("year", PInt 2021); ("ConstructorTable", ct)].

(** One season whose cell is the text of the worked example. *)
Definition one_season : DataFrame :=
  mkFrame ["year"; "ConstructorTable"] [season_row 0 (PStr example_text)].

(** Two seasons: the first lists no team, the second is the example. *)
Definition two_seasons : DataFrame :=
  mkFrame ["year"; "ConstructorTable"]
    [season_row 0 (PList []); season_row 1 (PList example_list)].

(** One season whose cell is a stray year. *)
Definition stray_year : DataFrame :=
  mkFrame ["year"; "ConstructorTable"] [season_row 0 (PStr "2021")].

(** One season whose cell is text that neither parser reads. *)
Definition broken_season : DataFrame :=
  mkFrame ["year"; "ConstructorTable"] [season_row 0 (PStr "{[]}")].

(** Four results with a "year" and a "season": a stray year in the cell,
    a good row, its duplicate, and a row whose season differs. *)
Definition results_table : DataFrame :=
  mkFrame ["year"; "season"; "ConstructorTable"]
    [mkRow 0 [("year", PInt 2021); ("season", PInt 2021);
              ("ConstructorTable", PStr "2021")];
     mkRow 1 [("year", PInt 2021); ("season", PFloat (FFin 2021 0));
              ("ConstructorTable", PList example_list)];
     mkRow 2 [("year", PInt 2021); ("season", PInt 2021);
              ("ConstructorTable", PList [])];
     mkRow 3 [("year", PInt 2021); ("season", PInt 2020);
              ("ConstructorTable", PList example_list)]].

Definition results_table_clean : DataFrame :=
  mkFrame ["year"; "ConstructorTable"]
    [mkRow 1 [("year", PInt 2021); ("ConstructorTable", PList example_list)]].

(** [s] occurs in [t]. *)
Definition contains (s t : string) : Prop :=
  exists pre post, t = (pre ++ s ++ post)%string.

(** The calls of steps 1 to 4, up to the adapted pipeline result. *)
Definition pipeline_calls : list call :=
  [CallProcessQuery; CallAdapt; CallToDataRequirements; CallProcess;
   CallAdaptPipelineResult].

(** The calls that work on the table. *)
Definition table_call (c : call) : bool :=
  match c with
  | CallDataFrame | CallCleanDataframe | CallNormalizeConstructorData
  | CallGenerateCode | CallExecuteCode => true
  | _ => false
  end.

(** Steps 1 to 4 of the request for [query] go through and end with the
    pipeline result [pr], read from the query result [qr]. *)
Definition pipeline_returns {env : Collaborators} (query : string)
  (qr : QueryResult) (pr : PipelineResult Metadata) : Prop :=
  exists ad rq raw,
    process_query query = Ok qr /\
    adapt qr = Ok ad /\
    to_data_requirements ad = Ok rq /\
    process rq = Ok raw /\
    adapt_pipeline_result raw (now 0) = Ok pr.

(** Mocked collaborators: queries, requirements and raw responses are
    text, handed on unchanged; the result adapter reads the raw text. *)
Definition mock_pipeline_result (raw : string) : PipelineResult string :=
  if String.eqb raw "down" then
    mkPipelineResult false None (Some "upstream timeout") "meta"
  else if String.eqb raw "no data" then
    mkPipelineResult true None None "meta"
  else if String.eqb raw "scalar" then
    mkPipelineResult true (Some [("results", RValue (PInt 7))]) None "meta"
  else
    mkPipelineResult true (Some [("results", RFrame one_season)]) None "meta".

Definition mock_collaborators : Collaborators :=
  {| QueryResult := string;
     Trace := string;
     AdaptedQuery := string;
     Requirements := string;
     RawResponse := string;
     Metadata := string;
     Payload := Z;
     process_query := fun q => Ok q;
     trace := fun q => q;
     adapt := fun q => Ok q;
     to_data_requirements := fun q => Ok q;
     process := fun q => Ok q;
     adapt_pipeline_result := fun raw _ => Ok (mock_pipeline_result raw);
     generate_code := fun _ _ => Ok "result = len(df)";
     execute_code_safely := fun code df => Ok (true, Z.of_nat (length (rows df)), code);
     str_payload := fun _ => "payload";
     str_http := fun _ detail => ("400: " ++ detail)%string;
     frame_of_list := fun _ => Raise (Error ValueError "not modelled");
     now := fun k => 100 + 5 * Z.of_nat k |}.

(** The three steps of the table normaliser. *)
Definition keeps_cell (r : row) : bool :=
  negb (is_year_number (cell "ConstructorTable" r)).

Definition year_is_season (r : row) : bool :=
  elt_eq (cell "year" r) (cell "season" r).

Definition safe_columns (df : DataFrame) : list string :=
  filter (fun col => negb (String.eqb col "ConstructorTable")) (columns df).

Definition remove_year_numbers (df : DataFrame) : DataFrame :=
  if has_column "ConstructorTable" df then
    where_column "ConstructorTable" (fun x => negb (is_year_number x)) df
  else df.

Definition remove_duplicates (df : DataFrame) : result DataFrame :=
  match safe_columns df with
  | [] => Ok df
  | _ => drop_duplicates (safe_columns df) df
  end.

Definition reconcile_year_season (df : DataFrame) : result DataFrame :=
  if has_column "year" df && has_column "season" df then
    drop_column "season" (filter_rows year_is_season df)
  else Ok df.

(** What a normalised table satisfies: no year-number cell is left, the
    rows are pairwise distinct on the safe columns, and "year" and
    "season" are not both present. *)
Definition normalised (df : DataFrame) : Prop :=
  (has_column "ConstructorTable" df = true ->
   forall r, In r (rows df) -> keeps_cell r = true) /\
  (safe_columns df = [] \/
   (first_unhashable (safe_columns df) (rows df) = None /\
    NoDup (map (row_key (safe_columns df)) (rows df)))) /\
  has_column "year" df && has_column "season" df = false.

(** [l1] is [l2] with some of its elements left out, the others in the
    order they have in [l2]. *)
Inductive Subsequence {A : Type} : list A -> list A -> Prop :=
| Subsequence_nil : Subsequence [] []
| Subsequence_keep (x : A) (l1 l2 : list A) :
    Subsequence l1 l2 -> Subsequence (x :: l1) (x :: l2)
| Subsequence_skip (x : A) (l1 l2 : list A) :
    Subsequence l1 l2 -> Subsequence l1 (x :: l2).

(** Two results of one season; the second carries a list of tags in a
    column that is not the constructor-list column. *)
Definition tagged_results : DataFrame :=
  mkFrame ["year"; "tags"; "ConstructorTable"]
    [mkRow 0 [("year", PInt 2021); ("tags", PStr "wet");
              ("ConstructorTable", PList example_list)];
     mkRow 1 [("year", PInt 2021); ("tags", PList [PStr "wet"; PStr "night"]);
              ("ConstructorTable", PList example_list)]].

(** The new cells of the row labelled [l] after the merge of line 93:
    those of the flattened mapping selected at position [l] of the
    table, and NaN in every new column when the table has no such
    position. *)
Definition cells_by_label (lists : list (list pyval)) (l : Z) : pydict :=
  let flat := map flat_selected lists in
  match (if l <? 0 then None else nth_error flat (Z.to_nat l)) with
  | Some d => record_cells (record_columns flat) d
  | None => nan_cells (record_columns flat)
  end.

(** A row of the table after the merge: its own cells without the two
    constructor columns, then the new cells of its label. *)
Definition row_of_table (lists : list (list pyval)) (r : row) : row :=
  mkRow (label r) (cells (strip_row r) ++ cells_by_label lists (label r)).

(** The row the merge makes for position [i] when no row of the table
    is labelled [i]: NaN in the columns of the table, then the flattened
    mapping selected at that position. *)
Definition row_of_position (df : DataFrame) (lists : list (list pyval))
  (i : nat) (x : list pyval) : row :=
  mkRow (Z.of_nat i)
    (nan_cells (strip_columns (columns df)) ++
     record_cells (record_columns (map flat_selected lists)) (flat_selected x)).

(** [out] is the table merged by label with the flattened mappings. *)
Definition merged_by_label (df : DataFrame) (lists : list (list pyval))
  (out : DataFrame) : Prop :=
  columns out =
    strip_columns (columns df) ++ record_columns (map flat_selected lists) /\
  (length (rows df) <= length (rows out))%nat /\
  (forall r', In r' (rows out) <->
     (exists r, In r (rows df) /\ r' = row_of_table lists r) \/
     (exists i x, nth_error lists i = Some x /\
                  ~ In (Z.of_nat i) (labels df) /\
                  r' = row_of_position df lists i x)).

(** No value of the record is a mapping. *)
Definition flat_values (d : pydict) : Prop :=
  forall k v, In (k, v) d -> is_dict v = false.

(** [out] has every column of [df] other than the constructor-list
    column and the helper column, and for every row of [df] a row under
    the same label with the same cells in those columns. *)
Definition keeps_other_data (df out : DataFrame) : Prop :=
  (forall c, In c (columns df) ->
             c <> "ConstructorTable" -> c <> "constructor_data" ->
             In c (columns out)) /\
  (forall r, In r (rows df) ->
     exists r', In r' (rows out) /\ label r' = label r /\
       forall c v, c <> "ConstructorTable" -> c <> "constructor_data" ->
                   dict_get c (cells r) = Some v ->
                   dict_get c (cells r') = Some v).

(** A selected mapping with mappings inside, in a table that has a
    mapping of its own in another column. *)
Definition nested_record : pydict :=
  [("constructorId", PStr "ferrari");
   ("Constructor", PDict [("name", PStr "Ferrari");
                          ("base", PDict [("country", PStr "Italy")])])].

Definition nested_season : DataFrame :=
  mkFrame ["circuit"; "ConstructorTable"]
    [mkRow 0 [("circuit", PDict [("name", PStr "Monza")]);
              ("ConstructorTable", PList [PDict nested_record])]].

(** Two rows under one label, as a table put together from two sources
    has them. *)
Definition repeated_labels : DataFrame :=
  mkFrame ["year"; "ConstructorTable"]
    [season_row 0 (PList example_list); season_row 0 (PList example_list)].

(** The calls that make and process the table, and all the calls of a
    request that goes through, in order. *)
Definition table_steps : list call :=
  [CallDataFrame; CallCleanDataframe; CallNormalizeConstructorData].

Definition request_calls : list call :=
  pipeline_calls ++ table_steps ++ [CallGenerateCode; CallExecuteCode].

(** What the handlers of lines 234-249 report of an exception: the
    [detail] of an [HTTPException], [str(e)] of any other. *)
Definition reported (e : exn) : string :=
  match e with
  | HTTPException _ detail => detail
  | Error _ msg => msg
  end.

(** One of the calls of steps 1 to 4 raises [e]; [log] is the calls made
    up to and including that one. *)
Definition pipeline_raises {env : Collaborators} (query : string) (e : exn)
  (log : list call) : Prop :=
  (process_query query = Raise e /\ log = [CallProcessQuery]) \/
  (exists qr,
      process_query query = Ok qr /\ adapt qr = Raise e /\
      log = [CallProcessQuery; CallAdapt]) \/
  (exists qr ad,
      process_query query = Ok qr /\ adapt qr = Ok ad /\
      to_data_requirements ad = Raise e /\
      log = [CallProcessQuery; CallAdapt; CallToDataRequirements]) \/
  (exists qr ad rq,
      process_query query = Ok qr /\ adapt qr = Ok ad /\
      to_data_requirements ad = Ok rq /\ process rq = Raise e /\
      log = [CallProcessQuery; CallAdapt; CallToDataRequirements; CallProcess]) \/
  (exists qr ad rq raw,
      process_query query = Ok qr /\ adapt qr = Ok ad /\
      to_data_requirements ad = Ok rq /\ process rq = Ok raw /\
      adapt_pipeline_result raw (now 0) = Raise e /\
      log = pipeline_calls).

(** Stubbed collaborators: the query processor rejects the empty query
    and hands any other on; the result adapter returns [pr]; the code
    generator and the executor have the outcomes [code] and [outcome]. *)
Definition stub_collaborators (pr : PipelineResult string)
  (code : result string) (outcome : result (bool * string * string))
  : Collaborators :=
  {| QueryResult := string;
     Trace := string;
     AdaptedQuery := string;
     Requirements := string;
     RawResponse := string;
     Metadata := string;
     Payload := string;
     process_query := fun q =>
       if String.eqb q "" then Raise (Error ValueError "empty query") else Ok q;
     trace := fun q => q;
     adapt := fun q => Ok q;
     to_data_requirements := fun q => Ok q;
     process := fun q => Ok q;
     adapt_pipeline_result := fun _ _ => Ok pr;
     generate_code := fun _ _ => code;
     execute_code_safely := fun _ _ => outcome;
     str_payload := fun p => p;
     str_http := fun _ detail => ("400: " ++ detail)%string;
     frame_of_list := fun _ => Raise (Error ValueError "not modelled");
     now := fun k => 100 + 5 * Z.of_nat k |}.

(** A pipeline result that reports success and carries [d]. *)
Definition carrying (d : list (string * results_value)) : PipelineResult string :=
  mkPipelineResult true (Some d) None "meta".

Definition good_code : result string := Ok "result = len(df)".

Definition good_outcome : result (bool * string * string) :=
  Ok (true, "1", "result = len(df)").

(** The payload is a table whose only row holds a stray year. *)
Definition stub_stray_year : Collaborators :=
  stub_collaborators (carrying [("results", RFrame stray_year)])
    good_code good_outcome.

(** The data has a "count" and no "results". *)
Definition stub_no_results : Collaborators :=
  stub_collaborators (carrying [("count", RValue (PInt 3))])
    good_code good_outcome.

(** The executor reports that the code failed. *)
Definition stub_failed_run : Collaborators :=
  stub_collaborators (carrying [("results", RFrame one_season)])
    good_code
    (Ok (false, "name 'points' is not defined", "result = points")).

(** The payload is a table with a list in its "tags" column. *)
Definition stub_tagged : Collaborators :=
  stub_collaborators (carrying [("results", RFrame tagged_results)])
    good_code good_outcome.

(** The code generator raises. *)
Definition stub_no_generator : Collaborators :=
  stub_collaborators (carrying [("results", RFrame one_season)])
    (Raise (Error (OtherError "RuntimeError") "model unavailable"))
    good_outcome.

(** The table of the worked example after the table steps. *)
Definition one_season_expanded : DataFrame :=
  mkFrame ["year"; "constructorId"; "points"]
    [mkRow 0 [("year", PInt 2021); ("constructorId", PStr "ferrari");
              ("points", PInt 90)]].

(** The value a record has under key [c], NaN when it has no such key. *)
Definition record_value (c : string) (d : pydict) : pyval :=
  match dict_get c d with Some v => v | None => NaN end.

(** Steps 1 to 4 go through, and the pipeline result reports success
    and carries the data [d]. *)
Definition data_returns {env : Collaborators} (query : string)
  (qr : QueryResult) (pr : PipelineResult Metadata)
  (d : list (string * results_value)) : Prop :=
  pipeline_returns query qr pr /\ success pr = true /\ data pr = Some d.

(** The table steps go through on the data [d] and leave the table
    [df], which is not empty. *)
Definition table_returns {lib : Parsers} {env : Collaborators}
  (d : list (string * results_value)) (df : DataFrame) : Prop :=
  exists df0 df1,
    coerce_results (results_of d) = Ok df0 /\
    clean_dataframe df0 = Ok df1 /\
    normalize_constructor_data df1 = Ok df /\
    df_empty df = false.

(** The faults of a request, stage by stage: [request_fault query
    details log] says that a stage of the request for [query] fails,
    by an exception or by an explicit error signal, that [details] is
    the message of that fault, and that [log] is the calls up to and
    including the one that failed. *)
Inductive request_fault {lib : Parsers} {env : Collaborators} (query : string)
  : string -> list call -> Prop :=
| fault_stage (e : exn) (log : list call) :
    (* interpretation, adaptation, fetch, result adaptation *)
    pipeline_raises query e log ->
    request_fault query (reported e) log
| fault_pipeline_error (qr : QueryResult) (pr : PipelineResult Metadata)
    (text : string) :
    pipeline_returns query qr pr ->
    success pr = false \/ data pr = None ->
    error pr = Some text -> text <> "" ->
    request_fault query ("Pipeline processing failed: " ++ text)
      [CallProcessQuery; CallAdapt; CallToDataRequirements; CallProcess;
       CallAdaptPipelineResult]
| fault_pipeline_silent (qr : QueryResult) (pr : PipelineResult Metadata) :
    pipeline_returns query qr pr ->
    success pr = false \/ data pr = None ->
    error pr = None \/ error pr = Some "" ->
    request_fault query "Pipeline processing failed: No data returned"
      [CallProcessQuery; CallAdapt; CallToDataRequirements; CallProcess;
       CallAdaptPipelineResult]
| fault_shape (qr : QueryResult) (pr : PipelineResult Metadata)
    (d : list (string * results_value)) (e : exn) :
    data_returns query qr pr d ->
    coerce_results (results_of d) = Raise e ->
    request_fault query ("Failed to process data: " ++ str_exn e)
      [CallProcessQuery; CallAdapt; CallToDataRequirements; CallProcess;
       CallAdaptPipelineResult; CallDataFrame]
| fault_normaliser (qr : QueryResult) (pr : PipelineResult Metadata)
    (d : list (string * results_value)) (df0 : DataFrame) (e : exn) :
    data_returns query qr pr d ->
    coerce_results (results_of d) = Ok df0 ->
    clean_dataframe df0 = Raise e ->
    request_fault query ("Failed to process data: " ++ str_exn e)
      [CallProcessQuery; CallAdapt; CallToDataRequirements; CallProcess;
       CallAdaptPipelineResult; CallDataFrame; CallCleanDataframe]
| fault_expander (qr : QueryResult) (pr : PipelineResult Metadata)
    (d : list (string * results_value)) (df0 df1 : DataFrame) (e : exn) :
    data_returns query qr pr d ->
    coerce_results (results_of d) = Ok df0 ->
    clean_dataframe df0 = Ok df1 ->
    normalize_constructor_data df1 = Raise e ->
    request_fault query ("Failed to process data: " ++ str_exn e)
      [CallProcessQuery; CallAdapt; CallToDataRequirements; CallProcess;
       CallAdaptPipelineResult; CallDataFrame; CallCleanDataframe;
       CallNormalizeConstructorData]
| fault_empty (qr : QueryResult) (pr : PipelineResult Metadata)
    (d : list (string * results_value)) (df0 df1 df2 : DataFrame) :
    data_returns query qr pr d ->
    coerce_results (results_of d) = Ok df0 ->
    clean_dataframe df0 = Ok df1 ->
    normalize_constructor_data df1 = Ok df2 ->
    df_empty df2 = true ->
    request_fault query
      ("Failed to process data: " ++
       str_http 400 "No data available after processing")
      [CallProcessQuery; CallAdapt; CallToDataRequirements; CallProcess;
       CallAdaptPipelineResult; CallDataFrame; CallCleanDataframe;
       CallNormalizeConstructorData]
| fault_generator (qr : QueryResult) (pr : PipelineResult Metadata)
    (d : list (string * results_value)) (df : DataFrame) (e : exn) :
    data_returns query qr pr d ->
    table_returns d df ->
    generate_code df query = Raise e ->
    request_fault query (reported e)
      [CallProcessQuery; CallAdapt; CallToDataRequirements; CallProcess;
       CallAdaptPipelineResult; CallDataFrame; CallCleanDataframe;
       CallNormalizeConstructorData; CallGenerateCode]
| fault_executor (qr : QueryResult) (pr : PipelineResult Metadata)
    (d : list (string * results_value)) (df : DataFrame) (code : string)
    (e : exn) :
    data_returns query qr pr d ->
    table_returns d df ->
    generate_code df query = Ok code ->
    execute_code_safely code df = Raise e ->
    request_fault query (reported e)
      [CallProcessQuery; CallAdapt; CallToDataRequirements; CallProcess;
       CallAdaptPipelineResult; CallDataFrame; CallCleanDataframe;
       CallNormalizeConstructorData; CallGenerateCode; CallExecuteCode]
| fault_execution (qr : QueryResult) (pr : PipelineResult Metadata)
    (d : list (string * results_value)) (df : DataFrame) (code : string)
    (result : Payload) (executed_code : string) :
    data_returns query qr pr d ->
    table_returns d df ->
    generate_code df query = Ok code ->
    execute_code_safely code df = Ok (false, result, executed_code) ->
    request_fault query ("Code execution failed: " ++ str_payload result)
      [CallProcessQuery; CallAdapt; CallToDataRequirements; CallProcess;
       CallAdaptPipelineResult; CallDataFrame; CallCleanDataframe;
       CallNormalizeConstructorData; CallGenerateCode; CallExecuteCode].


(** [pd.DataFrame([7, 8])]: one column, whose label is the integer 0
    (written here as text), and one row per number. *)
Definition scalar_table : DataFrame :=
  mkFrame ["0"] [mkRow 0 [("0", PInt 7)]; mkRow 1 [("0", PInt 8)]].

(** The payload is the list [[7, 8]], which is no list of records. *)
Definition stub_scalar_list : Collaborators :=
  {| QueryResult := string;
     Trace := string;
     AdaptedQuery := string;
     Requirements := string;
     RawResponse := string;
     Metadata := string;
     Payload := string;
     process_query := fun q => Ok q;
     trace := fun q => q;
     adapt := fun q => Ok q;
     to_data_requirements := fun q => Ok q;
     process := fun q => Ok q;
     adapt_pipeline_result := fun _ _ =>
       Ok (carrying [("results", RValue (PList [PInt 7; PInt 8]))]);
     generate_code := fun _ _ => good_code;
     execute_code_safely := fun _ _ => good_outcome;
     str_payload := fun p => p;
     str_http := fun _ detail => ("400: " ++ detail)%string;
     frame_of_list := fun l =>
       match l with
       | [PInt 7; PInt 8] => Ok scalar_table
       | _ => Raise (Error ValueError "not modelled")
       end;
     now := fun k => 100 + 5 * Z.of_nat k |}.

(** Two records whose "ConstructorTable" holds a number and [None]. *)
Definition stray_records : list pydict :=
  [[("year", PInt 2021); ("ConstructorTable", PInt 2021)];
   [("year", PInt 2022); ("ConstructorTable", PNone)]].

(* ===================================================================== *)
(** ** Properties of the cell resolver and of the selection *)
(* ===================================================================== *)

Ltac key_clash :=
  unfold hkey_eqb, num_key;
  repeat match goal with
         | |- context [dyadic_norm ?m ?e] => destruct (dyadic_norm m e)
         end;
  match goal with
  | |- context [hkey_eq_dec ?a ?b] =>
      let E := fresh "E" in
      destruct (hkey_eq_dec a b) as [E | E]; [ discriminate E | discriminate ]
  end.

Lemma py_eq_text (v : pyval) (s : string) :
  py_eq v (PStr s) = true -> v = PStr s.
Proof.
  destruct v as [ | b | z | f | s' | l | d ]; simpl; try discriminate;
    try key_clash.
  - destruct f as [ | n | m e ]; simpl; try discriminate; key_clash.
  - unfold hkey_eqb. destruct (hkey_eq_dec _ _) as [E | E]; try discriminate.
    intros _. congruence.
Qed.

Lemma py_eq_text_refl (s : string) : py_eq (PStr s) (PStr s) = true.
Proof.
  simpl. unfold hkey_eqb. destruct (hkey_eq_dec _ _); congruence.
Qed.

Lemma is_ferrari_spec (item : pyval) :
  is_ferrari item = true <-> targets_ferrari item.
Proof.
  unfold targets_ferrari. split.
  - destruct item; simpl; try discriminate.
    intros H. exists kvs. split; [reflexivity | ].
    destruct (dict_get "constructorId" kvs) as [v | ].
    + apply py_eq_text in H. congruence.
    + discriminate.
  - intros [d [-> H]]. simpl. rewrite H. apply py_eq_text_refl.
Qed.


Lemma select_constructor_cases (l : list pyval) :
  select_constructor l = PDict [] \/
  (In (select_constructor l) l /\ targets_ferrari (select_constructor l)).
Proof.
  unfold select_constructor. destruct (find is_ferrari l) as [item | ] eqn:E.
  - right. apply List.find_some in E. destruct E as [Hin Hf].
    split; [assumption | now apply is_ferrari_spec].
  - now left.
Qed.

Lemma select_constructor_is_dict (l : list pyval) :
  exists d, select_constructor l = PDict d.
Proof.
  destruct (select_constructor_cases l) as [H | [_ [d [H _]]]]; eauto.
Qed.


(** Two matching entries after a text entry and another team: the first
    match wins. *)
Example select_constructor_picks_first :
  select_constructor
    [PStr "ferrari"; PDict mclaren_record;
     PDict [("constructorId", PStr "ferrari"); ("points", PInt 1)];
     PDict ferrari_record]
  = PDict [("constructorId", PStr "ferrari"); ("points", PInt 1)].
Proof. reflexivity. Qed.

Section ResolverProperties.
Context {lib : Parsers}.

(** A value that is already structured never reaches a parser. *)
Lemma validate_structured (v : pyval) :
  (forall s, v <> PStr s) ->
  validate_constructor_data v = Ok (match v with PList l => l | _ => [] end).
Proof.
  intros H. destruct v; try reflexivity. now elim (H s).
Qed.

(** X4.  When a fault of the structured-text parse is a
    [JSONDecodeError] and a fault of the fallback parse is a
    [ValueError] or a [SyntaxError], the resolver returns: the list the
    first successful parse gives, and the empty list when that value is
    no list or when both parses fail. *)
Theorem validate_text_cases (s : string) :
  (forall e, json_loads s = Raise e -> is_JSONDecodeError e = true) ->
  (forall e, literal_eval s = Raise e ->
             is_ValueError e || is_SyntaxError e = true) ->
  validate_constructor_data (PStr s) =
  Ok (match json_loads s with
      | Ok (PList l) => l
      | Ok _ => []
      | Raise _ =>
          match literal_eval s with
          | Ok (PList l) => l
          | _ => []
          end
      end).
Proof.
  intros Hj Hl. unfold validate_constructor_data.
  destruct (json_loads s) as [v | e].
  - destruct v; reflexivity.
  - rewrite (Hj e eq_refl).
    destruct (literal_eval s) as [v | e'].
    + destruct v; reflexivity.
    + now rewrite (Hl e' eq_refl).
Qed.

(** C8, at the failing input.  When the structured-text parse fails and
    the fallback parse fails with an exception that is neither a
    [ValueError] nor a [SyntaxError], the resolver raises that exception
    instead of resolving to the empty list. *)
Theorem validate_constructor_data_uncaught (s : string) (e e' : exn) :
  json_loads s = Raise e ->
  is_JSONDecodeError e = true ->
  literal_eval s = Raise e' ->
  is_ValueError e' = false ->
  is_SyntaxError e' = false ->
  validate_constructor_data (PStr s) = Raise e'.
Proof.
  intros Hj He Hl Hv Hs. unfold validate_constructor_data.
  now rewrite Hj, He, Hl, Hv, Hs.
Qed.

End ResolverProperties.

Lemma validate_text_cases_witness :
  @validate_constructor_data sample_parsers (PStr example_text)
  = Ok example_list.
Proof.
  apply (@validate_text_cases sample_parsers example_text).
  - intros e H. inversion H. reflexivity.
  - intros e H. discriminate H.
Defined.

Lemma validate_constructor_data_uncaught_witness :
  @validate_constructor_data sample_parsers (PStr "{[]}")
  = Raise (Error TypeError "unhashable type: 'list'").
Proof.
  apply (@validate_constructor_data_uncaught sample_parsers "{[]}"
           (Error JSONDecodeError
              "Expecting property name enclosed in double quotes: line 1 column 2 (char 1)"));
    reflexivity.
Defined.

(* ===================================================================== *)
(** ** Properties of the table normaliser *)
(* ===================================================================== *)

Lemma filter_all {A : Type} (p : A -> bool) (l : list A) :
  (forall x, In x l -> p x = true) -> filter p l = l.
Proof.
  induction l as [ | a l IH ]; simpl; intros H; [ reflexivity | ].
  rewrite (H a (or_introl eq_refl)). f_equal. apply IH. auto.
Qed.

Lemma filter_comm {A : Type} (p q : A -> bool) (l : list A) :
  filter p (filter q l) = filter q (filter p l).
Proof.
  induction l as [ | a l IH ]; simpl; [ reflexivity | ].
  destruct (p a) eqn:Ep, (q a) eqn:Eq; simpl;
    rewrite ?Ep, ?Eq, IH; reflexivity.
Qed.

(** Removing rows keeps the keys of the others pairwise distinct. *)
Lemma distinct_keys_filter {R K : Type} (key : R -> K) (keep : R -> bool) :
  forall rs : list R,
    NoDup (map key rs) -> NoDup (map key (filter keep rs)).
Proof.
  intros rs. induction rs as [ | r rs IH ]; simpl; intros H; [ constructor | ].
  inversion H as [ | x xs Hnin Hnd ]; subst.
  destruct (keep r); simpl; [ constructor | ]; auto.
  intros Hin. apply Hnin. apply in_map_iff in Hin.
  destruct Hin as [y [Hy Hin]]. apply filter_In in Hin.
  apply in_map_iff. exists y. tauto.
Qed.

Lemma NoDup_map_transfer {A K K' : Type} (f : A -> K) (g : A -> K')
  (l : list A) :
  NoDup (map f l) ->
  (forall x y, In x l -> In y l -> g x = g y -> f x = f y) ->
  NoDup (map g l).
Proof.
  induction l as [ | a l IH ]; simpl; intros H Hfg; [ constructor | ].
  inversion H as [ | x xs Hnin Hnd ]; subst. constructor.
  - intros Hin. apply Hnin. apply in_map_iff in Hin.
    destruct Hin as [y [Hy Hin]]. apply in_map_iff. exists y.
    split; [ | assumption ]. symmetry. apply Hfg; auto.
  - apply IH; auto.
Qed.

Lemma has_column_In (c : string) (df : DataFrame) :
  has_column c df = true <-> In c (columns df).
Proof.
  unfold has_column. rewrite existsb_exists. split.
  - intros [x [Hin Heq]]. apply String.eqb_eq in Heq. now subst.
  - intros H. exists c. split; [ assumption | apply String.eqb_refl ].
Qed.

Lemma In_remove_name (c s : string) (l : list string) :
  In c (filter (fun n => negb (String.eqb n s)) l) <-> In c l /\ c <> s.
Proof.
  rewrite filter_In, negb_true_iff, String.eqb_neq. tauto.
Qed.

Lemma has_column_removed (s : string) (cols : list string) (rs : list row) :
  has_column s (mkFrame (filter (fun n => negb (String.eqb n s)) cols) rs)
  = false.
Proof.
  destruct (has_column s _) eqn:E; [ | reflexivity ].
  apply has_column_In in E. simpl in E. apply In_remove_name in E. tauto.
Qed.

Lemma dict_get_remove (c s : string) (d : pydict) :
  c <> s ->
  dict_get c (filter (fun kv => negb (String.eqb (fst kv) s)) d) = dict_get c d.
Proof.
  intros Hcs. induction d as [ | [k v] d IH ]; simpl; [ reflexivity | ].
  destruct (String.eqb k s) eqn:Eks; simpl.
  - apply String.eqb_eq in Eks. subst k.
    destruct (String.eqb s c) eqn:Esc; [ | exact IH ].
    apply String.eqb_eq in Esc. congruence.
  - now rewrite IH.
Qed.

Lemma cell_drop_cell (c s : string) (r : row) :
  c <> s -> cell c (drop_cell s r) = cell c r.
Proof.
  intros H. unfold cell, drop_cell. simpl. now rewrite dict_get_remove.
Qed.

(** Two values that compare equal cell-wise have the same key. *)
Lemma elt_eq_hash_key (a b : pyval) :
  elt_eq a b = true -> hash_key a = hash_key b.
Proof.
  unfold elt_eq. intros H.
  apply andb_true_iff in H. destruct H as [H Heq].
  apply andb_true_iff in H. destruct H as [Ha Hb].
  apply negb_true_iff in Ha. apply negb_true_iff in Hb.
  assert (Hkey : forall x y,
             (if hkey_eq_dec x y then true else false) = true -> Some x = Some y).
  { intros x y Hxy. destruct (hkey_eq_dec x y); congruence. }
  destruct a as [ | ? | ? | fa | ? | ? | ? ];
    destruct b as [ | ? | ? | fb | ? | ? | ? ];
    try destruct fa; try destruct fb;
    simpl in *; try discriminate; try reflexivity;
    unfold hkey_eqb in Heq; now apply Hkey.
Qed.

(** *** Keeping the first row of every key *)

Lemma keep_first_In (subset : list string) (rs : list row) :
  forall seen r, In r (keep_first subset seen rs) -> In r rs.
Proof.
  induction rs as [ | a rs IH ]; simpl; intros seen r H; [ assumption | ].
  destruct (in_dec key_eq_dec (row_key subset a) seen).
  - right. eapply IH; eauto.
  - destruct H as [H | H]; [ now left | right; eapply IH; eauto ].
Qed.

Lemma keep_first_fresh (subset : list string) (rs : list row) :
  forall seen r,
    In r (keep_first subset seen rs) -> ~ In (row_key subset r) seen.
Proof.
  induction rs as [ | a rs IH ]; simpl; intros seen r H; [ contradiction | ].
  destruct (in_dec key_eq_dec (row_key subset a) seen) as [Hin | Hnin].
  - eapply IH; eauto.
  - destruct H as [H | H]; [ now subst | ].
    intros Hs. apply (IH _ _ H). now right.
Qed.

Lemma keep_first_NoDup (subset : list string) (rs : list row) :
  forall seen, NoDup (map (row_key subset) (keep_first subset seen rs)).
Proof.
  induction rs as [ | a rs IH ]; simpl; intros seen; [ constructor | ].
  destruct (in_dec key_eq_dec (row_key subset a) seen) as [Hin | Hnin].
  - apply IH.
  - simpl. constructor; [ | apply IH ].
    intros H. apply in_map_iff in H. destruct H as [y [Hy Hin]].
    apply keep_first_fresh in Hin. apply Hin. left. now symmetry.
Qed.

Lemma keep_first_id (subset : list string) (rs : list row) :
  forall seen,
    NoDup (map (row_key subset) rs) ->
    (forall r, In r rs -> ~ In (row_key subset r) seen) ->
    keep_first subset seen rs = rs.
Proof.
  induction rs as [ | a rs IH ]; simpl; intros seen Hnd Hseen; [ reflexivity | ].
  inversion Hnd as [ | x xs Hnin Hnd' ]; subst.
  destruct (in_dec key_eq_dec (row_key subset a) seen) as [Hin | _].
  - elim (Hseen a (or_introl eq_refl) Hin).
  - f_equal. apply IH; [ assumption | ].
    intros r Hr [Heq | Hs].
    + apply Hnin. rewrite Heq. now apply in_map.
    + apply (Hseen r (or_intror Hr) Hs).
Qed.


Lemma first_some_None {A B : Type} (f : A -> option B) (l : list A) :
  first_some f l = None <-> forall x, In x l -> f x = None.
Proof.
  induction l as [ | a l IH ]; simpl.
  - split; [ intros _ x [] | reflexivity ].
  - destruct (f a) eqn:E.
    + split; [ discriminate | ]. intros H. rewrite <- E. now apply H; left.
    + rewrite IH. split.
      * intros H x [<- | Hx]; auto.
      * intros H x Hx. apply H. now right.
Qed.

Lemma first_unhashable_None (subset : list string) (rs : list row) :
  first_unhashable subset rs = None <->
  forall c r, In c subset -> In r rs -> unhashable_type (cell c r) = None.
Proof.
  unfold first_unhashable. rewrite first_some_None. split.
  - intros H c r Hc Hr. specialize (H c Hc).
    rewrite first_some_None in H. now apply H.
  - intros H c Hc. apply first_some_None. intros r Hr. now apply H.
Qed.

(** *** The normaliser, step by step *)

Lemma clean_dataframe_steps (df : DataFrame) :
  clean_dataframe df =
  bind (remove_duplicates (remove_year_numbers df)) reconcile_year_season.
Proof.
  unfold clean_dataframe, remove_year_numbers.
  destruct (has_column "ConstructorTable" df); reflexivity.
Qed.

Lemma remove_year_numbers_rows (df : DataFrame) :
  rows (remove_year_numbers df) =
  if has_column "ConstructorTable" df then filter keeps_cell (rows df)
  else rows df.
Proof.
  unfold remove_year_numbers, where_column.
  destruct (has_column "ConstructorTable" df); [ | reflexivity ].
  destruct (rows df) eqn:E; [ reflexivity | ].
  unfold filter_rows. cbn [rows]. now rewrite E.
Qed.

Lemma remove_year_numbers_columns (df : DataFrame) :
  rows df <> [] \/ has_column "ConstructorTable" df = false ->
  columns (remove_year_numbers df) = columns df.
Proof.
  unfold remove_year_numbers, where_column. intros [H | H].
  - destruct (has_column "ConstructorTable" df); [ | reflexivity ].
    destruct (rows df); [ now elim H | reflexivity ].
  - now rewrite H.
Qed.

Lemma remove_year_numbers_cases (df : DataFrame) :
  (rows df = [] /\ has_column "ConstructorTable" df = true) \/
  columns (remove_year_numbers df) = columns df.
Proof.
  destruct (has_column "ConstructorTable" df) eqn:Hct;
    [ destruct (rows df) eqn:Hr | ].
  - now left.
  - right. apply remove_year_numbers_columns. left. rewrite Hr. discriminate.
  - right. apply remove_year_numbers_columns. now right.
Qed.

Lemma remove_year_numbers_In (df : DataFrame) (r : row) :
  In r (rows (remove_year_numbers df)) -> In r (rows df).
Proof.
  rewrite remove_year_numbers_rows.
  destruct (has_column "ConstructorTable" df); [ | auto ].
  intros H. now apply filter_In in H.
Qed.

(** The normaliser on a table without rows that has the constructor-list
    column: no column is left. *)
Lemma clean_dataframe_no_rows (df : DataFrame) :
  rows df = [] -> has_column "ConstructorTable" df = true ->
  clean_dataframe df = Ok (mkFrame [] []).
Proof.
  intros Hr Hct. unfold clean_dataframe, where_column.
  now rewrite Hct, Hr.
Qed.

Lemma remove_duplicates_ok (df df2 : DataFrame) :
  remove_duplicates df = Ok df2 ->
  columns df2 = columns df /\
  ((safe_columns df = [] /\ rows df2 = rows df) \/
   (safe_columns df <> [] /\
    first_unhashable (safe_columns df) (rows df) = None /\
    rows df2 = keep_first (safe_columns df) [] (rows df))).
Proof.
  unfold remove_duplicates, drop_duplicates.
  destruct (safe_columns df) as [ | c cs ] eqn:Es.
  - intros H. inversion H; subst. auto.
  - destruct (first_unhashable (c :: cs) (rows df)); [ discriminate | ].
    intros H. inversion H; subst; simpl. split; [ reflexivity | ].
    right. repeat split; auto. discriminate.
Qed.

Lemma frame_eta (df : DataFrame) : mkFrame (columns df) (rows df) = df.
Proof. now destruct df. Qed.


(** A normalised table that still has a row, or has no constructor-list
    column, is a fixed point of the normaliser. *)
Lemma normalised_fixed (df : DataFrame) :
  normalised df ->
  rows df <> [] \/ has_column "ConstructorTable" df = false ->
  clean_dataframe df = Ok df.
Proof.
  intros [Hcells [Hkeys Hys]] Hne. rewrite clean_dataframe_steps.
  assert (E1 : remove_year_numbers df = df).
  { rewrite <- (frame_eta (remove_year_numbers df)).
    rewrite (remove_year_numbers_columns df Hne), remove_year_numbers_rows.
    destruct (has_column "ConstructorTable" df) eqn:E.
    - rewrite filter_all by auto. apply frame_eta.
    - apply frame_eta. }
  rewrite E1.
  assert (E2 : remove_duplicates df = Ok df).
  { unfold remove_duplicates, drop_duplicates.
    destruct Hkeys as [Hs | [Hu Hnd]].
    - now rewrite Hs.
    - rewrite Hu, keep_first_id, frame_eta; auto.
      now destruct (safe_columns df). }
  rewrite E2. simpl. unfold reconcile_year_season. now rewrite Hys.
Qed.

Lemma safe_columns_In (c : string) (df : DataFrame) :
  In c (safe_columns df) <-> In c (columns df) /\ c <> "ConstructorTable".
Proof. apply In_remove_name. Qed.

Lemma row_key_drop_cell (subset : list string) (s : string) (r : row) :
  ~ In s subset -> row_key subset (drop_cell s r) = row_key subset r.
Proof.
  intros H. unfold row_key. apply map_ext_in. intros c Hc.
  rewrite cell_drop_cell; [ reflexivity | ]. intros ->. contradiction.
Qed.

(** Rows that agree on every safe column but "season", and whose "year"
    equals their "season", agree on "season" too. *)
Lemma row_key_without_season (safe : list string) (x y : row) :
  In "year" safe ->
  year_is_season x = true -> year_is_season y = true ->
  row_key (filter (fun n => negb (String.eqb n "season")) safe) x =
  row_key (filter (fun n => negb (String.eqb n "season")) safe) y ->
  row_key safe x = row_key safe y.
Proof.
  intros Hyear Hx Hy Hk. unfold row_key in *.
  apply elt_eq_hash_key in Hx. apply elt_eq_hash_key in Hy.
  assert (Hpt : forall c, In c safe -> c <> "season" ->
                          hash_key (cell c x) = hash_key (cell c y)).
  { intros c Hc Hne.
    apply (proj1 (@map_ext_in_iff _ _ _ _ _) Hk). apply In_remove_name. auto. }
  apply map_ext_in. intros c Hc.
  destruct (string_dec c "season") as [-> | Hne]; [ | auto ].
  rewrite <- Hx, <- Hy. apply Hpt; [ assumption | discriminate ].
Qed.

Lemma reconcile_normalised (df df' : DataFrame) :
  (has_column "ConstructorTable" df = true ->
   forall r, In r (rows df) -> keeps_cell r = true) ->
  (safe_columns df = [] \/
   (first_unhashable (safe_columns df) (rows df) = None /\
    NoDup (map (row_key (safe_columns df)) (rows df)))) ->
  reconcile_year_season df = Ok df' ->
  normalised df'.
Proof.
  intros Hcells Hkeys. unfold reconcile_year_season.
  destruct (has_column "year" df && has_column "season" df) eqn:Eys.
  - apply andb_true_iff in Eys. destruct Eys as [Hy Hs].
    unfold drop_column. simpl. unfold has_column in Hs at 1.
    replace (has_column "season" (filter_rows year_is_season df))
      with true by (symmetry; exact Hs).
    intros H. inversion H; subst; clear H.
    apply has_column_In in Hy.
    assert (Hysafe : In "year" (safe_columns df)).
    { apply safe_columns_In. split; [ assumption | discriminate ]. }
    assert (Es : safe_columns
                   (mkFrame (filter (fun n => negb (String.eqb n "season")) (columns df))
                      (map (drop_cell "season") (filter year_is_season (rows df))))
                 = filter (fun n => negb (String.eqb n "season")) (safe_columns df)).
    { unfold safe_columns. simpl.
      apply filter_comm. }
    split; [ | split ].
    + intros Hct r Hr. simpl in Hr. apply in_map_iff in Hr.
      destruct Hr as [r0 [<- Hr0]]. apply filter_In in Hr0.
      unfold keeps_cell. rewrite cell_drop_cell by discriminate.
      apply Hcells; [ | tauto ].
      apply has_column_In. apply has_column_In in Hct. simpl in Hct.
      now apply In_remove_name in Hct.
    + right. rewrite Es. simpl.
      destruct Hkeys as [He | [Hu Hnd]]; [ rewrite He in Hysafe; contradiction | ].
      split.
      * apply first_unhashable_None. intros c r Hc Hr.
        apply In_remove_name in Hc. destruct Hc as [Hc Hne].
        apply in_map_iff in Hr. destruct Hr as [r0 [<- Hr0]].
        apply filter_In in Hr0. rewrite cell_drop_cell by assumption.
        apply (proj1 (first_unhashable_None _ _) Hu); tauto.
      * rewrite map_map.
        apply (NoDup_map_transfer (row_key (safe_columns df))).
        -- now apply distinct_keys_filter.
        -- intros x y Hx Hy' Hk.
           apply filter_In in Hx. apply filter_In in Hy'.
           rewrite !row_key_drop_cell in Hk
             by (intros Hin; apply In_remove_name in Hin; tauto).
           apply row_key_without_season; tauto.
    + apply andb_false_iff. right. apply has_column_removed.
  - intros H. inversion H; subst. repeat split; auto.
Qed.

Lemma normalised_no_columns : normalised (mkFrame [] []).
Proof.
  repeat split; try discriminate. now left.
Qed.

Lemma clean_dataframe_normalised_rows (df df' : DataFrame) :
  columns (remove_year_numbers df) = columns df ->
  clean_dataframe df = Ok df' -> normalised df'.
Proof.
  intros Hc1. rewrite clean_dataframe_steps.
  destruct (remove_duplicates (remove_year_numbers df)) as [df2 | e] eqn:E2;
    [ simpl | discriminate ].
  pose proof (remove_year_numbers_rows df) as Hrows1.
  apply remove_duplicates_ok in E2. destruct E2 as [Hc2 Hrows].
  assert (Hsafe : safe_columns df2 = safe_columns (remove_year_numbers df)).
  { unfold safe_columns. now rewrite Hc2. }
  apply reconcile_normalised.
  - intros Hct r Hr.
    assert (Hct' : has_column "ConstructorTable" df = true).
    { unfold has_column in *. now rewrite <- Hc1, <- Hc2. }
    assert (Hr1 : In r (rows (remove_year_numbers df))).
    { destruct Hrows as [[_ Hk] | [_ [_ Hk]]]; rewrite Hk in Hr;
        [ assumption | now apply keep_first_In in Hr ]. }
    rewrite Hrows1, Hct' in Hr1. now apply filter_In in Hr1.
  - rewrite Hsafe. destruct Hrows as [[He _] | [_ [Hu Hk]]]; [ now left | right ].
    rewrite Hk. split; [ | apply keep_first_NoDup ].
    apply first_unhashable_None. intros c r Hc Hr.
    apply keep_first_In in Hr.
    apply (proj1 (first_unhashable_None _ _) Hu); assumption.
Qed.

(** What the normaliser returns is normalised. *)
Lemma clean_dataframe_normalised (df df' : DataFrame) :
  clean_dataframe df = Ok df' -> normalised df'.
Proof.
  destruct (remove_year_numbers_cases df) as [[Hr Hct] | Hc1].
  - rewrite (clean_dataframe_no_rows df Hr Hct). intros H.
    inversion H; subst. apply normalised_no_columns.
  - now apply clean_dataframe_normalised_rows.
Qed.

Lemma keep_first_length (subset : list string) (rs : list row) :
  forall seen, (length (keep_first subset seen rs) <= length rs)%nat.
Proof.
  induction rs as [ | a rs IH ]; simpl; intros seen; [ lia | ].
  destruct (in_dec key_eq_dec (row_key subset a) seen); simpl.
  - specialize (IH seen). lia.
  - specialize (IH (row_key subset a :: seen)). lia.
Qed.

(** X2.  The normaliser never adds a row or a column: its result has at
    most as many rows as its input, and each of its columns is a column
    of the input. *)
Theorem clean_dataframe_shrinks (df df' : DataFrame) :
  clean_dataframe df = Ok df' ->
  (length (rows df') <= length (rows df))%nat /\
  (forall c, In c (columns df') -> In c (columns df)).
Proof.
  rewrite clean_dataframe_steps.
  destruct (remove_duplicates (remove_year_numbers df)) as [df2 | e] eqn:E2;
    [ simpl | discriminate ].
  apply remove_duplicates_ok in E2. destruct E2 as [Hc2 Hrows].
  assert (H1 : (length (rows (remove_year_numbers df)) <= length (rows df))%nat).
  { rewrite remove_year_numbers_rows.
    destruct (has_column "ConstructorTable" df); [ apply filter_length_le | lia ]. }
  assert (H2 : (length (rows df2) <= length (rows df))%nat).
  { destruct Hrows as [[_ Hk] | [_ [_ Hk]]]; rewrite Hk; [ assumption | ].
    pose proof (keep_first_length (safe_columns (remove_year_numbers df))
                  (rows (remove_year_numbers df)) []). lia. }
  assert (C2 : forall c, In c (columns df2) -> In c (columns df)).
  { intros c Hc. rewrite Hc2 in Hc.
    destruct (remove_year_numbers_cases df) as [[Hr Hct] | Hc1].
    - unfold remove_year_numbers, where_column in Hc.
      rewrite Hct, Hr in Hc. destruct Hc.
    - now rewrite Hc1 in Hc. }
  unfold reconcile_year_season, drop_column.
  destruct (has_column "year" df2 && has_column "season" df2) eqn:E.
  - apply andb_true_iff in E. destruct E as [_ Hs].
    replace (has_column "season" (filter_rows year_is_season df2)) with true
      by (symmetry; exact Hs).
    intros H. inversion H; subst df'; clear H. cbn [rows columns filter_rows].
    split.
    + rewrite length_map.
      pose proof (filter_length_le year_is_season (rows df2)). lia.
    + intros c Hc. apply In_remove_name in Hc. apply C2. tauto.
  - intros H. inversion H; subst. auto.
Qed.

(** X3.  The normaliser applied to its own result changes nothing as
    long as the result has a row or has no constructor-list column. *)
Theorem clean_dataframe_twice_same (df df' : DataFrame) :
  clean_dataframe df = Ok df' ->
  rows df' <> [] \/ has_column "ConstructorTable" df' = false ->
  clean_dataframe df' = Ok df'.
Proof.
  intros H Hne. apply normalised_fixed; [ | assumption ].
  now apply clean_dataframe_normalised with df.
Qed.

(** C5, at the failing input.  When the normaliser returns a table
    without rows that still has the constructor-list column, a second
    application does not return that table again: it returns a table
    without columns. *)
Theorem clean_dataframe_not_idempotent (df df' : DataFrame) :
  clean_dataframe df = Ok df' ->
  rows df' = [] ->
  has_column "ConstructorTable" df' = true ->
  bind (clean_dataframe df) clean_dataframe = Ok (mkFrame [] []) /\
  bind (clean_dataframe df) clean_dataframe <> clean_dataframe df.
Proof.
  intros H Hr Hct. rewrite H. cbn [bind].
  rewrite (clean_dataframe_no_rows df' Hr Hct). split; [ reflexivity | ].
  intros E. inversion E as [E']. rewrite <- E' in Hct. discriminate Hct.
Qed.





Lemma reconcile_year_season_returns (df : DataFrame) :
  exists df', reconcile_year_season df = Ok df'.
Proof.
  unfold reconcile_year_season, drop_column.
  destruct (has_column "year" df && has_column "season" df) eqn:E; [ | eauto ].
  apply andb_true_iff in E. destruct E as [_ Hs].
  replace (has_column "season" (filter_rows year_is_season df)) with true
    by (symmetry; exact Hs).
  eauto.
Qed.

(** The normaliser returns a table when every cell outside the
    constructor-list column can be hashed. *)
Lemma clean_dataframe_returns (df : DataFrame) :
  first_unhashable (safe_columns df) (rows df) = None ->
  exists df', clean_dataframe df = Ok df'.
Proof.
  intros Hu. rewrite clean_dataframe_steps.
  assert (E2 : exists df2, remove_duplicates (remove_year_numbers df) = Ok df2).
  { unfold remove_duplicates, drop_duplicates.
    destruct (safe_columns (remove_year_numbers df)) as [ | c cs ] eqn:Es;
      [ eauto | ].
    destruct (remove_year_numbers_cases df) as [[Hr Hct] | Hc1].
    - unfold remove_year_numbers, where_column in Es.
      rewrite Hct, Hr in Es. discriminate Es.
    - assert (Hsafe : safe_columns (remove_year_numbers df) = safe_columns df).
      { unfold safe_columns. now rewrite Hc1. }
      rewrite <- Es, Hsafe.
      replace (first_unhashable (safe_columns df) (rows (remove_year_numbers df)))
        with (@None string); [ eauto | ].
      symmetry. apply first_unhashable_None. intros c0 r Hc0 Hr.
      apply remove_year_numbers_In in Hr.
      apply (proj1 (first_unhashable_None _ _) Hu); assumption. }
  destruct E2 as [df2 ->]. simpl. apply reconcile_year_season_returns.
Qed.

(** *** When the normaliser raises *)

Lemma first_some_Some {A B : Type} (f : A -> option B) (l : list A) (y : B) :
  first_some f l = Some y -> exists x, In x l /\ f x = Some y.
Proof.
  induction l as [ | a l IH ]; simpl; [ discriminate | ].
  destruct (f a) as [b | ] eqn:E.
  - intros H. inversion H; subst. exists a. auto.
  - intros H. destruct (IH H) as [x [Hx Hf]]. exists x. auto.
Qed.

Lemma first_unhashable_Some (subset : list string) (rs : list row) (t : string) :
  first_unhashable subset rs = Some t ->
  exists c r, In c subset /\ In r rs /\ unhashable_type (cell c r) = Some t.
Proof.
  unfold first_unhashable. intros H.
  apply first_some_Some in H. destruct H as [c [Hc H]].
  apply first_some_Some in H. destruct H as [r [Hr H]].
  exists c, r. auto.
Qed.

Lemma unhashable_type_names (v : pyval) (t : string) :
  unhashable_type v = Some t -> t = "list" \/ t = "dict".
Proof.
  destruct v; simpl; try discriminate; intros H; inversion H; auto.
Qed.

(** The normaliser raises exactly what its second step raises. *)
Lemma clean_dataframe_raise_steps (df : DataFrame) (e : exn) :
  clean_dataframe df = Raise e <->
  remove_duplicates (remove_year_numbers df) = Raise e.
Proof.
  rewrite clean_dataframe_steps.
  destruct (remove_duplicates (remove_year_numbers df)) as [df2 | e2]; simpl.
  - destruct (reconcile_year_season_returns df2) as [df' ->].
    split; discriminate.
  - reflexivity.
Qed.

Lemma remove_duplicates_raises (df : DataFrame) (e : exn) :
  remove_duplicates df = Raise e ->
  exists t,
    e = Error TypeError ("unhashable type: '" ++ t ++ "'") /\
    first_unhashable (safe_columns df) (rows df) = Some t.
Proof.
  unfold remove_duplicates, drop_duplicates.
  destruct (safe_columns df) as [ | c cs ]; [ discriminate | ].
  destruct (first_unhashable (c :: cs) (rows df)) as [t | ]; [ | discriminate ].
  intros H. inversion H. exists t. split; reflexivity.
Qed.

(** The normaliser raises exactly when a row that its first step keeps
    holds a list or a dict outside the constructor-list column. *)
Lemma clean_dataframe_raises_when (df : DataFrame) :
  (exists e, clean_dataframe df = Raise e) <->
  (exists c r,
      In c (columns df) /\ c <> "ConstructorTable" /\ In r (rows df) /\
      (has_column "ConstructorTable" df = true -> keeps_cell r = true) /\
      unhashable_type (cell c r) <> None).
Proof.
  assert (Hkept : forall r,
             In r (rows (remove_year_numbers df)) <->
             In r (rows df) /\
             (has_column "ConstructorTable" df = true -> keeps_cell r = true)).
  { intros r. rewrite remove_year_numbers_rows.
    destruct (has_column "ConstructorTable" df).
    - rewrite filter_In. tauto.
    - split; [ intros H; split; [ assumption | discriminate ] | tauto ]. }
  assert (Hcols : forall r, In r (rows df) ->
                            columns (remove_year_numbers df) = columns df).
  { intros r Hr. apply remove_year_numbers_columns. left.
    intros E. now rewrite E in Hr. }
  split.
  - intros [e He]. apply clean_dataframe_raise_steps in He.
    apply remove_duplicates_raises in He. destruct He as [t [_ Hu]].
    apply first_unhashable_Some in Hu. destruct Hu as [c [r [Hc [Hr Ht]]]].
    apply Hkept in Hr. destruct Hr as [Hr Hk].
    apply safe_columns_In in Hc. rewrite (Hcols r Hr) in Hc.
    exists c, r. repeat split; try tauto. congruence.
  - intros [c [r [Hc [Hne [Hr [Hk Ht]]]]]].
    assert (Hu : first_unhashable (safe_columns (remove_year_numbers df))
                   (rows (remove_year_numbers df)) <> None).
    { intros Hn. apply Ht.
      apply (proj1 (first_unhashable_None _ _) Hn).
      - apply safe_columns_In. rewrite (Hcols r Hr). auto.
      - apply Hkept. auto. }
    assert (Hs : In c (safe_columns (remove_year_numbers df))).
    { apply safe_columns_In. rewrite (Hcols r Hr). auto. }
    destruct (remove_duplicates (remove_year_numbers df)) as [df2 | e] eqn:E2.
    + exfalso. apply remove_duplicates_ok in E2.
      destruct E2 as [_ [[He _] | [_ [Hn _]]]];
        [ rewrite He in Hs; contradiction | contradiction ].
    + exists e. now apply clean_dataframe_raise_steps.
Qed.


(** X7.  The normaliser raises exactly when a row that its first step
    keeps holds a list or a dict in a column other than the
    constructor-list column; what it raises is then the [TypeError] of
    hashing that cell, and nothing else is ever raised. *)
Theorem clean_dataframe_raises (df : DataFrame) :
  ((exists e, clean_dataframe df = Raise e) <->
   (exists c r,
       In c (columns df) /\ c <> "ConstructorTable" /\ In r (rows df) /\
       (has_column "ConstructorTable" df = true -> keeps_cell r = true) /\
       unhashable_type (cell c r) <> None)) /\
  (forall e, clean_dataframe df = Raise e ->
     e = Error TypeError "unhashable type: 'list'" \/
     e = Error TypeError "unhashable type: 'dict'").
Proof.
  split; [ apply clean_dataframe_raises_when | ].
  intros e He. apply clean_dataframe_raise_steps in He.
  apply remove_duplicates_raises in He. destruct He as [t [-> Hu]].
  apply first_unhashable_Some in Hu. destruct Hu as [c [r [_ [_ Ht]]]].
  apply unhashable_type_names in Ht. destruct Ht as [-> | ->]; auto.
Qed.

(** *** What the result of the normaliser satisfies *)

(** X5.  In a table the normaliser returns, no constructor-list cell is
    a number or text made of digits, no two rows at different positions
    agree on every column other than the constructor-list column, and
    "year" and "season" are not both columns. *)
Theorem clean_dataframe_result (df df' : DataFrame) :
  clean_dataframe df = Ok df' ->
  (has_column "ConstructorTable" df' = true ->
   forall r, In r (rows df') ->
     is_year_number (cell "ConstructorTable" r) = false) /\
  (safe_columns df' <> [] ->
   forall i j ri rj,
     nth_error (rows df') i = Some ri -> nth_error (rows df') j = Some rj ->
     i <> j ->
     row_key (safe_columns df') ri <> row_key (safe_columns df') rj) /\
  (has_column "year" df' = false \/ has_column "season" df' = false).
Proof.
  intros H. apply clean_dataframe_normalised in H.
  destruct H as [Hcells [Hkeys Hys]]. split; [ | split ].
  - intros Hct r Hr. apply negb_true_iff. now apply Hcells.
  - intros Hsafe i j ri rj Hi Hj Hij Hk.
    destruct Hkeys as [He | [_ Hnd]]; [ contradiction | ].
    apply Hij. apply (proj1 (NoDup_nth_error _) Hnd).
    + apply nth_error_Some. rewrite nth_error_map, Hi. discriminate.
    + rewrite !nth_error_map, Hi, Hj. simpl. now rewrite Hk.
  - now apply andb_false_iff.
Qed.

(** *** The rows the normaliser keeps *)

Lemma Subsequence_same {A : Type} (l : list A) : Subsequence l l.
Proof. induction l; constructor; assumption. Qed.

Lemma Subsequence_none {A : Type} (l : list A) : Subsequence [] l.
Proof. induction l; constructor; assumption. Qed.

Lemma Subsequence_chain {A : Type} (l2 l3 : list A) :
  Subsequence l2 l3 -> forall l1, Subsequence l1 l2 -> Subsequence l1 l3.
Proof.
  induction 1 as [ | x l2 l3 _ IH | x l2 l3 _ IH ]; intros l1 H12.
  - assumption.
  - inversion H12; subst.
    + apply Subsequence_keep. now apply IH.
    + apply Subsequence_skip. now apply IH.
  - apply Subsequence_skip. now apply IH.
Qed.

Lemma Subsequence_selected {A : Type} (p : A -> bool) (l : list A) :
  Subsequence (filter p l) l.
Proof.
  induction l as [ | a l IH ]; simpl; [ constructor | ].
  destruct (p a); constructor; assumption.
Qed.

Lemma Subsequence_image {A B : Type} (f : A -> B) (l1 l2 : list A) :
  Subsequence l1 l2 -> Subsequence (map f l1) (map f l2).
Proof. induction 1; simpl; constructor; assumption. Qed.

Lemma keep_first_Subsequence (subset : list string) (rs : list row) :
  forall seen, Subsequence (keep_first subset seen rs) rs.
Proof.
  induction rs as [ | a rs IH ]; simpl; intros seen; [ constructor | ].
  destruct (in_dec key_eq_dec (row_key subset a) seen); constructor; apply IH.
Qed.

(** X6.  The rows of the table the normaliser returns are rows of the
    input, in the order of the input and under their labels, with their
    cells as they were; only the "season" cell is taken away when the
    input has both a "year" and a "season" column. *)
Theorem clean_dataframe_keeps_order (df df' : DataFrame) :
  clean_dataframe df = Ok df' ->
  Subsequence (rows df')
    (map (fun r => if has_column "year" df && has_column "season" df
                   then drop_cell "season" r else r)
         (rows df)).
Proof.
  destruct (remove_year_numbers_cases df) as [[Hr Hct] | Hc1].
  - rewrite (clean_dataframe_no_rows df Hr Hct). intros H.
    inversion H; subst df'. apply Subsequence_none.
  - rewrite clean_dataframe_steps.
    destruct (remove_duplicates (remove_year_numbers df)) as [df2 | e] eqn:E2;
      [ simpl | discriminate ].
    apply remove_duplicates_ok in E2. destruct E2 as [Hc2 Hrows].
    assert (H1 : Subsequence (rows (remove_year_numbers df)) (rows df)).
    { rewrite remove_year_numbers_rows.
      destruct (has_column "ConstructorTable" df);
        [ apply Subsequence_selected | apply Subsequence_same ]. }
    assert (H2 : Subsequence (rows df2) (rows df)).
    { apply (Subsequence_chain _ _ H1).
      destruct Hrows as [[_ Hk] | [_ [_ Hk]]]; rewrite Hk;
        [ apply Subsequence_same | apply keep_first_Subsequence ]. }
    assert (Hcols : columns df2 = columns df) by now rewrite Hc2.
    unfold reconcile_year_season, drop_column, has_column.
    cbn [columns filter_rows]. rewrite Hcols.
    fold (has_column "year" df). fold (has_column "season" df).
    destruct (has_column "year" df && has_column "season" df) eqn:E.
    + apply andb_true_iff in E. destruct E as [_ Hs]. rewrite Hs.
      intros H. inversion H; subst df'; clear H. cbn [rows].
      apply Subsequence_image.
      apply (Subsequence_chain _ _ H2). apply Subsequence_selected.
    + intros H. inversion H; subst df'. now rewrite map_id.
Qed.

(* ===================================================================== *)
(** ** Properties of the constructor field expander *)
(* ===================================================================== *)

Lemma dict_get_set_same (k : string) (v : pyval) (d : pydict) :
  dict_get k (dict_set k v d) = Some v.
Proof.
  induction d as [ | [k' v'] d IH ]; simpl.
  - now rewrite String.eqb_refl.
  - destruct (String.eqb k' k) eqn:E; simpl; rewrite ?E; auto.
    now rewrite String.eqb_refl.
Qed.

Lemma remove_after_set (k : string) (v : pyval) (d : pydict) :
  filter (fun kv => negb (String.eqb (fst kv) k)) (dict_set k v d) =
  filter (fun kv => negb (String.eqb (fst kv) k)) d.
Proof.
  induction d as [ | [k' v'] d IH ]; simpl.
  - now rewrite String.eqb_refl.
  - destruct (String.eqb k' k) eqn:E; simpl; rewrite ?E, ?String.eqb_refl; simpl.
    + reflexivity.
    + now rewrite IH.
Qed.

Lemma strip_row_set (r : row) (v w : pyval) :
  drop_cell "constructor_data"
    (drop_cell "ConstructorTable"
       (mkRow (label r)
          (dict_set "constructor_data" v
             (dict_set "ConstructorTable" w (cells r)))))
  = strip_row r.
Proof.
  unfold strip_row, drop_cell. simpl. f_equal.
  rewrite filter_comm, remove_after_set.
  rewrite filter_comm, remove_after_set. reflexivity.
Qed.

Lemma set_cells_length (c : string) (vals : list pyval) (rs : list row) :
  length vals = length rs -> length (set_cells c vals rs) = length rs.
Proof.
  revert vals. induction rs as [ | r rs IH ]; intros [ | v vals ] H;
    simpl in *; try discriminate; auto.
Qed.

Lemma strip_set_cells (rs : list row) :
  forall v1 v2 : list pyval,
    length v1 = length rs -> length v2 = length rs ->
    map (fun r => drop_cell "constructor_data" (drop_cell "ConstructorTable" r))
      (set_cells "constructor_data" v2 (set_cells "ConstructorTable" v1 rs))
    = map strip_row rs.
Proof.
  induction rs as [ | r rs IH ]; intros [ | a v1 ] [ | b v2 ] H1 H2;
    simpl in *; try discriminate; try reflexivity.
  rewrite IH by lia. f_equal. apply (strip_row_set r b a).
Qed.

Lemma selected_set_cells (rs : list row) :
  forall v2 : list pyval,
    length v2 = length rs ->
    map (cell "constructor_data")
      (map (drop_cell "ConstructorTable") (set_cells "constructor_data" v2 rs))
    = v2.
Proof.
  induction rs as [ | r rs IH ]; intros [ | b v2 ] H;
    simpl in *; try discriminate; try reflexivity.
  rewrite IH by lia. f_equal.
  rewrite cell_drop_cell by discriminate.
  unfold cell. simpl. now rewrite dict_get_set_same.
Qed.

Lemma map_result_length {A B : Type} (f : A -> result B) (l : list A) :
  forall l', map_result f l = Ok l' -> length l' = length l.
Proof.
  induction l as [ | a l IH ]; simpl; intros l' H.
  - now inversion H.
  - destruct (f a); simpl in H; [ | discriminate ].
    destruct (map_result f l); simpl in H; [ | discriminate ].
    inversion H; subst. simpl. f_equal. now apply IH.
Qed.

Lemma normalise_selected (lists : list (list pyval)) :
  map_result normalise_entry (map select_constructor lists)
  = Ok (map flat_selected lists).
Proof.
  induction lists as [ | x lists IH ]; simpl; [ reflexivity | ].
  rewrite IH. unfold flat_selected.
  destruct (select_constructor_is_dict x) as [d ->]. reflexivity.
Qed.

Lemma strip_columns_added (cols : list string) :
  strip_columns (cols ++ ["constructor_data"]) = strip_columns cols.
Proof.
  unfold strip_columns. rewrite !filter_app. simpl. apply app_nil_r.
Qed.

Lemma set_column_columns (c : string) (vals : list pyval) (df : DataFrame) :
  columns (set_column c vals df) =
  if has_column c df then columns df else columns df ++ [c].
Proof. reflexivity. Qed.

Lemma set_column_rows (c : string) (vals : list pyval) (df : DataFrame) :
  rows (set_column c vals df) = set_cells c vals (rows df).
Proof. reflexivity. Qed.

Lemma In_set_column (c : string) (vals : list pyval) (df : DataFrame) :
  In c (columns (set_column c vals df)).
Proof.
  rewrite set_column_columns. destruct (has_column c df) eqn:E.
  - now apply has_column_In.
  - apply in_or_app. right. now left.
Qed.

Lemma In_set_column_other (c c' : string) (vals : list pyval) (df : DataFrame) :
  In c' (columns df) -> In c' (columns (set_column c vals df)).
Proof.
  intros H. rewrite set_column_columns.
  destruct (has_column c df); [ | apply in_or_app ]; auto.
Qed.

Section ExpanderProperties.
Context {lib : Parsers}.

(** The expander on a table whose cells all resolve: the first row
    decides whether the selected mappings are flattened and merged. *)
Lemma normalize_constructor_data_resolved (df : DataFrame)
  (lists : list (list pyval)) :
  has_column "ConstructorTable" df = true ->
  resolves df lists ->
  normalize_constructor_data df =
  Ok (match map select_constructor lists with
      | first :: _ =>
          if truthy first then
            match concat_axis1 (stripped df)
                    (frame_of_records (map flat_selected lists)) with
            | Ok out => out
            | Raise _ => stripped df
            end
          else stripped df
      | [] => stripped df
      end).
Proof.
  intros Hct Hres. unfold resolves in Hres.
  unfold normalize_constructor_data, column. rewrite Hct. simpl.
  rewrite Hres.
  assert (Hlen : length lists = length (rows df)).
  { apply map_result_length in Hres. now rewrite length_map in Hres. }
  set (sel := map select_constructor lists).
  set (dfa := set_column "ConstructorTable" (map PList lists) df).
  set (dfb := set_column "constructor_data" sel dfa).
  assert (Hla : length (rows dfa) = length (rows df)).
  { unfold dfa. rewrite set_column_rows.
    apply set_cells_length. now rewrite length_map. }
  assert (Hlsel : length sel = length (rows dfa)).
  { unfold sel. rewrite length_map. lia. }
  assert (Hcola : columns dfa = columns df).
  { unfold dfa. rewrite set_column_columns. now rewrite Hct. }
  assert (Hctb : has_column "ConstructorTable" dfb = true).
  { apply has_column_In. unfold dfb. apply In_set_column_other.
    rewrite Hcola. now apply has_column_In. }
  unfold drop_column at 1. rewrite Hctb.
  set (dfc := mkFrame
                (filter (fun n => negb (String.eqb n "ConstructorTable")) (columns dfb))
                (map (drop_cell "ConstructorTable") (rows dfb))).
  assert (Hcdc : has_column "constructor_data" dfc = true).
  { apply has_column_In. unfold dfc. cbn [columns]. apply In_remove_name.
    split; [ apply In_set_column | discriminate ]. }
  assert (Hselc : map (cell "constructor_data") (rows dfc) = sel).
  { unfold dfc, dfb. cbn [rows]. rewrite set_column_rows.
    now apply selected_set_cells. }
  assert (Hstrip : drop_column "constructor_data" dfc = Ok (stripped df)).
  { unfold drop_column. rewrite Hcdc. f_equal. unfold stripped, dfc.
    cbn [columns rows]. f_equal.
    - unfold dfb. rewrite set_column_columns, Hcola.
      destruct (has_column "constructor_data" dfa);
        [ reflexivity | apply strip_columns_added ].
    - rewrite map_map. unfold dfb, dfa. rewrite !set_column_rows.
      apply strip_set_cells; [ now rewrite length_map | ].
      unfold dfa in Hlsel. rewrite set_column_rows in Hlsel.
      rewrite Hlsel. apply set_cells_length. now rewrite length_map. }
  assert (Hempty : df_empty dfc = match rows df with [] => true | _ => false end).
  { unfold df_empty.
    assert (Hc : columns dfc <> []).
    { apply has_column_In in Hcdc. intros E. now rewrite E in Hcdc. }
    assert (Hr : length (rows dfc) = length (rows df)).
    { unfold dfc. cbn [rows]. rewrite length_map. unfold dfb.
      rewrite set_column_rows, set_cells_length; lia. }
    destruct (rows dfc), (rows df), (columns dfc); simpl in Hr;
      try discriminate; try reflexivity; congruence. }
  rewrite Hempty, Hcdc, Hselc.
  unfold expand_constructor_data, column. rewrite Hcdc, Hselc, Hstrip.
  assert (Hnorm : map_result normalise_entry sel = Ok (map flat_selected lists))
    by apply normalise_selected.
  cbn [bind]. unfold json_normalize. rewrite Hnorm. cbn [bind].
  destruct (rows df) as [ | r0 rs ] eqn:Erows.
  - destruct lists; [ reflexivity | discriminate ].
  - destruct lists as [ | x lists' ]; [ discriminate | ].
    subst sel. cbn [map negb iloc0 bind try_except].
    destruct (truthy (select_constructor x)); cbn [try_except]; [ | reflexivity ].
    destruct (concat_axis1 _ _); reflexivity.
Qed.

(** X1.  The expander returns a table and raises nothing, whatever the
    table and its cells hold and whatever the parsers do. *)
Theorem normalize_constructor_data_returns (df : DataFrame) :
  exists out, normalize_constructor_data df = Ok out.
Proof.
  destruct (has_column "ConstructorTable" df) eqn:Hct.
  - destruct (map_result validate_constructor_data
                (map (cell "ConstructorTable") (rows df))) as [lists | e] eqn:E.
    + rewrite (normalize_constructor_data_resolved df lists Hct E). eauto.
    + unfold normalize_constructor_data, column. rewrite Hct. simpl.
      rewrite E. eauto.
  - unfold normalize_constructor_data. rewrite Hct. simpl. eauto.
Qed.

End ExpanderProperties.

(** *** The merge on a positionally indexed table *)

Lemma labels_number_rows (cols : list string) (recs : list pydict) :
  forall i, map label (number_rows i cols recs) = range_from i (length recs).
Proof.
  induction recs as [ | d recs IH ]; intros i; simpl; [ reflexivity | ].
  now rewrite IH.
Qed.

Lemma labels_stripped (df : DataFrame) : labels (stripped df) = labels df.
Proof.
  unfold labels, stripped. simpl. rewrite map_map. reflexivity.
Qed.

Lemma concat_axis1_default (df : DataFrame) (lists : list (list pyval)) :
  default_index df -> length lists = length (rows df) ->
  concat_axis1 (stripped df) (frame_of_records (map flat_selected lists))
  = Ok (merged df lists).
Proof.
  intros Hidx Hlen. unfold concat_axis1.
  destruct (labels_eq_dec _ _) as [_ | Hne]; [ reflexivity | ].
  exfalso. apply Hne. rewrite labels_stripped, Hidx.
  unfold labels, frame_of_records. simpl.
  rewrite labels_number_rows, length_map. now rewrite Hlen.
Qed.

Lemma number_rows_length (cols : list string) (recs : list pydict) :
  forall i, length (number_rows i cols recs) = length recs.
Proof.
  induction recs as [ | d recs IH ]; intros i; simpl; auto.
Qed.

Lemma zip_rows_length (a b : list row) :
  length a = length b -> length (zip_rows a b) = length a.
Proof.
  revert b. induction a as [ | x a IH ]; intros [ | y b ] H; simpl in *;
    try discriminate; auto.
Qed.

Lemma nth_error_zip_rows (a b : list row) :
  forall i ra rb,
    nth_error a i = Some ra -> nth_error b i = Some rb ->
    nth_error (zip_rows a b) i = Some (mkRow (label ra) (cells ra ++ cells rb)).
Proof.
  revert b. induction a as [ | x a IH ]; intros b [ | i ] ra rb Ha Hb;
    destruct b as [ | y b ]; simpl in *; try discriminate.
  - now inversion Ha; inversion Hb; subst.
  - now apply IH.
Qed.

Lemma nth_error_number_rows (cols : list string) (recs : list pydict) :
  forall k i d,
    nth_error recs i = Some d ->
    nth_error (number_rows k cols recs) i
    = Some (mkRow (k + Z.of_nat i) (record_cells cols d)).
Proof.
  induction recs as [ | x recs IH ]; intros k [ | i ] d H; simpl in *;
    try discriminate.
  - inversion H; subst. now rewrite Z.add_0_r.
  - rewrite (IH (k + 1) i d H). do 2 f_equal. lia.
Qed.

(** Row [i] of the merged table: the row of the input without the two
    helper columns, then one cell per new column, read from the
    flattened selected mapping of that row. *)
Lemma merged_row (df : DataFrame) (lists : list (list pyval))
  (i : nat) (r : row) (x : list pyval) :
  nth_error (rows df) i = Some r ->
  nth_error lists i = Some x ->
  nth_error (rows (merged df lists)) i =
  Some (mkRow (label r)
          (cells (strip_row r) ++
           record_cells (record_columns (map flat_selected lists))
             (flat_selected x))).
Proof.
  intros Hr Hx. unfold merged. cbn [rows].
  apply (nth_error_zip_rows _ _ i (strip_row r)
           (mkRow (0 + Z.of_nat i)
              (record_cells (record_columns (map flat_selected lists))
                 (flat_selected x)))).
  - now rewrite nth_error_map, Hr.
  - apply nth_error_number_rows. now rewrite nth_error_map, Hx.
Qed.

Lemma add_keys_keeps (ks : list string) :
  forall acc k, In k acc -> In k (add_keys ks acc).
Proof.
  induction ks as [ | a ks IH ]; simpl; intros acc k H; [ assumption | ].
  apply IH. destruct (existsb _ acc); [ | apply in_or_app ]; auto.
Qed.

Lemma add_keys_adds (ks : list string) :
  forall acc k, In k ks -> In k (add_keys ks acc).
Proof.
  induction ks as [ | a ks IH ]; simpl; intros acc k H; [ contradiction | ].
  destruct H as [-> | H]; [ | now apply IH ].
  apply add_keys_keeps.
  destruct (existsb (String.eqb k) acc) eqn:E.
  - apply existsb_exists in E. destruct E as [y [Hy Hk]].
    apply String.eqb_eq in Hk. now subst.
  - apply in_or_app. right. now left.
Qed.

Lemma add_keys_source (ks : list string) :
  forall acc k, In k (add_keys ks acc) -> In k acc \/ In k ks.
Proof.
  induction ks as [ | a ks IH ]; simpl; intros acc k H; [ now left | ].
  apply IH in H. destruct H as [H | H]; [ | now right; right ].
  destruct (existsb _ acc); [ now left | ].
  apply in_app_or in H. destruct H as [H | [<- | []]]; auto.
Qed.

Lemma record_columns_spec (recs : list pydict) (k : string) :
  In k (record_columns recs) <-> exists d, In d recs /\ In k (map fst d).
Proof.
  unfold record_columns.
  assert (G : forall acc,
             In k (fold_left (fun acc d => add_keys (map fst d) acc) recs acc)
             <-> In k acc \/ exists d, In d recs /\ In k (map fst d)).
  { induction recs as [ | d recs IH ]; intros acc; simpl.
    - split; [ now left | ]. intros [H | [d [[] _]]]. assumption.
    - rewrite IH. split.
      + intros [H | [d' [Hd Hk]]].
        * apply add_keys_source in H. destruct H; [ now left | right ].
          exists d. auto.
        * right. exists d'. auto.
      + intros [H | [d' [[<- | Hd] Hk]]].
        * left. now apply add_keys_keeps.
        * left. now apply add_keys_adds.
        * right. exists d'. auto. }
  rewrite G. split; [ intros [[] | H]; exact H | now right ].
Qed.

Lemma dict_get_record_cells (cols : list string) (d : pydict) (c : string) :
  In c cols ->
  dict_get c (record_cells cols d)
  = Some (match dict_get c d with Some v => v | None => NaN end).
Proof.
  unfold record_cells. induction cols as [ | a cols IH ]; simpl;
    intros H; [ contradiction | ].
  destruct (String.eqb a c) eqn:E.
  - apply String.eqb_eq in E. now subst.
  - destruct H as [-> | H]; [ now rewrite String.eqb_refl in E | auto ].
Qed.

Lemma In_record_cells (cols : list string) (d : pydict) (c : string) (v : pyval) :
  In (c, v) (record_cells cols d) ->
  In c cols /\ v = match dict_get c d with Some v => v | None => NaN end.
Proof.
  unfold record_cells. intros H. apply in_map_iff in H.
  destruct H as [c' [Heq Hin]]. inversion Heq; subst. auto.
Qed.

Lemma map_result_nth {A B : Type} (f : A -> result B) (l : list A) :
  forall l' i a,
    map_result f l = Ok l' -> nth_error l i = Some a ->
    exists b, nth_error l' i = Some b /\ f a = Ok b.
Proof.
  induction l as [ | x l IH ]; intros l' i a H Hn.
  - destruct i; discriminate.
  - simpl in H. destruct (f x) as [y | ] eqn:Ef; simpl in H; [ | discriminate ].
    destruct (map_result f l) as [ys | ] eqn:El; simpl in H; [ | discriminate ].
    inversion H; subst. destruct i as [ | i ]; simpl in *.
    + inversion Hn; subst. eauto.
    + eapply IH; eauto.
Qed.

Section ExpanderClaims.
Context {lib : Parsers}.

(** The expander on a positionally indexed table whose cells resolve. *)
Lemma normalize_constructor_data_default_index (df : DataFrame)
  (lists : list (list pyval)) :
  has_column "ConstructorTable" df = true ->
  resolves df lists ->
  default_index df ->
  normalize_constructor_data df =
  Ok (if first_selected_nonempty lists then merged df lists else stripped df).
Proof.
  intros Hct Hres Hidx.
  rewrite (normalize_constructor_data_resolved df lists Hct Hres).
  assert (Hlen : length lists = length (rows df)).
  { apply map_result_length in Hres. now rewrite length_map in Hres. }
  rewrite (concat_axis1_default df lists Hidx Hlen).
  destruct lists as [ | x lists' ]; [ reflexivity | ].
  cbn [map first_selected_nonempty].
  now destruct (truthy (select_constructor x)).
Qed.

(** C1, as amended.  On a positionally indexed table whose cells all
    resolve, the first row decides.  When its selected mapping is not
    empty, every row's selected mapping is flattened and merged into the
    table column-wise: the columns are those of the table without the
    constructor-list column, followed by the keys of the flattened
    mappings, and every row keeps its cells and gets one cell per new
    column from its own flattened mapping.  When the table has no row or
    the first row's selected mapping is empty, the helper column is
    dropped and no column is added. *)
Theorem normalize_constructor_data_first_row (df : DataFrame)
  (lists : list (list pyval)) :
  has_column "ConstructorTable" df = true ->
  resolves df lists ->
  default_index df ->
  exists out,
    normalize_constructor_data df = Ok out /\
    (first_selected_nonempty lists = true ->
     columns out =
       strip_columns (columns df) ++ record_columns (map flat_selected lists) /\
     length (rows out) = length (rows df) /\
     forall i r x,
       nth_error (rows df) i = Some r -> nth_error lists i = Some x ->
       nth_error (rows out) i =
       Some (mkRow (label r)
               (cells (strip_row r) ++
                record_cells (record_columns (map flat_selected lists))
                  (flat_selected x)))) /\
    (first_selected_nonempty lists = false -> out = stripped df).
Proof.
  intros Hct Hres Hidx.
  rewrite (normalize_constructor_data_default_index df lists Hct Hres Hidx).
  assert (Hlen : length lists = length (rows df)).
  { apply map_result_length in Hres. now rewrite length_map in Hres. }
  destruct (first_selected_nonempty lists); eexists;
    (split; [ reflexivity | split; intros E; try discriminate E ]).
  - split; [ reflexivity | split ].
    + unfold merged. cbn [rows].
      rewrite zip_rows_length; rewrite !length_map; [ reflexivity | ].
      now rewrite number_rows_length, length_map.
    + intros i r x Hr Hx. now apply merged_row.
  - reflexivity.
Qed.

(** C2, at the failing input.  When the resolver raises on a cell, the
    expander returns the table as it received it, the constructor-list
    column included. *)
Theorem normalize_constructor_data_keeps_column (df : DataFrame) (e : exn) :
  has_column "ConstructorTable" df = true ->
  map_result validate_constructor_data
    (map (cell "ConstructorTable") (rows df)) = Raise e ->
  normalize_constructor_data df = Ok df.
Proof.
  intros Hct Hres. unfold normalize_constructor_data, column.
  rewrite Hct. simpl. now rewrite Hres.
Qed.

(** C4, as amended.  On a positionally indexed table whose cells all
    resolve and whose first row has a non-empty selected mapping, a row
    whose cell encodes the ferrari and mclaren records of the example
    gets, after its own columns, the new columns read from the ferrari
    record: "points" is among them and holds 90, no new cell holds
    "mclaren" or 50, and every new column is a key of the flattened
    selected mapping of some row. *)
Theorem normalize_constructor_data_example (df : DataFrame)
  (lists : list (list pyval)) (i : nat) (r : row) :
  has_column "ConstructorTable" df = true ->
  resolves df lists ->
  default_index df ->
  first_selected_nonempty lists = true ->
  nth_error (rows df) i = Some r ->
  validate_constructor_data (cell "ConstructorTable" r) = Ok example_list ->
  exists out new_columns,
    normalize_constructor_data df = Ok out /\
    columns out = strip_columns (columns df) ++ new_columns /\
    nth_error (rows out) i =
      Some (mkRow (label r)
              (cells (strip_row r) ++ record_cells new_columns ferrari_record)) /\
    In "points" new_columns /\
    dict_get "points" (record_cells new_columns ferrari_record) = Some (PInt 90) /\
    (forall c v, In (c, v) (record_cells new_columns ferrari_record) ->
                 v <> PStr "mclaren" /\ v <> PInt 50) /\
    (forall c, In c new_columns ->
               exists x, In x lists /\ In c (map fst (flat_selected x))).
Proof.
  intros Hct Hres Hidx Hfirst Hr Hcell.
  exists (merged df lists), (record_columns (map flat_selected lists)).
  assert (Hx : nth_error lists i = Some example_list).
  { destruct (map_result_nth _ _ lists i (cell "ConstructorTable" r) Hres)
      as [b [Hb Hv]].
    - now rewrite nth_error_map, Hr.
    - congruence. }
  assert (Hpoints : In "points" (record_columns (map flat_selected lists))).
  { apply record_columns_spec. exists (flat_selected example_list).
    split; [ | simpl; auto ].
    apply in_map. eapply nth_error_In; eauto. }
  split; [ | split; [ | split; [ | split; [ | split; [ | split ] ] ] ] ].
  - rewrite (normalize_constructor_data_default_index df lists Hct Hres Hidx).
    now rewrite Hfirst.
  - reflexivity.
  - now rewrite (merged_row df lists i r example_list Hr Hx).
  - exact Hpoints.
  - now rewrite dict_get_record_cells.
  - intros c v H. apply In_record_cells in H. destruct H as [_ ->].
    change (dict_get c ferrari_record)
      with (if String.eqb "constructorId" c then Some (PStr "ferrari")
            else if String.eqb "points" c then Some (PInt 90) else None).
    destruct (String.eqb "constructorId" c);
      [ split; discriminate | ].
    destruct (String.eqb "points" c); split; discriminate.
  - intros c H. apply record_columns_spec in H.
    destruct H as [d [Hd Hk]]. apply in_map_iff in Hd.
    destruct Hd as [x [<- Hx']]. eauto.
Qed.

End ExpanderClaims.

(** *** The merge on any index *)

Lemma In_range_from (x : Z) (n : nat) :
  forall i, In x (range_from i n) <-> i <= x < i + Z.of_nat n.
Proof.
  induction n as [ | n IH ]; intros i; simpl range_from.
  - simpl. lia.
  - simpl In. rewrite IH. lia.
Qed.

Lemma has_dup_range_from (n : nat) :
  forall i, has_dup (range_from i n) = false.
Proof.
  induction n as [ | n IH ]; intros i; simpl; [ reflexivity | ].
  rewrite IH. destruct (in_dec Z.eq_dec i (range_from (i + 1) n)) as [H | _];
    [ | reflexivity ].
  apply In_range_from in H. lia.
Qed.

Lemma nth_error_range_from (n : nat) :
  forall i k, (k < n)%nat -> nth_error (range_from i n) k = Some (i + Z.of_nat k).
Proof.
  induction n as [ | n IH ]; intros i [ | k ] H; simpl; try lia.
  - now rewrite Z.add_0_r.
  - rewrite IH by lia. f_equal. lia.
Qed.

Lemma has_dup_NoDup (l : list Z) : has_dup l = false -> NoDup l.
Proof.
  induction l as [ | x l IH ]; simpl; intros H; [ constructor | ].
  apply orb_false_iff in H. destruct H as [Hx Hl].
  destruct (in_dec Z.eq_dec x l); [ discriminate | ].
  constructor; auto.
Qed.

(** In an index without duplicates the row of a label is found by it. *)
Lemma find_by_label (g : row -> row) (rs : list row) (r : row) :
  (forall x, label (g x) = label x) ->
  has_dup (map label rs) = false -> In r rs ->
  find (fun x => Z.eqb (label x) (label r)) (map g rs) = Some (g r).
Proof.
  intros Hg. induction rs as [ | a rs IH ]; simpl; intros Hd Hin;
    [ contradiction | ].
  apply orb_false_iff in Hd. destruct Hd as [Ha Hd].
  destruct (in_dec Z.eq_dec (label a) (map label rs)) as [ | Hna ];
    [ discriminate | ].
  rewrite Hg. destruct Hin as [-> | Hin].
  - now rewrite Z.eqb_refl.
  - destruct (Z.eqb (label a) (label r)) eqn:E; [ | now apply IH ].
    apply Z.eqb_eq in E. elim Hna. rewrite E. now apply in_map.
Qed.

Lemma find_no_label (l : Z) (rs : list row) :
  ~ In l (map label rs) -> find (fun x => Z.eqb (label x) l) rs = None.
Proof.
  induction rs as [ | a rs IH ]; simpl; intros H; [ reflexivity | ].
  destruct (Z.eqb (label a) l) eqn:E.
  - apply Z.eqb_eq in E. elim H. now left.
  - apply IH. intros Hin. apply H. now right.
Qed.

Lemma find_number_rows (cols : list string) (l : Z) (recs : list pydict) :
  forall k,
    find (fun x => Z.eqb (label x) l) (number_rows k cols recs) =
    if l <? k then None
    else match nth_error recs (Z.to_nat (l - k)) with
         | Some d => Some (mkRow l (record_cells cols d))
         | None => None
         end.
Proof.
  induction recs as [ | d recs IH ]; intros k; simpl.
  - destruct (l <? k); [ reflexivity | ].
    now destruct (Z.to_nat (l - k)).
  - destruct (Z.eqb k l) eqn:E.
    + apply Z.eqb_eq in E. subst l.
      rewrite Z.ltb_irrefl, Z.sub_diag. reflexivity.
    + apply Z.eqb_neq in E. rewrite IH.
      destruct (l <? k) eqn:Elt.
      * apply Z.ltb_lt in Elt.
        replace (l <? k + 1) with true by (symmetry; apply Z.ltb_lt; lia).
        reflexivity.
      * apply Z.ltb_ge in Elt.
        replace (l <? k + 1) with false by (symmetry; apply Z.ltb_ge; lia).
        replace (Z.to_nat (l - k)) with (S (Z.to_nat (l - (k + 1)))) by lia.
        reflexivity.
Qed.

Lemma cells_at_stripped (df : DataFrame) (r : row) :
  has_dup (labels df) = false -> In r (rows df) ->
  cells_at (label r) (stripped df) = cells (strip_row r).
Proof.
  intros Hd Hr. unfold cells_at, stripped. cbn [rows].
  now rewrite (find_by_label strip_row (rows df) r).
Qed.

Lemma cells_at_missing (l : Z) (df : DataFrame) :
  ~ In l (labels df) -> cells_at l df = nan_cells (columns df).
Proof.
  intros H. unfold cells_at. now rewrite find_no_label.
Qed.

Lemma cells_at_records (lists : list (list pyval)) (l : Z) :
  cells_at l (frame_of_records (map flat_selected lists))
  = cells_by_label lists l.
Proof.
  unfold cells_at, cells_by_label, frame_of_records. cbn [rows columns].
  rewrite find_number_rows, Z.sub_0_r.
  destruct (l <? 0); [ reflexivity | ].
  now destruct (nth_error (map flat_selected lists) (Z.to_nat l)).
Qed.

Lemma cells_by_label_position (lists : list (list pyval)) (i : nat)
  (x : list pyval) :
  nth_error lists i = Some x ->
  cells_by_label lists (Z.of_nat i)
  = record_cells (record_columns (map flat_selected lists)) (flat_selected x).
Proof.
  intros Hx. unfold cells_by_label.
  replace (Z.of_nat i <? 0) with false by (symmetry; apply Z.ltb_ge; lia).
  now rewrite Nat2Z.id, nth_error_map, Hx.
Qed.

Lemma position_of_label (n : nat) (l : Z) :
  In l (range_from 0 n) -> exists i, (i < n)%nat /\ l = Z.of_nat i.
Proof.
  intros H. apply In_range_from in H. exists (Z.to_nat l). lia.
Qed.

Lemma nth_error_position {A : Type} (l : list A) (i : nat) :
  (i < length l)%nat -> exists x, nth_error l i = Some x.
Proof.
  intros H. destruct (nth_error l i) as [x | ] eqn:E; [ eauto | ].
  apply nth_error_None in E. lia.
Qed.

(** The merge of line 93 by the index of the table: it raises when a
    label occurs twice, and puts the rows together by label otherwise. *)
Lemma concat_axis1_selected (df : DataFrame) (lists : list (list pyval)) :
  length lists = length (rows df) ->
  match concat_axis1 (stripped df) (frame_of_records (map flat_selected lists)) with
  | Raise _ => has_dup (labels df) = true
  | Ok out => has_dup (labels df) = false /\ merged_by_label df lists out
  end.
Proof.
  intros Hlen. unfold concat_axis1.
  assert (Hlb : labels (frame_of_records (map flat_selected lists))
                = range_from 0 (length lists)).
  { unfold labels, frame_of_records. cbn [rows].
    now rewrite labels_number_rows, length_map. }
  rewrite Hlb, labels_stripped.
  destruct (labels_eq_dec (labels df) (range_from 0 (length lists)))
    as [Heq | Hne].
  - split; [ rewrite Heq; apply has_dup_range_from | ].
    change (merged_by_label df lists (merged df lists)).
    assert (Hzip : length (rows (merged df lists)) = length (rows df)).
    { unfold merged. cbn [rows]. rewrite zip_rows_length; rewrite !length_map;
        [ reflexivity | now rewrite number_rows_length, length_map ]. }
    assert (Hat : forall i r,
               nth_error (rows df) i = Some r ->
               nth_error (rows (merged df lists)) i
               = Some (row_of_table lists r)).
    { intros i r Hi.
      assert (Hlt : (i < length lists)%nat).
      { rewrite Hlen. apply nth_error_Some. rewrite Hi. discriminate. }
      destruct (nth_error_position lists i Hlt) as [x Hx].
      assert (Hl : label r = Z.of_nat i).
      { assert (Hn : nth_error (labels df) i = Some (label r)).
        { unfold labels. now rewrite nth_error_map, Hi. }
        rewrite Heq, nth_error_range_from in Hn by assumption.
        inversion Hn. reflexivity. }
      unfold row_of_table. rewrite Hl at 2.
      rewrite (cells_by_label_position lists i x Hx).
      now apply merged_row. }
    split; [ reflexivity | split; [ lia | ] ].
    intros r'. split.
    + intros Hr'. left. apply In_nth_error in Hr'. destruct Hr' as [i Hi].
      assert (Hlt : (i < length (rows df))%nat).
      { rewrite <- Hzip. apply nth_error_Some. rewrite Hi. discriminate. }
      destruct (nth_error_position (rows df) i Hlt) as [r Hr].
      exists r. split; [ now apply nth_error_In with i | ].
      rewrite (Hat i r Hr) in Hi. now inversion Hi.
    + intros [[r [Hr ->]] | [i [x [Hx [Hnin _]]]]].
      * apply In_nth_error in Hr. destruct Hr as [i Hi].
        apply (nth_error_In _ i). now apply Hat.
      * elim Hnin. rewrite Heq. apply In_range_from.
        assert ((i < length lists)%nat)
          by (apply nth_error_Some; rewrite Hx; discriminate).
        lia.
  - rewrite has_dup_range_from, orb_false_r.
    destruct (has_dup (labels df)) eqn:Hd; [ reflexivity | ].
    split; [ reflexivity | ].
    assert (Htable : forall r, In r (rows df) ->
               mkRow (label r)
                 (cells_at (label r) (stripped df) ++
                  cells_at (label r) (frame_of_records (map flat_selected lists)))
               = row_of_table lists r).
    { intros r Hr. now rewrite (cells_at_stripped df r Hd Hr), cells_at_records. }
    assert (Hpos : forall i x,
               nth_error lists i = Some x -> ~ In (Z.of_nat i) (labels df) ->
               mkRow (Z.of_nat i)
                 (cells_at (Z.of_nat i) (stripped df) ++
                  cells_at (Z.of_nat i)
                    (frame_of_records (map flat_selected lists)))
               = row_of_position df lists i x).
    { intros i x Hx Hnin.
      rewrite cells_at_missing by now rewrite labels_stripped.
      now rewrite cells_at_records, (cells_by_label_position lists i x Hx). }
    split; [ reflexivity | split ]; cbn [rows].
    + rewrite length_map, length_app. unfold labels at 1.
      rewrite length_map. lia.
    + intros r'. rewrite in_map_iff. split.
      * intros [l [<- Hl]]. apply in_app_or in Hl. destruct Hl as [Hl | Hl].
        -- left. unfold labels in Hl. apply in_map_iff in Hl.
           destruct Hl as [r [<- Hr]]. exists r. split; [ assumption | ].
           now apply Htable.
        -- right. apply filter_In in Hl. destruct Hl as [Hl Hnin].
           apply position_of_label in Hl. destruct Hl as [i [Hlt ->]].
           destruct (nth_error_position lists i Hlt) as [x Hx].
           assert (Hn : ~ In (Z.of_nat i) (labels df)).
           { destruct (in_dec Z.eq_dec (Z.of_nat i) (labels df));
               [ discriminate | assumption ]. }
           exists i, x. repeat split; auto.
      * intros [[r [Hr ->]] | [i [x [Hx [Hnin ->]]]]].
        -- exists (label r). split; [ now apply Htable | ].
           apply in_or_app. left. unfold labels. now apply in_map.
        -- exists (Z.of_nat i). split; [ now apply Hpos | ].
           apply in_or_app. right. apply filter_In. split.
           ++ apply In_range_from.
              assert ((i < length lists)%nat)
                by (apply nth_error_Some; rewrite Hx; discriminate).
              lia.
           ++ destruct (in_dec Z.eq_dec (Z.of_nat i) (labels df));
                [ contradiction | reflexivity ].
Qed.

Lemma dict_get_app (c : string) (v : pyval) (d1 d2 : pydict) :
  dict_get c d1 = Some v -> dict_get c (d1 ++ d2) = Some v.
Proof.
  induction d1 as [ | [k w] d1 IH ]; simpl; [ discriminate | ].
  destruct (String.eqb k c); auto.
Qed.

Lemma dict_get_strip_row (c : string) (r : row) :
  c <> "ConstructorTable" -> c <> "constructor_data" ->
  dict_get c (cells (strip_row r)) = dict_get c (cells r).
Proof.
  intros H1 H2. unfold strip_row, drop_cell. cbn [cells label].
  now rewrite !dict_get_remove.
Qed.

Lemma In_strip_columns (c : string) (cols : list string) :
  In c cols -> c <> "ConstructorTable" -> c <> "constructor_data" ->
  In c (strip_columns cols).
Proof.
  intros H H1 H2. unfold strip_columns.
  apply In_remove_name. split; [ apply In_remove_name | ]; auto.
Qed.

Lemma keeps_other_data_same (df : DataFrame) : keeps_other_data df df.
Proof.
  split; [ auto | ]. intros r Hr. exists r. auto.
Qed.

Lemma keeps_other_data_stripped (df : DataFrame) :
  keeps_other_data df (stripped df).
Proof.
  split.
  - intros c Hc H1 H2. now apply In_strip_columns.
  - intros r Hr. exists (strip_row r). split; [ | split ].
    + unfold stripped. cbn [rows]. now apply in_map.
    + reflexivity.
    + intros c v H1 H2 Hv. now rewrite dict_get_strip_row.
Qed.

Lemma keeps_other_data_merged (df : DataFrame) (lists : list (list pyval))
  (out : DataFrame) :
  merged_by_label df lists out -> keeps_other_data df out.
Proof.
  intros [Hcols [_ Hrows]]. split.
  - intros c Hc H1 H2. rewrite Hcols. apply in_or_app. left.
    now apply In_strip_columns.
  - intros r Hr. exists (row_of_table lists r). split; [ | split ].
    + apply Hrows. left. eauto.
    + reflexivity.
    + intros c v H1 H2 Hv. cbn [cells row_of_table]. apply dict_get_app.
      now rewrite dict_get_strip_row.
Qed.

(** *** Flattening leaves no mapping *)

Lemma dict_set_flat_values (k : string) (v : pyval) (d : pydict) :
  is_dict v = false -> flat_values d -> flat_values (dict_set k v d).
Proof.
  intros Hv. induction d as [ | [k' v'] d IH ]; simpl; intros Hd k0 v0 Hin.
  - destruct Hin as [Heq | []]. now inversion Heq; subst.
  - destruct (String.eqb k' k).
    + destruct Hin as [Heq | Hin]; [ now inversion Heq; subst | ].
      apply (Hd k0 v0). now right.
    + destruct Hin as [Heq | Hin].
      * apply (Hd k0 v0). now left.
      * apply (IH (fun a b H => Hd a b (or_intror H)) k0 v0 Hin).
Qed.

Lemma normalise_json_flat_values :
  forall (data : pyval) (key_string : string) (acc : pydict),
    flat_values acc -> flat_values (normalise_json data key_string acc).
Proof.
  fix IH 1. intros data key_string acc Hacc.
  destruct data as [ | b | z | f | s | l | kvs ];
    try (simpl; apply dict_set_flat_values; [ reflexivity | assumption ]).
  simpl. revert acc Hacc.
  induction kvs as [ | [k v] kvs IHk ]; intros acc Hacc; [ assumption | ].
  apply IHk. apply IH. assumption.
Qed.

Lemma dict_update_flat_values (d1 d2 : pydict) :
  flat_values d1 -> flat_values d2 -> flat_values (dict_update d1 d2).
Proof.
  unfold dict_update. revert d1.
  induction d2 as [ | [k v] d2 IH ]; simpl; intros d1 H1 H2; [ assumption | ].
  apply IH.
  - apply dict_set_flat_values; [ | assumption ].
    apply (H2 k v). now left.
  - intros a b H. apply (H2 a b). now right.
Qed.

Lemma normalise_json_ordered_flat_values (d : pydict) :
  flat_values (normalise_json_ordered d).
Proof.
  unfold normalise_json_ordered. apply dict_update_flat_values.
  - intros k v H. apply filter_In in H. destruct H as [_ H].
    now apply negb_true_iff in H.
  - apply normalise_json_flat_values. intros k v [].
Qed.

Lemma flat_selected_flat_values (x : list pyval) :
  flat_values (flat_selected x).
Proof.
  unfold flat_selected. destruct (select_constructor x);
    try (intros k v []). apply normalise_json_ordered_flat_values.
Qed.

Lemma dict_get_Some_In (c : string) (v : pyval) (d : pydict) :
  dict_get c d = Some v -> In (c, v) d.
Proof.
  induction d as [ | [k w] d IH ]; simpl; [ discriminate | ].
  destruct (String.eqb k c) eqn:E.
  - apply String.eqb_eq in E. intros H. inversion H; subst. now left.
  - intros H. right. now apply IH.
Qed.

Lemma record_cells_flat_values (cols : list string) (d : pydict) :
  flat_values d -> flat_values (record_cells cols d).
Proof.
  intros Hd k v H. apply In_record_cells in H. destruct H as [_ ->].
  destruct (dict_get k d) as [w | ] eqn:E; [ | reflexivity ].
  apply dict_get_Some_In in E. now apply (Hd k w).
Qed.

Lemma nan_cells_flat_values (cols : list string) : flat_values (nan_cells cols).
Proof.
  intros k v H. unfold nan_cells in H. apply in_map_iff in H.
  destruct H as [c [Heq _]]. now inversion Heq.
Qed.

Lemma cells_by_label_flat_values (lists : list (list pyval)) (l : Z) :
  flat_values (cells_by_label lists l).
Proof.
  unfold cells_by_label.
  destruct (if l <? 0 then None
            else nth_error (map flat_selected lists) (Z.to_nat l))
    as [d | ] eqn:E; [ | apply nan_cells_flat_values ].
  apply record_cells_flat_values.
  destruct (l <? 0); [ discriminate | ].
  apply nth_error_In in E. apply in_map_iff in E.
  destruct E as [x [<- _]]. apply flat_selected_flat_values.
Qed.

Lemma In_strip_row (c : string) (v : pyval) (r : row) :
  In (c, v) (cells (strip_row r)) ->
  In (c, v) (cells r) /\ c <> "ConstructorTable" /\ c <> "constructor_data".
Proof.
  unfold strip_row, drop_cell. cbn [cells label]. intros H.
  apply filter_In in H. destruct H as [H H2].
  apply filter_In in H. destruct H as [H H1].
  apply negb_true_iff, String.eqb_neq in H1.
  apply negb_true_iff, String.eqb_neq in H2. auto.
Qed.

Section ExpanderIndex.
Context {lib : Parsers}.

(** X8.  Whatever the table holds and whatever the parsers do, the
    expander returns a table that has every column of the input other
    than the constructor-list column and its helper column, and, for
    every row of the input, a row under the same label with the same
    cells in those columns. *)
Theorem normalize_constructor_data_keeps_other_data (df : DataFrame) :
  exists out,
    normalize_constructor_data df = Ok out /\ keeps_other_data df out.
Proof.
  destruct (has_column "ConstructorTable" df) eqn:Hct.
  - destruct (map_result validate_constructor_data
                (map (cell "ConstructorTable") (rows df))) as [lists | e] eqn:E.
    + rewrite (normalize_constructor_data_resolved df lists Hct E).
      eexists. split; [ reflexivity | ].
      assert (Hlen : length lists = length (rows df)).
      { apply map_result_length in E. now rewrite length_map in E. }
      pose proof (concat_axis1_selected df lists Hlen) as Hm.
      destruct (map select_constructor lists) as [ | first sel ];
        [ apply keeps_other_data_stripped | ].
      destruct (truthy first); [ | apply keeps_other_data_stripped ].
      destruct (concat_axis1 _ _) as [out | e];
        [ | apply keeps_other_data_stripped ].
      apply (keeps_other_data_merged df lists). tauto.
    + unfold normalize_constructor_data, column. rewrite Hct. simpl.
      rewrite E. eexists. split; [ reflexivity | apply keeps_other_data_same ].
  - unfold normalize_constructor_data. rewrite Hct. simpl.
    eexists. split; [ reflexivity | apply keeps_other_data_same ].
Qed.

Lemma first_selected_nonempty_guard (lists : list (list pyval)) :
  first_selected_nonempty lists = true ->
  exists first sel,
    map select_constructor lists = first :: sel /\ truthy first = true.
Proof.
  destruct lists as [ | x lists ]; simpl; [ discriminate | eauto ].
Qed.

(** X9.  On a table whose cells all resolve, whose first row selects a
    non-empty mapping and whose labels are pairwise distinct, the merge
    goes by label and not by position: the result has the columns of the
    table without the two constructor columns, then the keys of the
    flattened mappings; its rows are the rows of the table, each under
    its label with the flattened mapping that was selected at the
    position its label names (NaN when the label names no position), and
    one more row for every position whose number is no label, NaN in the
    columns of the table; no row is lost. *)
Theorem normalize_constructor_data_by_label (df : DataFrame)
  (lists : list (list pyval)) :
  has_column "ConstructorTable" df = true ->
  resolves df lists ->
  first_selected_nonempty lists = true ->
  has_dup (labels df) = false ->
  exists out,
    normalize_constructor_data df = Ok out /\
    columns out =
      strip_columns (columns df) ++ record_columns (map flat_selected lists) /\
    (length (rows df) <= length (rows out))%nat /\
    (forall r', In r' (rows out) <->
       (exists r, In r (rows df) /\
          r' = mkRow (label r)
                 (cells (strip_row r) ++ cells_by_label lists (label r))) \/
       (exists i x, nth_error lists i = Some x /\
          ~ In (Z.of_nat i) (labels df) /\
          r' = mkRow (Z.of_nat i)
                 (nan_cells (strip_columns (columns df)) ++
                  record_cells (record_columns (map flat_selected lists))
                    (flat_selected x)))).
Proof.
  intros Hct Hres Hfirst Hd.
  rewrite (normalize_constructor_data_resolved df lists Hct Hres).
  assert (Hlen : length lists = length (rows df)).
  { apply map_result_length in Hres. now rewrite length_map in Hres. }
  pose proof (concat_axis1_selected df lists Hlen) as Hm.
  destruct (first_selected_nonempty_guard lists Hfirst) as [first [sel [-> ->]]].
  destruct (concat_axis1 _ _) as [out | e]; [ | congruence ].
  exists out. split; [ reflexivity | ]. apply Hm.
Qed.

(** X10.  On a table whose cells all resolve and whose first row
    selects a non-empty mapping, but in which a label occurs twice, the
    merge raises; the expander then returns the table without the two
    constructor columns and adds no column. *)
Theorem normalize_constructor_data_repeated_label (df : DataFrame)
  (lists : list (list pyval)) :
  has_column "ConstructorTable" df = true ->
  resolves df lists ->
  first_selected_nonempty lists = true ->
  has_dup (labels df) = true ->
  (exists e,
      concat_axis1 (stripped df) (frame_of_records (map flat_selected lists))
      = Raise e) /\
  normalize_constructor_data df = Ok (stripped df).
Proof.
  intros Hct Hres Hfirst Hd.
  rewrite (normalize_constructor_data_resolved df lists Hct Hres).
  assert (Hlen : length lists = length (rows df)).
  { apply map_result_length in Hres. now rewrite length_map in Hres. }
  pose proof (concat_axis1_selected df lists Hlen) as Hm.
  destruct (first_selected_nonempty_guard lists Hfirst) as [first [sel [-> ->]]].
  destruct (concat_axis1 _ _) as [out | e].
  - destruct Hm as [Hm _]. congruence.
  - split; [ eauto | reflexivity ].
Qed.

(** X11.  On a table whose cells all resolve, the expander adds no
    cell that holds a mapping: whatever the depth of nesting in the
    selected mappings, a cell of the result that holds a dict is a cell
    that the input had in its row of the same label, in a column other
    than the two constructor columns. *)
Theorem normalize_constructor_data_flattens (df : DataFrame)
  (lists : list (list pyval)) :
  has_column "ConstructorTable" df = true ->
  resolves df lists ->
  exists out,
    normalize_constructor_data df = Ok out /\
    forall r' c v,
      In r' (rows out) -> In (c, v) (cells r') -> is_dict v = true ->
      exists r, In r (rows df) /\ label r = label r' /\ In (c, v) (cells r) /\
                c <> "ConstructorTable" /\ c <> "constructor_data".
Proof.
  intros Hct Hres.
  rewrite (normalize_constructor_data_resolved df lists Hct Hres).
  eexists. split; [ reflexivity | ].
  assert (Hlen : length lists = length (rows df)).
  { apply map_result_length in Hres. now rewrite length_map in Hres. }
  assert (Hstrip : forall r' c v,
             In r' (rows (stripped df)) -> In (c, v) (cells r') ->
             exists r, In r (rows df) /\ label r = label r' /\
                       In (c, v) (cells r) /\
                       c <> "ConstructorTable" /\ c <> "constructor_data").
  { intros r' c v Hr' Hc. unfold stripped in Hr'. cbn [rows] in Hr'.
    apply in_map_iff in Hr'. destruct Hr' as [r [<- Hr]].
    exists r. split; [ assumption | split; [ reflexivity | ] ].
    now apply In_strip_row. }
  pose proof (concat_axis1_selected df lists Hlen) as Hm.
  destruct (map select_constructor lists) as [ | first sel ]; [ eauto | ].
  destruct (truthy first); [ | eauto ].
  destruct (concat_axis1 _ _) as [out | e]; [ | eauto ].
  destruct Hm as [_ [_ [_ Hrows]]].
  intros r' c v Hr' Hc Hv. apply Hrows in Hr'.
  destruct Hr' as [[r [Hr ->]] | [i [x [Hx [_ ->]]]]];
    cbn [cells row_of_table row_of_position] in Hc;
    apply in_app_or in Hc; destruct Hc as [Hc | Hc].
  - exists r. split; [ assumption | split; [ reflexivity | ] ].
    now apply In_strip_row.
  - rewrite (cells_by_label_flat_values lists (label r) c v Hc) in Hv.
    discriminate Hv.
  - rewrite (nan_cells_flat_values _ c v Hc) in Hv. discriminate Hv.
  - rewrite (record_cells_flat_values _ _ (flat_selected_flat_values x) c v Hc)
      in Hv.
    discriminate Hv.
Qed.

End ExpanderIndex.

(** *** The claims on the sample tables *)



(** Two records whose constructor-list cells are a number and [None]:
    in the table built from them the column is a column of floats, so
    the normaliser removes both rows. *)
Example clean_dataframe_stray_records :
  clean_dataframe (convert_object_array (frame_of_records stray_records))
  = Ok (mkFrame ["year"; "ConstructorTable"] []).
Proof. reflexivity. Qed.

Lemma clean_dataframe_shrinks_witness :
  (length (rows results_table_clean) <= length (rows results_table))%nat /\
  (forall c, In c (columns results_table_clean) ->
             In c (columns results_table)).
Proof.
  exact (clean_dataframe_shrinks results_table results_table_clean eq_refl).
Defined.

Lemma clean_dataframe_twice_same_witness :
  clean_dataframe results_table_clean = Ok results_table_clean.
Proof.
  apply (clean_dataframe_twice_same results_table results_table_clean).
  - reflexivity.
  - left. discriminate.
Defined.

Example clean_dataframe_twice :
  clean_dataframe results_table = Ok results_table_clean /\
  clean_dataframe results_table_clean = Ok results_table_clean.
Proof. split; reflexivity. Qed.

Lemma clean_dataframe_not_idempotent_witness :
  bind (clean_dataframe stray_year) clean_dataframe = Ok (mkFrame [] []) /\
  bind (clean_dataframe stray_year) clean_dataframe
    <> clean_dataframe stray_year.
Proof.
  exact (clean_dataframe_not_idempotent stray_year
           (mkFrame ["year"; "ConstructorTable"] [])
           eq_refl eq_refl eq_refl).
Defined.

(** The only row holds a stray year: the normaliser removes it and
    keeps the columns; applied again, it returns no column at all. *)
Example clean_dataframe_stray_year :
  clean_dataframe stray_year = Ok (mkFrame ["year"; "ConstructorTable"] []) /\
  clean_dataframe (mkFrame ["year"; "ConstructorTable"] [])
    = Ok (mkFrame [] []).
Proof. split; reflexivity. Qed.

Lemma normalize_constructor_data_first_row_witness :
  exists out,
    @normalize_constructor_data sample_parsers one_season = Ok out /\
    (first_selected_nonempty [example_list] = true ->
     columns out =
       strip_columns (columns one_season) ++
       record_columns (map flat_selected [example_list]) /\
     length (rows out) = length (rows one_season) /\
     forall i r x,
       nth_error (rows one_season) i = Some r ->
       nth_error [example_list] i = Some x ->
       nth_error (rows out) i =
       Some (mkRow (label r)
               (cells (strip_row r) ++
                record_cells (record_columns (map flat_selected [example_list]))
                  (flat_selected x)))) /\
    (first_selected_nonempty [example_list] = false ->
     out = stripped one_season).
Proof.
  exact (@normalize_constructor_data_first_row sample_parsers one_season
           [example_list] eq_refl eq_refl eq_refl).
Defined.

(** The expanded table of the worked example. *)
Example normalize_constructor_data_one_season :
  @normalize_constructor_data sample_parsers one_season =
  Ok (mkFrame ["year"; "constructorId"; "points"]
        [mkRow 0 [("year", PInt 2021); ("constructorId", PStr "ferrari");
                  ("points", PInt 90)]]).
Proof. reflexivity. Qed.

(** C1, as stated, fails on [two_seasons]: the second row's selected
    mapping is not empty, yet nothing is flattened or merged. *)
Lemma normalize_constructor_data_later_rows_ignored :
  @resolves sample_parsers two_seasons [[]; example_list] /\
  (exists x, In x [[]; example_list] /\ select_constructor x <> PDict []) /\
  @normalize_constructor_data sample_parsers two_seasons
    = Ok (mkFrame ["year"]
            [mkRow 0 [("year", PInt 2021)]; mkRow 1 [("year", PInt 2021)]]) /\
  @normalize_constructor_data sample_parsers two_seasons
    <> Ok (merged two_seasons [[]; example_list]).
Proof.
  split; [ reflexivity | split; [ | split; [ reflexivity | ] ] ].
  - exists example_list. split; [ simpl; auto | discriminate ].
  - discriminate.
Qed.

Lemma normalize_constructor_data_keeps_column_witness :
  has_column "ConstructorTable" broken_season = true /\
  @normalize_constructor_data sample_parsers broken_season = Ok broken_season.
Proof.
  split; [ reflexivity | ].
  exact (@normalize_constructor_data_keeps_column sample_parsers broken_season
           (Error TypeError "unhashable type: 'list'") eq_refl eq_refl).
Defined.

Lemma normalize_constructor_data_example_witness :
  exists out new_columns,
    @normalize_constructor_data sample_parsers one_season = Ok out /\
    columns out = strip_columns (columns one_season) ++ new_columns /\
    nth_error (rows out) 0 =
      Some (mkRow 0
              (cells (strip_row (season_row 0 (PStr example_text))) ++
               record_cells new_columns ferrari_record)) /\
    In "points" new_columns /\
    dict_get "points" (record_cells new_columns ferrari_record) = Some (PInt 90) /\
    (forall c v, In (c, v) (record_cells new_columns ferrari_record) ->
                 v <> PStr "mclaren" /\ v <> PInt 50) /\
    (forall c, In c new_columns ->
               exists x, In x [example_list] /\ In c (map fst (flat_selected x))).
Proof.
  exact (@normalize_constructor_data_example sample_parsers one_season
           [example_list] 0%nat (season_row 0 (PStr example_text))
           eq_refl eq_refl eq_refl eq_refl eq_refl eq_refl).
Defined.

(** C4, as stated, fails on [two_seasons]: the cell of the second row
    encodes the two records, yet the result has no "points" column. *)
Lemma normalize_constructor_data_no_points :
  nth_error (rows two_seasons) 1 = Some (season_row 1 (PList example_list)) /\
  @validate_constructor_data sample_parsers
    (cell "ConstructorTable" (season_row 1 (PList example_list)))
    = Ok example_list /\
  exists out,
    @normalize_constructor_data sample_parsers two_seasons = Ok out /\
    ~ In "points" (columns out).
Proof.
  split; [ reflexivity | split; [ reflexivity | ] ].
  eexists. split; [ reflexivity | ].
  simpl. intros [H | []]. discriminate H.
Qed.

(** After the normaliser has removed an earlier row, the labels of the
    table no longer start at 0, and the merge aligns on labels: the one
    row left comes out as two rows, neither of them complete. *)
Example normalize_constructor_data_misaligned :
  exists out,
    @normalize_constructor_data sample_parsers results_table_clean = Ok out /\
    columns out = ["year"; "constructorId"; "points"] /\
    length (rows out) = 2%nat /\
    In (mkRow 1 [("year", PInt 2021); ("constructorId", NaN); ("points", NaN)])
       (rows out) /\
    In (mkRow 0 [("year", NaN); ("constructorId", PStr "ferrari");
                 ("points", PInt 90)])
       (rows out).
Proof.
  eexists. split; [ reflexivity | ].
  repeat split; simpl; auto.
Qed.

(** Nested keys become path-named columns. *)
Example normalise_json_ordered_paths :
  normalise_json_ordered
    [("constructorId", PStr "ferrari");
     ("Constructor", PDict [("name", PStr "Ferrari");
                            ("base", PDict [("country", PStr "Italy")])]);
     ("points", PInt 90)]
  = [("constructorId", PStr "ferrari"); ("points", PInt 90);
     ("Constructor.name", PStr "Ferrari");
     ("Constructor.base.country", PStr "Italy")].
Proof. reflexivity. Qed.

(** *** Further properties on the sample tables *)

Lemma clean_dataframe_result_witness :
  (has_column "ConstructorTable" results_table_clean = true ->
   forall r, In r (rows results_table_clean) ->
     is_year_number (cell "ConstructorTable" r) = false) /\
  (safe_columns results_table_clean <> [] ->
   forall i j ri rj,
     nth_error (rows results_table_clean) i = Some ri ->
     nth_error (rows results_table_clean) j = Some rj ->
     i <> j ->
     row_key (safe_columns results_table_clean) ri
     <> row_key (safe_columns results_table_clean) rj) /\
  (has_column "year" results_table_clean = false \/
   has_column "season" results_table_clean = false).
Proof.
  exact (clean_dataframe_result results_table results_table_clean eq_refl).
Defined.

Lemma clean_dataframe_keeps_order_witness :
  Subsequence (rows results_table_clean)
    (map (fun r => if has_column "year" results_table
                      && has_column "season" results_table
                   then drop_cell "season" r else r)
         (rows results_table)).
Proof.
  exact (clean_dataframe_keeps_order results_table results_table_clean eq_refl).
Defined.

(** A list in the "tags" column: the normaliser raises, whatever the
    constructor-list cells hold. *)
Example clean_dataframe_tagged_results :
  clean_dataframe tagged_results
  = Raise (Error TypeError "unhashable type: 'list'").
Proof. reflexivity. Qed.

Lemma normalize_constructor_data_by_label_witness :
  exists out,
    @normalize_constructor_data sample_parsers results_table_clean = Ok out /\
    columns out =
      strip_columns (columns results_table_clean) ++
      record_columns (map flat_selected [example_list]) /\
    (length (rows results_table_clean) <= length (rows out))%nat /\
    (forall r', In r' (rows out) <->
       (exists r, In r (rows results_table_clean) /\
          r' = mkRow (label r)
                 (cells (strip_row r) ++
                  cells_by_label [example_list] (label r))) \/
       (exists i x, nth_error [example_list] i = Some x /\
          ~ In (Z.of_nat i) (labels results_table_clean) /\
          r' = mkRow (Z.of_nat i)
                 (nan_cells (strip_columns (columns results_table_clean)) ++
                  record_cells (record_columns (map flat_selected [example_list]))
                    (flat_selected x)))).
Proof.
  exact (@normalize_constructor_data_by_label sample_parsers results_table_clean
           [example_list] eq_refl eq_refl eq_refl eq_refl).
Defined.

Lemma normalize_constructor_data_repeated_label_witness :
  (exists e,
      concat_axis1 (stripped repeated_labels)
        (frame_of_records (map flat_selected [example_list; example_list]))
      = Raise e) /\
  @normalize_constructor_data sample_parsers repeated_labels
  = Ok (stripped repeated_labels).
Proof.
  exact (@normalize_constructor_data_repeated_label sample_parsers
           repeated_labels [example_list; example_list]
           eq_refl eq_refl eq_refl eq_refl).
Defined.

(** The two rows come back with their "year" only. *)
Example normalize_constructor_data_repeated_labels :
  @normalize_constructor_data sample_parsers repeated_labels
  = Ok (mkFrame ["year"]
          [mkRow 0 [("year", PInt 2021)]; mkRow 0 [("year", PInt 2021)]]).
Proof. reflexivity. Qed.

Lemma normalize_constructor_data_flattens_witness :
  exists out,
    @normalize_constructor_data sample_parsers nested_season = Ok out /\
    forall r' c v,
      In r' (rows out) -> In (c, v) (cells r') -> is_dict v = true ->
      exists r, In r (rows nested_season) /\ label r = label r' /\
                In (c, v) (cells r) /\
                c <> "ConstructorTable" /\ c <> "constructor_data".
Proof.
  exact (@normalize_constructor_data_flattens sample_parsers nested_season
           [[PDict nested_record]] eq_refl eq_refl).
Defined.

(** The nested record is flattened to path-named columns; the mapping
    in the "circuit" column of the table is left as it is. *)
Example normalize_constructor_data_nested_season :
  @normalize_constructor_data sample_parsers nested_season
  = Ok (mkFrame ["circuit"; "constructorId"; "Constructor.name";
                 "Constructor.base.country"]
          [mkRow 0 [("circuit", PDict [("name", PStr "Monza")]);
                    ("constructorId", PStr "ferrari");
                    ("Constructor.name", PStr "Ferrari");
                    ("Constructor.base.country", PStr "Italy")]]).
Proof. reflexivity. Qed.

(* ===================================================================== *)
(** ** Properties of the request controller *)
(* ===================================================================== *)

Lemma contains_suffix (pre s : string) : contains s (pre ++ s).
Proof.
  exists pre, ""%string. f_equal.
  induction s as [ | c s IH ]; simpl; [ reflexivity | now rewrite <- IH ].
Qed.

Lemma contains_empty (t : string) : contains "" t.
Proof. exists ""%string, t. reflexivity. Qed.

(** The calls that work on the table are the last five of a request. *)
Example table_call_steps :
  filter table_call request_calls =
  [CallDataFrame; CallCleanDataframe; CallNormalizeConstructorData;
   CallGenerateCode; CallExecuteCode] /\
  filter (fun c => negb (table_call c)) request_calls =
  [CallProcessQuery; CallAdapt; CallToDataRequirements; CallProcess;
   CallAdaptPipelineResult].
Proof. split; reflexivity. Qed.

Section ControllerProperties.
Context {lib : Parsers} {env : Collaborators}.

(** The request up to the adapted pipeline result. *)
Lemma analyze_f1_data_pipeline_failure (query : string) (qr : QueryResult)
  (pr : PipelineResult Metadata) :
  pipeline_returns query qr pr ->
  (if success pr then data pr else None) = None ->
  analyze_f1_data query =
  (pipeline_calls,
   Ok (failure_response
         ("Pipeline processing failed: " ++ text_or (error pr) "No data returned")
         (now 1 - now 0))).
Proof.
  intros [ad [rq [raw [H1 [H2 [H3 [H4 H5]]]]]]] Hfail.
  unfold analyze_f1_data, invoke.
  rewrite H1. cbn [bindM]. rewrite H2. cbn [bindM]. rewrite H3. cbn [bindM].
  rewrite H4. cbn [bindM]. rewrite H5. cbn [bindM]. rewrite Hfail.
  reflexivity.
Qed.

(** C3.  When the adapted pipeline result has its success flag false,
    or has no data whatever the flag says, the controller answers with
    the failure response: "success" false, "error" "Analysis failed",
    "details" made of "Pipeline processing failed: " and the adapter's
    error text ("No data returned" when it gives none), and the elapsed
    time; the calls made are the five of steps 1 to 4 and no other: no
    table is built, no code is generated or executed. *)
Theorem analyze_f1_data_pipeline_failed (query : string) (qr : QueryResult)
  (pr : PipelineResult Metadata) :
  pipeline_returns query qr pr ->
  success pr = false \/ data pr = None ->
  exists details,
    analyze_f1_data query =
      ([CallProcessQuery; CallAdapt; CallToDataRequirements; CallProcess;
        CallAdaptPipelineResult],
       Ok [("success", FBool false);
           ("error", FText "Analysis failed");
           ("details", FText details);
           ("processing_time", FSeconds (now 1 - now 0))]) /\
    (forall text, error pr = Some text -> text <> "" ->
       details = ("Pipeline processing failed: " ++ text)%string) /\
    (error pr = None \/ error pr = Some "" ->
       details = "Pipeline processing failed: No data returned") /\
    (forall text, error pr = Some text -> contains text details) /\
    (forall c, In c (fst (analyze_f1_data query)) ->
       c <> CallDataFrame /\ c <> CallCleanDataframe /\
       c <> CallNormalizeConstructorData /\
       c <> CallGenerateCode /\ c <> CallExecuteCode).
Proof.
  intros Hp Hfail.
  assert (Hnone : (if success pr then data pr else None) = None).
  { destruct Hfail as [-> | ->]; [ reflexivity | now destruct (success pr) ]. }
  exists ("Pipeline processing failed: " ++ text_or (error pr) "No data returned")%string.
  rewrite (analyze_f1_data_pipeline_failure query qr pr Hp Hnone).
  split; [ reflexivity | split; [ | split; [ | split ] ] ].
  - intros text -> Hne. unfold text_or.
    apply String.eqb_neq in Hne. now rewrite Hne.
  - intros [-> | ->]; reflexivity.
  - intros text ->. unfold text_or.
    destruct (String.eqb text "") eqn:E.
    + apply String.eqb_eq in E. subst. apply contains_empty.
    + apply contains_suffix.
  - cbn [fst]. intros c Hc.
    repeat (destruct Hc as [<- | Hc]; [ repeat split; discriminate | ]).
    destruct Hc.
Qed.

Lemma add_keys_fresh (ks : list string) :
  forall acc, NoDup (acc ++ ks) -> add_keys ks acc = acc ++ ks.
Proof.
  induction ks as [ | a ks IH ]; simpl; intros acc H.
  - now rewrite app_nil_r.
  - assert (Ha : existsb (String.eqb a) acc = false).
    { destruct (existsb (String.eqb a) acc) eqn:E; [ | reflexivity ].
      apply existsb_exists in E. destruct E as [y [Hy Heq]].
      apply String.eqb_eq in Heq. subst y.
      apply NoDup_remove_2 in H. elim H. apply in_or_app. now left. }
    rewrite Ha, IH; rewrite <- app_assoc; [ reflexivity | exact H ].
Qed.

Lemma dict_get_In (d : pydict) :
  NoDup (map fst d) ->
  forall k v, In (k, v) d -> dict_get k d = Some v.
Proof.
  induction d as [ | [k' v'] d IH ]; simpl; intros H k v Hin; [ contradiction | ].
  inversion H as [ | x xs Hnin Hnd ]; subst.
  destruct Hin as [Heq | Hin].
  - inversion Heq; subst. now rewrite String.eqb_refl.
  - destruct (String.eqb k' k) eqn:E; [ | now apply IH ].
    apply String.eqb_eq in E. subst k'. elim Hnin.
    apply in_map_iff. exists (k, v). auto.
Qed.

Lemma record_cells_self (d : pydict) :
  NoDup (map fst d) -> record_cells (map fst d) d = d.
Proof.
  intros H. unfold record_cells. rewrite map_map.
  rewrite <- (map_id d) at 2. apply map_ext_in.
  intros [k v] Hin. simpl. now rewrite (dict_get_In d H k v Hin).
Qed.

(** [pd.DataFrame([record])]: one row, labelled 0, holding the record. *)
Lemma frame_of_one_record (d : pydict) :
  NoDup (map fst d) ->
  frame_of_records [d] = mkFrame (map fst d) [mkRow 0 d].
Proof.
  intros H. unfold frame_of_records, record_columns. simpl.
  rewrite (add_keys_fresh (map fst d) [] H). simpl.
  now rewrite record_cells_self.
Qed.

Lemma all_dicts_length (l : list pyval) :
  forall recs, all_dicts l = Some recs -> length recs = length l.
Proof.
  induction l as [ | v l IH ]; simpl; intros recs H.
  - now inversion H.
  - destruct v; try discriminate.
    destruct (all_dicts l); [ | discriminate ].
    inversion H; subst. simpl. f_equal. now apply IH.
Qed.

Lemma float_column_single (v : pyval) :
  float_column [v] = true -> to_float v = v.
Proof. destruct v; simpl; try reflexivity; discriminate. Qed.

Lemma dict_get_convert_cells (floats : list string) (c : string) (d : pydict) :
  dict_get c (convert_cells floats d) =
  match dict_get c d with
  | Some v => Some (if existsb (String.eqb c) floats then to_float v else v)
  | None => None
  end.
Proof.
  induction d as [ | [k v] d IH ]; simpl; [ reflexivity | ].
  destruct (existsb (String.eqb k) floats) eqn:Ef; simpl;
    destruct (String.eqb k c) eqn:E; try exact IH;
    apply String.eqb_eq in E; subst; now rewrite Ef.
Qed.

Lemma existsb_filter_name (c : string) (f : string -> bool) (cols : list string) :
  In c cols -> existsb (String.eqb c) (filter f cols) = f c.
Proof.
  intros H. destruct (f c) eqn:E.
  - apply existsb_exists. exists c.
    split; [ apply filter_In; auto | apply String.eqb_refl ].
  - destruct (existsb (String.eqb c) (filter f cols)) eqn:E2; [ | reflexivity ].
    apply existsb_exists in E2. destruct E2 as [x [Hx Heq]].
    apply String.eqb_eq in Heq. subst x.
    apply filter_In in Hx. destruct Hx. congruence.
Qed.

Lemma column_of_records (cols : list string) (c : string) (recs : list pydict) :
  In c cols ->
  forall k, map (cell c) (number_rows k cols recs) = map (record_value c) recs.
Proof.
  intros Hc. induction recs as [ | d recs IH ]; intros k; simpl;
    [ reflexivity | ].
  rewrite IH. f_equal. unfold cell. cbn [cells].
  now rewrite dict_get_record_cells.
Qed.

(** [pd.DataFrame(records)]: one row per record, in order, labelled
    from 0; a cell holds what the record has under the name of the
    column, [None] reading NaN in a column of numbers. *)
Lemma table_of_records (recs : list pydict) :
  columns (convert_object_array (frame_of_records recs)) = record_columns recs /\
  length (rows (convert_object_array (frame_of_records recs))) = length recs /\
  forall i rec,
    nth_error recs i = Some rec ->
    exists r,
      nth_error (rows (convert_object_array (frame_of_records recs))) i = Some r /\
      label r = Z.of_nat i /\
      forall c, In c (record_columns recs) ->
        cell c r = if float_column (map (record_value c) recs)
                   then to_float (record_value c rec)
                   else record_value c rec.
Proof.
  unfold convert_object_array, frame_of_records. cbn [columns rows].
  split; [ reflexivity | split ].
  - now rewrite length_map, number_rows_length.
  - intros i rec Hi. eexists. split; [ | split ].
    + rewrite nth_error_map.
      rewrite (nth_error_number_rows _ _ 0 i rec Hi). reflexivity.
    + reflexivity.
    + intros c Hc. unfold cell. cbn [cells].
      rewrite dict_get_convert_cells, dict_get_record_cells by assumption.
      rewrite existsb_filter_name by assumption.
      fold (cell c). rewrite column_of_records by assumption.
      reflexivity.
Qed.

(** [pd.DataFrame([record])]: nothing is converted in a single row. *)
Lemma table_of_one_record (d : pydict) :
  NoDup (map fst d) ->
  convert_object_array (frame_of_records [d]) = mkFrame (map fst d) [mkRow 0 d].
Proof.
  intros H. rewrite (frame_of_one_record d H).
  unfold convert_object_array. cbn [columns rows map label cells].
  do 3 f_equal. unfold convert_cells.
  rewrite <- (map_id d) at 2. apply map_ext_in.
  intros [k v] Hin. cbn [fst snd].
  destruct (existsb (String.eqb k) _) eqn:E; [ | reflexivity ].
  f_equal. apply float_column_single.
  apply existsb_exists in E. destruct E as [x [Hx Heq]].
  apply String.eqb_eq in Heq. subst x.
  apply filter_In in Hx. destruct Hx as [_ Hx].
  unfold cell in Hx. cbn [cells] in Hx.
  now rewrite (dict_get_In d H k v Hin) in Hx.
Qed.

End ControllerProperties.

(** *** The paths of a request *)

Ltac fault_cases H :=
  unfold pipeline_raises in H;
  repeat match type of H with
         | _ \/ _ => destruct H as [H | H]
         end;
  repeat match type of H with
         | exists _, _ => let x := fresh "x" in destruct H as [x H]
         end;
  repeat match type of H with
         | _ /\ _ => let E := fresh "E" in destruct H as [E H]
         end;
  subst.

Section ControllerPaths.
Context {lib : Parsers} {env : Collaborators}.

(** Lines 178-207, outcome by outcome. *)
Lemma process_dataframe_cases (results : results_value) :
  process_dataframe results =
  match coerce_results results with
  | Raise e =>
      ([CallDataFrame],
       Raise (HTTPException 400 ("Failed to process data: " ++ str_exn e)))
  | Ok df0 =>
      match clean_dataframe df0 with
      | Raise e =>
          ([CallDataFrame; CallCleanDataframe],
           Raise (HTTPException 400 ("Failed to process data: " ++ str_exn e)))
      | Ok df1 =>
          match normalize_constructor_data df1 with
          | Raise e =>
              (table_steps,
               Raise (HTTPException 400
                        ("Failed to process data: " ++ str_exn e)))
          | Ok df2 =>
              (table_steps,
               if df_empty df2 then
                 Raise (HTTPException 400
                          ("Failed to process data: " ++
                           str_http 400 "No data available after processing"))
               else Ok df2)
          end
      end
  end.
Proof.
  unfold process_dataframe, invoke.
  destruct (coerce_results results) as [df0 | e]; [ | reflexivity ].
  cbn [bindM]. destruct (clean_dataframe df0) as [df1 | e]; [ | reflexivity ].
  cbn [bindM].
  destruct (normalize_constructor_data df1) as [df2 | e]; [ | reflexivity ].
  cbn [bindM]. destruct (df_empty df2); reflexivity.
Qed.

(** Steps 1 to 4: they go through, or one of them raises and the
    request ends with the failure response of that exception. *)
Lemma analyze_f1_data_pipeline_cases (query : string) :
  (exists qr pr, pipeline_returns query qr pr) \/
  (exists e log,
      pipeline_raises query e log /\
      analyze_f1_data query =
      (log, Ok (failure_response (reported e) (now 1 - now 0)))).
Proof.
  unfold pipeline_returns, pipeline_raises, analyze_f1_data, invoke.
  destruct (process_query query) as [qr | e] eqn:H1.
  2: { right. exists e, [CallProcessQuery]. split; [ auto | ].
       destruct e; reflexivity. }
  destruct (adapt qr) as [ad | e] eqn:H2.
  2: { right. exists e, [CallProcessQuery; CallAdapt]. split.
       - right; left. eauto.
       - cbn [bindM]. rewrite H2. destruct e; reflexivity. }
  destruct (to_data_requirements ad) as [rq | e] eqn:H3.
  2: { right. exists e, [CallProcessQuery; CallAdapt; CallToDataRequirements].
       split.
       - right; right; left. exists qr, ad. repeat split; auto.
       - cbn [bindM]. rewrite H2. cbn [bindM]. rewrite H3.
         destruct e; reflexivity. }
  destruct (process rq) as [raw | e] eqn:H4.
  2: { right.
       exists e, [CallProcessQuery; CallAdapt; CallToDataRequirements; CallProcess].
       split.
       - right; right; right; left. exists qr, ad, rq. repeat split; auto.
       - cbn [bindM]. rewrite H2. cbn [bindM]. rewrite H3. cbn [bindM].
         rewrite H4. destruct e; reflexivity. }
  destruct (adapt_pipeline_result raw (now 0)) as [pr | e] eqn:H5.
  2: { right. exists e, pipeline_calls. split.
       - right; right; right; right. exists qr, ad, rq, raw. repeat split; auto.
       - cbn [bindM]. rewrite H2. cbn [bindM]. rewrite H3. cbn [bindM].
         rewrite H4. cbn [bindM]. rewrite H5. destruct e; reflexivity. }
  left. exists qr, pr, ad, rq, raw. repeat split; auto.
Qed.

(** Step 5, once the pipeline has handed over data. *)
Lemma analyze_f1_data_table (query : string) (qr : QueryResult)
  (pr : PipelineResult Metadata) (d : list (string * results_value)) :
  pipeline_returns query qr pr ->
  success pr = true ->
  data pr = Some d ->
  analyze_f1_data query =
  match process_dataframe (results_of d) with
  | (log, Raise e) =>
      (pipeline_calls ++ log,
       Ok (failure_response (reported e) (now 1 - now 0)))
  | (log, Ok df) =>
      match generate_code df query with
      | Raise e =>
          (pipeline_calls ++ log ++ [CallGenerateCode],
           Ok (failure_response (reported e) (now 1 - now 0)))
      | Ok code =>
          (pipeline_calls ++ log ++ [CallGenerateCode; CallExecuteCode],
           match execute_code_safely code df with
           | Raise e => Ok (failure_response (reported e) (now 1 - now 0))
           | Ok (true, result, executed_code) =>
               Ok (success_response result executed_code (trace qr)
                     (now 1 - now 0) (metadata pr))
           | Ok (false, result, _) =>
               Ok (failure_response
                     ("Code execution failed: " ++ str_payload result)
                     (now 1 - now 0))
           end)
      end
  end.
Proof.
  intros [ad [rq [raw [H1 [H2 [H3 [H4 H5]]]]]]] Hs Hd.
  unfold analyze_f1_data, invoke.
  rewrite H1. cbn [bindM]. rewrite H2. cbn [bindM]. rewrite H3. cbn [bindM].
  rewrite H4. cbn [bindM]. rewrite H5. cbn [bindM]. rewrite Hs, Hd.
  destruct (process_dataframe (results_of d)) as [log [df | e]]; cbn [bindM].
  2: { destruct e; cbn; now rewrite app_nil_r. }
  destruct (generate_code df query) as [code | e]; cbn [bindM].
  2: { destruct e; cbn; now rewrite app_nil_r. }
  destruct (execute_code_safely code df) as [[[ok result] executed] | e];
    cbn [bindM].
  2: { destruct e; cbn; now rewrite app_nil_r. }
  destruct ok; cbn; rewrite ?app_nil_r; reflexivity.
Qed.

(** X12.  The request ends with the success response exactly when
    steps 1 to 4 go through, the pipeline result reports success and
    carries data, the payload becomes a table that is not empty after
    the normaliser and then the expander, code is generated for that
    table and the query, and the executor, run on the code and the same
    table, reports success.  The response then carries the executor's
    result and code, the trace of the query result, the metadata of the
    pipeline result and the elapsed time, and the ten calls were made in
    order. *)
Theorem analyze_f1_data_success_iff (query : string) (log : list call)
  (result : Payload) (executed_code : string) (query_trace : Trace)
  (processing_time : Z) (meta : Metadata) :
  analyze_f1_data query =
    (log, Ok (success_response result executed_code query_trace
                processing_time meta))
  <->
  exists qr pr d df0 df1 df2 code,
    pipeline_returns query qr pr /\
    success pr = true /\
    data pr = Some d /\
    coerce_results (results_of d) = Ok df0 /\
    clean_dataframe df0 = Ok df1 /\
    normalize_constructor_data df1 = Ok df2 /\
    df_empty df2 = false /\
    generate_code df2 query = Ok code /\
    execute_code_safely code df2 = Ok (true, result, executed_code) /\
    log = request_calls /\
    query_trace = trace qr /\
    meta = metadata pr /\
    processing_time = now 1 - now 0.
Proof.
  split.
  - destruct (analyze_f1_data_pipeline_cases query)
      as [[qr [pr Hp]] | [e [log' [_ ->]]]]; [ | discriminate ].
    destruct (if success pr then data pr else None) as [d | ] eqn:Hsd.
    2: { rewrite (analyze_f1_data_pipeline_failure query qr pr Hp Hsd).
         discriminate. }
    assert (Hs : success pr = true) by (destruct (success pr); congruence).
    assert (Hd : data pr = Some d) by (rewrite Hs in Hsd; exact Hsd).
    rewrite (analyze_f1_data_table query qr pr d Hp Hs Hd).
    rewrite process_dataframe_cases.
    destruct (coerce_results (results_of d)) as [df0 | e] eqn:E0;
      [ | discriminate ].
    destruct (clean_dataframe df0) as [df1 | e] eqn:E1; [ | discriminate ].
    destruct (normalize_constructor_data df1) as [df2 | e] eqn:E2;
      [ | discriminate ].
    destruct (df_empty df2) eqn:E3; [ discriminate | ].
    destruct (generate_code df2 query) as [code | e] eqn:E4; [ | discriminate ].
    destruct (execute_code_safely code df2) as [[[ok res] exe] | e] eqn:E5;
      [ | discriminate ].
    destruct ok; [ | discriminate ].
    intros H. inversion H; subst.
    exists qr, pr, d, df0, df1, df2, code. repeat split; assumption.
  - intros [qr [pr [d [df0 [df1 [df2 [code
      [Hp [Hs [Hd [E0 [E1 [E2 [E3 [E4 [E5 [-> [-> [-> ->]]]]]]]]]]]]]]]]]]].
    rewrite (analyze_f1_data_table query qr pr d Hp Hs Hd).
    rewrite process_dataframe_cases, E0, E1, E2, E3, E4, E5. reflexivity.
Qed.

(** X13.  When one of the calls of steps 1 to 4 raises, the request
    ends there with the failure response: its details are the detail of
    an [HTTPException] and the text of any other exception, and no call
    is made after the one that raised. *)
Theorem analyze_f1_data_stage_fault (query : string) (e : exn)
  (log : list call) :
  pipeline_raises query e log ->
  analyze_f1_data query =
    (log, Ok (failure_response (reported e) (now 1 - now 0))) /\
  (exists rest, pipeline_calls = log ++ rest) /\
  forallb (fun c => negb (table_call c)) log = true.
Proof.
  intros Hr.
  assert (Hlog : (exists rest, pipeline_calls = log ++ rest) /\
                 forallb (fun c => negb (table_call c)) log = true).
  { pose proof Hr as Hc. fault_cases Hc;
      (split; [ eexists; reflexivity | reflexivity ]). }
  split; [ | exact Hlog ].
  unfold analyze_f1_data, invoke.
  fault_cases Hr;
    repeat match goal with
           | H : _ = _ |- _ => rewrite H; cbn [bindM]
           end;
    destruct e; reflexivity.
Qed.

(** X14.  When the table is empty after the normaliser and the
    expander, the request fails before any code is generated; the
    exception of line 203 is caught at line 205, so the details are
    "Failed to process data: " followed by the text of that
    [HTTPException], not its detail alone. *)
Theorem analyze_f1_data_empty_table (query : string) (qr : QueryResult)
  (pr : PipelineResult Metadata) (d : list (string * results_value))
  (df0 df1 df2 : DataFrame) :
  pipeline_returns query qr pr ->
  success pr = true ->
  data pr = Some d ->
  coerce_results (results_of d) = Ok df0 ->
  clean_dataframe df0 = Ok df1 ->
  normalize_constructor_data df1 = Ok df2 ->
  df_empty df2 = true ->
  analyze_f1_data query =
  (pipeline_calls ++ table_steps,
   Ok (failure_response
         ("Failed to process data: " ++
          str_http 400 "No data available after processing")
         (now 1 - now 0))).
Proof.
  intros Hp Hs Hd E0 E1 E2 E3.
  rewrite (analyze_f1_data_table query qr pr d Hp Hs Hd).
  now rewrite process_dataframe_cases, E0, E1, E2, E3.
Qed.

(** X15.  When the data of the pipeline result has no "results" key,
    the default of line 174, an empty dict, becomes a table of one row
    and no column, which is empty: the request fails as for any empty
    table, after the three table steps and before any code is
    generated. *)
Theorem analyze_f1_data_missing_results (query : string) (qr : QueryResult)
  (pr : PipelineResult Metadata) (d : list (string * results_value)) :
  pipeline_returns query qr pr ->
  success pr = true ->
  data pr = Some d ->
  (forall kv, In kv d -> fst kv <> "results") ->
  analyze_f1_data query =
  (pipeline_calls ++ table_steps,
   Ok (failure_response
         ("Failed to process data: " ++
          str_http 400 "No data available after processing")
         (now 1 - now 0))).
Proof.
  intros Hp Hs Hd Hkey.
  assert (Hres : results_of d = RValue (PDict [])).
  { unfold results_of.
    destruct (find (fun kv => String.eqb (fst kv) "results") d) as [kv | ] eqn:E;
      [ | reflexivity ].
    apply List.find_some in E. destruct E as [Hin Heq].
    apply String.eqb_eq in Heq. elim (Hkey kv Hin Heq). }
  rewrite (analyze_f1_data_table query qr pr d Hp Hs Hd).
  rewrite process_dataframe_cases, Hres. reflexivity.
Qed.

(** X16.  When everything goes through but the executor reports
    failure, the request ends with the failure response whose details
    are "Code execution failed: " followed by the text of what the
    executor returned; all ten calls were made. *)
Theorem analyze_f1_data_execution_failed (query : string) (qr : QueryResult)
  (pr : PipelineResult Metadata) (d : list (string * results_value))
  (df : DataFrame) (code : string) (result : Payload) (executed_code : string) :
  pipeline_returns query qr pr ->
  success pr = true ->
  data pr = Some d ->
  process_dataframe (results_of d) = (table_steps, Ok df) ->
  generate_code df query = Ok code ->
  execute_code_safely code df = Ok (false, result, executed_code) ->
  analyze_f1_data query =
  (request_calls,
   Ok (failure_response ("Code execution failed: " ++ str_payload result)
         (now 1 - now 0))).
Proof.
  intros Hp Hs Hd Ht Hc He.
  rewrite (analyze_f1_data_table query qr pr d Hp Hs Hd).
  now rewrite Ht, Hc, He.
Qed.

(** X18.  When the normaliser raises, the request ends with the failure
    response whose details are "Failed to process data: " followed by
    the text of the exception; the expander is not called and no code is
    generated. *)
Theorem analyze_f1_data_normaliser_fault (query : string) (qr : QueryResult)
  (pr : PipelineResult Metadata) (d : list (string * results_value))
  (df0 : DataFrame) (e : exn) :
  pipeline_returns query qr pr ->
  success pr = true ->
  data pr = Some d ->
  coerce_results (results_of d) = Ok df0 ->
  clean_dataframe df0 = Raise e ->
  analyze_f1_data query =
  (pipeline_calls ++ [CallDataFrame; CallCleanDataframe],
   Ok (failure_response ("Failed to process data: " ++ str_exn e)
         (now 1 - now 0))).
Proof.
  intros Hp Hs Hd E0 E1.
  rewrite (analyze_f1_data_table query qr pr d Hp Hs Hd).
  now rewrite process_dataframe_cases, E0, E1.
Qed.

(** X19.  When the table steps go through and the code generator or
    the executor raises, the request ends with the failure response of
    that exception, its detail or text without any prefix; when it is
    the generator that raises, the executor is not called. *)
Theorem analyze_f1_data_analysis_fault (query : string) (qr : QueryResult)
  (pr : PipelineResult Metadata) (d : list (string * results_value))
  (df : DataFrame) (e : exn) :
  pipeline_returns query qr pr ->
  success pr = true ->
  data pr = Some d ->
  process_dataframe (results_of d) = (table_steps, Ok df) ->
  generate_code df query = Raise e \/
  (exists code, generate_code df query = Ok code /\
                execute_code_safely code df = Raise e) ->
  analyze_f1_data query =
  (pipeline_calls ++ table_steps ++
   match generate_code df query with
   | Raise _ => [CallGenerateCode]
   | Ok _ => [CallGenerateCode; CallExecuteCode]
   end,
   Ok (failure_response (reported e) (now 1 - now 0))).
Proof.
  intros Hp Hs Hd Ht Hf.
  rewrite (analyze_f1_data_table query qr pr d Hp Hs Hd), Ht.
  destruct Hf as [Hg | [code [Hg He]]]; rewrite Hg; [ reflexivity | ].
  now rewrite He.
Qed.

(** *** Every fault, and the calls made *)

Lemma process_dataframe_returns (d : list (string * results_value))
  (df : DataFrame) :
  table_returns d df ->
  process_dataframe (results_of d) = (table_steps, Ok df).
Proof.
  intros [df0 [df1 [E0 [E1 [E2 E3]]]]].
  now rewrite process_dataframe_cases, E0, E1, E2, E3.
Qed.

Lemma analyze_f1_data_pipeline_raises (query : string) (e : exn)
  (log : list call) :
  pipeline_raises query e log ->
  analyze_f1_data query =
  (log, Ok (failure_response (reported e) (now 1 - now 0))).
Proof.
  intros Hr. unfold analyze_f1_data, invoke.
  fault_cases Hr;
    repeat match goal with
           | H : _ = _ |- _ => rewrite H; cbn [bindM]
           end;
    destruct e; reflexivity.
Qed.

Lemma pipeline_signal (pr : PipelineResult Metadata) :
  success pr = false \/ data pr = None ->
  (if success pr then data pr else None) = None.
Proof.
  intros [-> | ->]; [ reflexivity | now destruct (success pr) ].
Qed.

(** A fault of any stage ends the request with the failure response
    that carries its message, after the calls up to that stage. *)
Lemma request_fault_outcome (query : string) (details : string)
  (log : list call) :
  request_fault query details log ->
  analyze_f1_data query =
  (log, Ok (failure_response details (now 1 - now 0))).
Proof.
  intros H.
  destruct H as
    [ e log Hr
    | qr pr text Hp Hf He Hne
    | qr pr Hp Hf He
    | qr pr d e [Hp [Hs Hd]] E0
    | qr pr d df0 e [Hp [Hs Hd]] E0 E1
    | qr pr d df0 df1 e [Hp [Hs Hd]] E0 E1 E2
    | qr pr d df0 df1 df2 [Hp [Hs Hd]] E0 E1 E2 E3
    | qr pr d df e [Hp [Hs Hd]] Ht Hg
    | qr pr d df code e [Hp [Hs Hd]] Ht Hg He
    | qr pr d df code result executed [Hp [Hs Hd]] Ht Hg He ].
  - now apply analyze_f1_data_pipeline_raises.
  - rewrite (analyze_f1_data_pipeline_failure query qr pr Hp (pipeline_signal pr Hf)).
    unfold text_or. rewrite He. apply String.eqb_neq in Hne. now rewrite Hne.
  - rewrite (analyze_f1_data_pipeline_failure query qr pr Hp (pipeline_signal pr Hf)).
    destruct He as [-> | ->]; reflexivity.
  - rewrite (analyze_f1_data_table query qr pr d Hp Hs Hd).
    now rewrite process_dataframe_cases, E0.
  - rewrite (analyze_f1_data_table query qr pr d Hp Hs Hd).
    now rewrite process_dataframe_cases, E0, E1.
  - rewrite (analyze_f1_data_table query qr pr d Hp Hs Hd).
    now rewrite process_dataframe_cases, E0, E1, E2.
  - rewrite (analyze_f1_data_table query qr pr d Hp Hs Hd).
    now rewrite process_dataframe_cases, E0, E1, E2, E3.
  - rewrite (analyze_f1_data_table query qr pr d Hp Hs Hd).
    now rewrite (process_dataframe_returns d df Ht), Hg.
  - rewrite (analyze_f1_data_table query qr pr d Hp Hs Hd).
    now rewrite (process_dataframe_returns d df Ht), Hg, He.
  - rewrite (analyze_f1_data_table query qr pr d Hp Hs Hd).
    now rewrite (process_dataframe_returns d df Ht), Hg, He.
Qed.

Lemma analyze_f1_data_succeeds (query : string) (qr : QueryResult)
  (pr : PipelineResult Metadata) (d : list (string * results_value))
  (df : DataFrame) (code : string) (result : Payload)
  (executed_code : string) :
  data_returns query qr pr d ->
  table_returns d df ->
  generate_code df query = Ok code ->
  execute_code_safely code df = Ok (true, result, executed_code) ->
  analyze_f1_data query =
  (request_calls,
   Ok (success_response result executed_code (trace qr) (now 1 - now 0)
         (metadata pr))).
Proof.
  intros [Hp [Hs Hd]] Ht Hg He.
  rewrite (analyze_f1_data_table query qr pr d Hp Hs Hd).
  now rewrite (process_dataframe_returns d df Ht), Hg, He.
Qed.

Lemma pipeline_signal_fault (query : string) (qr : QueryResult)
  (pr : PipelineResult Metadata) :
  pipeline_returns query qr pr ->
  success pr = false \/ data pr = None ->
  exists details log, request_fault query details log.
Proof.
  intros Hp Hf. destruct (error pr) as [text | ] eqn:He.
  - destruct (string_dec text "") as [-> | Hne].
    + do 2 eexists. apply (fault_pipeline_silent query qr pr); auto.
    + do 2 eexists. apply (fault_pipeline_error query qr pr text); auto.
  - do 2 eexists. apply (fault_pipeline_silent query qr pr); auto.
Qed.

(** A request meets a fault at some stage, or all its stages go
    through. *)
Lemma request_outcome_cases (query : string) :
  (exists details log, request_fault query details log) \/
  (exists qr pr d df code result executed_code,
      data_returns query qr pr d /\
      table_returns d df /\
      generate_code df query = Ok code /\
      execute_code_safely code df = Ok (true, result, executed_code)).
Proof.
  destruct (analyze_f1_data_pipeline_cases query)
    as [[qr [pr Hp]] | [e [log [Hr _]]]].
  2: { left. exists (reported e), log. now apply fault_stage. }
  destruct (success pr) eqn:Hs.
  2: { left. apply (pipeline_signal_fault query qr pr); auto. }
  destruct (data pr) as [d | ] eqn:Hd.
  2: { left. apply (pipeline_signal_fault query qr pr); auto. }
  assert (Hdata : data_returns query qr pr d) by (repeat split; assumption).
  destruct (coerce_results (results_of d)) as [df0 | e] eqn:E0.
  2: { left. do 2 eexists. apply (fault_shape query qr pr d e); assumption. }
  destruct (clean_dataframe df0) as [df1 | e] eqn:E1.
  2: { left. do 2 eexists.
       apply (fault_normaliser query qr pr d df0 e); assumption. }
  destruct (normalize_constructor_data df1) as [df2 | e] eqn:E2.
  2: { left. do 2 eexists.
       apply (fault_expander query qr pr d df0 df1 e); assumption. }
  destruct (df_empty df2) eqn:E3.
  1: { left. do 2 eexists.
       apply (fault_empty query qr pr d df0 df1 df2); assumption. }
  assert (Ht : table_returns d df2).
  { exists df0, df1. repeat split; assumption. }
  destruct (generate_code df2 query) as [code | e] eqn:Hg.
  2: { left. do 2 eexists.
       apply (fault_generator query qr pr d df2 e); assumption. }
  destruct (execute_code_safely code df2) as [[[ok result] executed] | e] eqn:He.
  2: { left. do 2 eexists.
       apply (fault_executor query qr pr d df2 code e); assumption. }
  destruct ok.
  - right. exists qr, pr, d, df2, code, result, executed. auto.
  - left. do 2 eexists.
    apply (fault_execution query qr pr d df2 code result executed); assumption.
Qed.

(** X17.  The calls of a request are an initial part of the ten calls
    in their fixed order, so that no call is made twice or out of turn;
    when a stage fails, by an exception or by an error signal, the calls
    made are exactly those up to and including the failing one, and no
    call follows it; and when fewer than the ten calls are made, a stage
    has failed at the last of them. *)
Theorem analyze_f1_data_calls_in_order (query : string) :
  (exists rest, request_calls = fst (analyze_f1_data query) ++ rest) /\
  (forall details log,
      request_fault query details log ->
      fst (analyze_f1_data query) = log) /\
  (fst (analyze_f1_data query) = request_calls \/
   exists details,
     request_fault query details (fst (analyze_f1_data query))).
Proof.
  split; [ | split ].
  - idtac.
    destruct (analyze_f1_data_pipeline_cases query)
      as [[qr [pr Hp]] | [e [log [Hr ->]]]].
    + destruct (if success pr then data pr else None) as [d | ] eqn:Hsd.
      2: { rewrite (analyze_f1_data_pipeline_failure query qr pr Hp Hsd).
           eexists. reflexivity. }
      assert (Hs : success pr = true) by (destruct (success pr); congruence).
      assert (Hd : data pr = Some d) by (rewrite Hs in Hsd; exact Hsd).
      rewrite (analyze_f1_data_table query qr pr d Hp Hs Hd).
      rewrite process_dataframe_cases.
      destruct (coerce_results (results_of d)) as [df0 | e];
        [ | eexists; reflexivity ].
      destruct (clean_dataframe df0) as [df1 | e]; [ | eexists; reflexivity ].
      destruct (normalize_constructor_data df1) as [df2 | e];
        [ | eexists; reflexivity ].
      destruct (df_empty df2); [ eexists; reflexivity | ].
      destruct (generate_code df2 query) as [code | e];
        eexists; reflexivity.
    + cbn [fst]. fault_cases Hr; eexists; reflexivity.
  - intros details log H.
    now rewrite (request_fault_outcome query details log H).
  - destruct (request_outcome_cases query)
      as [[details [log H]] | [qr [pr [d [df [code [result [exe
           [Hdata [Ht [Hg He]]]]]]]]]]].
    + right. exists details.
      now rewrite (request_fault_outcome query details log H).
    + left.
      now rewrite (analyze_f1_data_succeeds query qr pr d df code result exe
                     Hdata Ht Hg He).
Qed.

(** C9.  Whatever fault occurs at whatever stage, an exception raised
    by a call or an explicit error signal, the controller returns the
    failure response and raises nothing: "success" false, "error"
    "Analysis failed", "details" the message of the fault, and the time
    elapsed since the start.  A request meets such a fault or ends with
    the success response; in either case a response is returned. *)
Theorem analyze_f1_data_uniform (query : string) :
  (forall details log,
      request_fault query details log ->
      analyze_f1_data query =
      (log,
       Ok [("success", FBool false);
           ("error", FText "Analysis failed");
           ("details", FText details);
           ("processing_time", FSeconds (now 1 - now 0))])) /\
  ((exists details log, request_fault query details log) \/
   (exists qr pr result executed_code,
       pipeline_returns query qr pr /\
       analyze_f1_data query =
       ([CallProcessQuery; CallAdapt; CallToDataRequirements; CallProcess;
         CallAdaptPipelineResult; CallDataFrame; CallCleanDataframe;
         CallNormalizeConstructorData; CallGenerateCode; CallExecuteCode],
        Ok [("success", FBool true);
            ("data", FPayload result);
            ("executed_code", FText executed_code);
            ("query_trace", FTrace (trace qr));
            ("processing_time", FSeconds (now 1 - now 0));
            ("metadata", FMetadata (metadata pr))]))) /\
  (exists log resp, analyze_f1_data query = (log, Ok resp)).
Proof.
  split; [ | split ].
  - intros details log H.
    now rewrite (request_fault_outcome query details log H).
  - destruct (request_outcome_cases query)
      as [H | [qr [pr [d [df [code [result [exe
           [Hdata [Ht [Hg He]]]]]]]]]]]; [ now left | right ].
    exists qr, pr, result, exe. split; [ apply Hdata | ].
    now rewrite (analyze_f1_data_succeeds query qr pr d df code result exe
                   Hdata Ht Hg He).
  - destruct (request_outcome_cases query)
      as [[details [log H]] | [qr [pr [d [df [code [result [exe
           [Hdata [Ht [Hg He]]]]]]]]]]].
    + rewrite (request_fault_outcome query details log H). eauto.
    + rewrite (analyze_f1_data_succeeds query qr pr d df code result exe
                 Hdata Ht Hg He). eauto.
Qed.

(** C7, as amended.  Once the pipeline has handed over data, the
    payload under "results" is coerced by shape.  A table passes
    through unchanged.  A single record becomes a table of one row.  A
    list of records becomes a table with one row per record, in order,
    labelled from 0, whose columns are the keys of the records; a cell
    holds what its record has under the name of the column, [None]
    reading NaN in a column of numbers.  A list that is not a list of
    records is no shape error: it goes to the table constructor like any
    list, and when that gives a table the normaliser is called on it.
    For a value that is neither a table, a dict nor a list the request
    ends with the failure response whose details name the type, after
    the call that builds the table and with no call after it. *)
Theorem coerce_results_by_shape (query : string) (qr : QueryResult)
  (pr : PipelineResult Metadata) (d : list (string * results_value)) :
  pipeline_returns query qr pr ->
  success pr = true ->
  data pr = Some d ->
  match results_of d with
  | RFrame df => coerce_results (results_of d) = Ok df
  | RValue (PDict rec) =>
      exists df,
        coerce_results (results_of d) = Ok df /\
        length (rows df) = 1%nat /\
        (NoDup (map fst rec) -> df = mkFrame (map fst rec) [mkRow 0 rec])
  | RValue (PList l) =>
      (forall recs, all_dicts l = Some recs ->
         exists df,
           coerce_results (results_of d) = Ok df /\
           columns df = record_columns recs /\
           length (rows df) = length l /\
           (forall i rec, nth_error recs i = Some rec ->
              exists r,
                nth_error (rows df) i = Some r /\
                label r = Z.of_nat i /\
                forall c, In c (columns df) ->
                  cell c r = if float_column (map (record_value c) recs)
                             then to_float (record_value c rec)
                             else record_value c rec)) /\
      (all_dicts l = None ->
         coerce_results (results_of d) = frame_of_list l /\
         (forall df, frame_of_list l = Ok df ->
            In CallCleanDataframe (fst (analyze_f1_data query))))
  | RValue v =>
      analyze_f1_data query =
      ([CallProcessQuery; CallAdapt; CallToDataRequirements; CallProcess;
        CallAdaptPipelineResult; CallDataFrame],
       Ok [("success", FBool false);
           ("error", FText "Analysis failed");
           ("details",
            FText ("Failed to process data: Cannot process results of type: "
                   ++ type_repr v));
           ("processing_time", FSeconds (now 1 - now 0))])
  end.
Proof.
  intros Hp Hs Hd.
  assert (Hscalar : forall v,
             results_of d = RValue v -> is_dict v = false -> is_list v = false ->
             analyze_f1_data query =
             (pipeline_calls ++ [CallDataFrame],
              Ok (failure_response
                    ("Failed to process data: Cannot process results of type: "
                     ++ type_repr v)
                    (now 1 - now 0)))).
  { intros v Hv Hnd Hnl.
    rewrite (analyze_f1_data_table query qr pr d Hp Hs Hd).
    rewrite process_dataframe_cases, Hv.
    destruct v; try discriminate; reflexivity. }
  destruct (results_of d) as [df | v] eqn:Er; [ reflexivity | ].
  destruct v; try (apply Hscalar; reflexivity).
  - split.
    + intros recs Hrecs. cbn [coerce_results]. rewrite Hrecs.
      destruct (table_of_records recs) as [Hc [Hl Hrows]].
      eexists. split; [ reflexivity | ].
      split; [ exact Hc | split ].
      * rewrite Hl. now apply all_dicts_length.
      * intros i rec Hi. destruct (Hrows i rec Hi) as [r [Hr [Hlab Hcell]]].
        exists r. split; [ exact Hr | split; [ exact Hlab | ] ].
        intros c Hin. apply Hcell. now rewrite <- Hc.
    + intros Hnone. cbn [coerce_results]. rewrite Hnone.
      split; [ reflexivity | ]. intros df Hdf.
      rewrite (analyze_f1_data_table query qr pr d Hp Hs Hd).
      rewrite process_dataframe_cases, Er. cbn [coerce_results].
      rewrite Hnone, Hdf.
      destruct (clean_dataframe df) as [df1 | e];
        [ | simpl; do 6 right; now left ].
      destruct (normalize_constructor_data df1) as [df2 | e];
        [ | simpl; do 6 right; now left ].
      destruct (df_empty df2); [ simpl; do 6 right; now left | ].
      destruct (generate_code df2 query); simpl; do 6 right; now left.
  - eexists. split; [ reflexivity | split ].
    + reflexivity.
    + apply table_of_one_record.
Qed.

End ControllerPaths.

Section MockRequests.
#[local] Existing Instance sample_parsers.
#[local] Existing Instance mock_collaborators.

Lemma analyze_f1_data_pipeline_failed_witness :
  exists details,
    analyze_f1_data "down" =
      ([CallProcessQuery; CallAdapt; CallToDataRequirements; CallProcess;
        CallAdaptPipelineResult],
       Ok [("success", FBool false);
           ("error", FText "Analysis failed");
           ("details", FText details);
           ("processing_time", FSeconds (now 1 - now 0))]) /\
    (forall text, error (mock_pipeline_result "down") = Some text ->
       text <> "" ->
       details = ("Pipeline processing failed: " ++ text)%string) /\
    (error (mock_pipeline_result "down") = None \/
     error (mock_pipeline_result "down") = Some "" ->
       details = "Pipeline processing failed: No data returned") /\
    (forall text, error (mock_pipeline_result "down") = Some text ->
                  contains text details) /\
    (forall c, In c (fst (analyze_f1_data "down")) ->
       c <> CallDataFrame /\ c <> CallCleanDataframe /\
       c <> CallNormalizeConstructorData /\
       c <> CallGenerateCode /\ c <> CallExecuteCode).
Proof.
  apply (@analyze_f1_data_pipeline_failed sample_parsers mock_collaborators
           "down" "down" (mock_pipeline_result "down")).
  - exists "down", "down", "down". repeat split; reflexivity.
  - left. reflexivity.
Defined.

(** The adapter reports success but hands over no data. *)
Example analyze_f1_data_no_data :
  analyze_f1_data "no data" =
  (pipeline_calls,
   Ok (failure_response "Pipeline processing failed: No data returned" 5)).
Proof. reflexivity. Qed.

Example analyze_f1_data_down :
  analyze_f1_data "down" =
  (pipeline_calls,
   Ok (failure_response "Pipeline processing failed: upstream timeout" 5)).
Proof. reflexivity. Qed.

Lemma coerce_results_by_shape_witness :
  analyze_f1_data "scalar" =
  ([CallProcessQuery; CallAdapt; CallToDataRequirements; CallProcess;
    CallAdaptPipelineResult; CallDataFrame],
   Ok [("success", FBool false);
       ("error", FText "Analysis failed");
       ("details",
        FText "Failed to process data: Cannot process results of type: <class 'int'>");
       ("processing_time", FSeconds (now 1 - now 0))]).
Proof.
  apply (@coerce_results_by_shape sample_parsers mock_collaborators
           "scalar" "scalar" (mock_pipeline_result "scalar")
           [("results", RValue (PInt 7))]).
  - exists "scalar", "scalar", "scalar". repeat split; reflexivity.
  - reflexivity.
  - reflexivity.
Defined.

(** A full request: the table is normalised, expanded and analysed. *)
Example analyze_f1_data_success :
  analyze_f1_data "How many podiums did Ferrari get in 2021?" =
  (pipeline_calls ++
   [CallDataFrame; CallCleanDataframe; CallNormalizeConstructorData;
    CallGenerateCode; CallExecuteCode],
   Ok (success_response 1 "result = len(df)"
         "How many podiums did Ferrari get in 2021?" 5 "meta")).
Proof. reflexivity. Qed.

End MockRequests.

(** *** The paths of a request, with stubbed collaborators *)

Ltac stub_pipeline q :=
  exists q, q, q; repeat split; reflexivity.

Lemma analyze_f1_data_stage_fault_witness :
  @analyze_f1_data sample_parsers stub_no_results "" =
    ([CallProcessQuery],
     Ok (@failure_response stub_no_results "empty query" 5)) /\
  (exists rest, pipeline_calls = [CallProcessQuery] ++ rest) /\
  forallb (fun c => negb (table_call c)) [CallProcessQuery] = true.
Proof.
  apply (@analyze_f1_data_stage_fault sample_parsers stub_no_results ""
           (Error ValueError "empty query") [CallProcessQuery]).
  left. split; reflexivity.
Defined.

Lemma analyze_f1_data_empty_table_witness :
  @analyze_f1_data sample_parsers stub_stray_year "Ferrari in 2021" =
  (pipeline_calls ++ table_steps,
   Ok (@failure_response stub_stray_year
         "Failed to process data: 400: No data available after processing" 5)).
Proof.
  apply (@analyze_f1_data_empty_table sample_parsers stub_stray_year
           "Ferrari in 2021" "Ferrari in 2021"
           (carrying [("results", RFrame stray_year)])
           [("results", RFrame stray_year)]
           stray_year
           (mkFrame ["year"; "ConstructorTable"] [])
           (mkFrame ["year"] []));
    try reflexivity.
  stub_pipeline "Ferrari in 2021".
Defined.

Lemma analyze_f1_data_missing_results_witness :
  @analyze_f1_data sample_parsers stub_no_results "Ferrari in 2021" =
  (pipeline_calls ++ table_steps,
   Ok (@failure_response stub_no_results
         "Failed to process data: 400: No data available after processing" 5)).
Proof.
  apply (@analyze_f1_data_missing_results sample_parsers stub_no_results
           "Ferrari in 2021" "Ferrari in 2021"
           (carrying [("count", RValue (PInt 3))])
           [("count", RValue (PInt 3))]);
    try reflexivity.
  - stub_pipeline "Ferrari in 2021".
  - intros kv [<- | []]. discriminate.
Defined.

Lemma analyze_f1_data_execution_failed_witness :
  @analyze_f1_data sample_parsers stub_failed_run "Ferrari in 2021" =
  (request_calls,
   Ok (@failure_response stub_failed_run
         "Code execution failed: name 'points' is not defined" 5)).
Proof.
  apply (@analyze_f1_data_execution_failed sample_parsers stub_failed_run
           "Ferrari in 2021" "Ferrari in 2021"
           (carrying [("results", RFrame one_season)])
           [("results", RFrame one_season)]
           one_season_expanded "result = len(df)"
           "name 'points' is not defined" "result = points");
    try reflexivity.
  stub_pipeline "Ferrari in 2021".
Defined.

Lemma analyze_f1_data_normaliser_fault_witness :
  @analyze_f1_data sample_parsers stub_tagged "Ferrari in 2021" =
  (pipeline_calls ++ [CallDataFrame; CallCleanDataframe],
   Ok (@failure_response stub_tagged
         "Failed to process data: unhashable type: 'list'" 5)).
Proof.
  apply (@analyze_f1_data_normaliser_fault sample_parsers stub_tagged
           "Ferrari in 2021" "Ferrari in 2021"
           (carrying [("results", RFrame tagged_results)])
           [("results", RFrame tagged_results)]
           tagged_results (Error TypeError "unhashable type: 'list'"));
    try reflexivity.
  stub_pipeline "Ferrari in 2021".
Defined.

Lemma analyze_f1_data_analysis_fault_witness :
  @analyze_f1_data sample_parsers stub_no_generator "Ferrari in 2021" =
  (pipeline_calls ++ table_steps ++ [CallGenerateCode],
   Ok (@failure_response stub_no_generator "model unavailable" 5)).
Proof.
  apply (@analyze_f1_data_analysis_fault sample_parsers stub_no_generator
           "Ferrari in 2021" "Ferrari in 2021"
           (carrying [("results", RFrame one_season)])
           [("results", RFrame one_season)]
           one_season_expanded
           (Error (OtherError "RuntimeError") "model unavailable"));
    try reflexivity.
  - stub_pipeline "Ferrari in 2021".
  - left. reflexivity.
Defined.

(** With the stubs that go through, the request succeeds. *)
Example analyze_f1_data_stub_success :
  @analyze_f1_data sample_parsers
     (stub_collaborators (carrying [("results", RFrame one_season)])
        good_code good_outcome)
     "Ferrari in 2021" =
  (request_calls,
   Ok (@success_response
         (stub_collaborators (carrying [("results", RFrame one_season)])
            good_code good_outcome)
         "1" "result = len(df)" "Ferrari in 2021" 5 "meta")).
Proof. reflexivity. Qed.

(** C7, as stated, fails on the payload [[7, 8]]: it is neither a
    table, a record nor a list of records, yet the request meets no
    shape error: the list becomes a table, the table steps, the code
    generator and the executor are called on it, and the request ends
    with the success response. *)
Lemma coerce_results_list_of_scalars :
  results_of [("results", RValue (PList [PInt 7; PInt 8]))]
  = RValue (PList [PInt 7; PInt 8]) /\
  all_dicts [PInt 7; PInt 8] = None /\
  @coerce_results stub_scalar_list (RValue (PList [PInt 7; PInt 8]))
  = Ok scalar_table /\
  @analyze_f1_data sample_parsers stub_scalar_list "Ferrari in 2021" =
  ([CallProcessQuery; CallAdapt; CallToDataRequirements; CallProcess;
    CallAdaptPipelineResult; CallDataFrame; CallCleanDataframe;
    CallNormalizeConstructorData; CallGenerateCode; CallExecuteCode],
   Ok [("success", FBool true);
       ("data", @FPayload stub_scalar_list "1");
       ("executed_code", FText "result = len(df)");
       ("query_trace", @FTrace stub_scalar_list "Ferrari in 2021");
       ("processing_time", FSeconds 5);
       ("metadata", @FMetadata stub_scalar_list "meta")]).
Proof. repeat split. Qed.

(** The list clause of C7 on the same payload: no shape error, and the
    normaliser is called on the table. *)
Example coerce_results_list_of_scalars_goes_on :
  In CallCleanDataframe
     (fst (@analyze_f1_data sample_parsers stub_scalar_list "Ferrari in 2021")).
Proof.
  refine (proj2 (proj2 (@coerce_results_by_shape sample_parsers stub_scalar_list
                   "Ferrari in 2021" "Ferrari in 2021"
                   (carrying [("results", RValue (PList [PInt 7; PInt 8]))])
                   [("results", RValue (PList [PInt 7; PInt 8]))]
                   _ eq_refl eq_refl) eq_refl) scalar_table eq_refl).
  exists "Ferrari in 2021", "Ferrari in 2021", "Ferrari in 2021".
  repeat split; reflexivity.
Qed.

Lemma analyze_f1_data_uniform_witness :
  @analyze_f1_data sample_parsers stub_tagged "Ferrari in 2021" =
  ([CallProcessQuery; CallAdapt; CallToDataRequirements; CallProcess;
    CallAdaptPipelineResult; CallDataFrame; CallCleanDataframe],
   Ok [("success", FBool false);
       ("error", FText "Analysis failed");
       ("details", FText "Failed to process data: unhashable type: 'list'");
       ("processing_time", FSeconds 5)]).
Proof.
  apply (proj1 (@analyze_f1_data_uniform sample_parsers stub_tagged
                  "Ferrari in 2021")).
  apply (@fault_normaliser sample_parsers stub_tagged "Ferrari in 2021"
           "Ferrari in 2021"
           (carrying [("results", RFrame tagged_results)])
           [("results", RFrame tagged_results)]
           tagged_results (Error TypeError "unhashable type: 'list'")).
  - split; [ stub_pipeline "Ferrari in 2021" | split; reflexivity ].
  - reflexivity.
  - reflexivity.
Defined.

(** A fault of the first stage and a failure reported by the executor,
    as the same theorem gives them. *)
Example analyze_f1_data_uniform_first_and_last :
  @analyze_f1_data sample_parsers stub_no_results "" =
  ([CallProcessQuery],
   Ok [("success", FBool false);
       ("error", FText "Analysis failed");
       ("details", FText "empty query");
       ("processing_time", FSeconds 5)]) /\
  @analyze_f1_data sample_parsers stub_failed_run "Ferrari in 2021" =
  ([CallProcessQuery; CallAdapt; CallToDataRequirements; CallProcess;
    CallAdaptPipelineResult; CallDataFrame; CallCleanDataframe;
    CallNormalizeConstructorData; CallGenerateCode; CallExecuteCode],
   Ok [("success", FBool false);
       ("error", FText "Analysis failed");
       ("details", FText "Code execution failed: name 'points' is not defined");
       ("processing_time", FSeconds 5)]).
Proof. split; reflexivity. Qed.
